(** * data-gradients: batch adaptation, orchestration and feature extractors

    A shallow embedding of the parts of the repository that decide how raw
    batches are mapped to images and labels ([batch_processors/adapters/base.py]),
    how the detection manager validates its class options
    ([managers/detection_manager.py]), how the orchestrator streams batches
    through the extractors ([manager.py]) and how the extractors accumulate
    and aggregate their histograms.

    Python objects are records, mutation is explicit state passing, and a
    raised exception is an outcome that keeps the state reached when it was
    raised. *)

From Stdlib Require Import ZArith Lia.
From stdpp Require Import base list strings pretty.

Set Default Proof Using "Type".

(** ** A small Python runtime *)

Module Py.

(** The exception classes raised by the modelled code. *)
Inductive exn : Type :=
| StopIteration
| IndexError
| KeyError
| TypeError
| AttributeError
| UnboundLocalError
| NotImplementedError (msg : string)
| RuntimeError (msg : string)
| ImageExtractorError                   (* defined in adapters/base.py *)
| LabelsExtractorError.                 (* defined in adapters/base.py *)

(** [type(e).__name__] *)
Definition exn_class (e : exn) : string :=
  match e with
  | StopIteration => "StopIteration"
  | IndexError => "IndexError"
  | KeyError => "KeyError"
  | TypeError => "TypeError"
  | AttributeError => "AttributeError"
  | UnboundLocalError => "UnboundLocalError"
  | NotImplementedError _ => "NotImplementedError"
  | RuntimeError _ => "RuntimeError"
  | ImageExtractorError => "ImageExtractorError"
  | LabelsExtractorError => "LabelsExtractorError"
  end.

(** The message of the exceptions raised with one. *)
Definition exn_message (e : exn) : option string :=
  match e with
  | NotImplementedError msg | RuntimeError msg => Some msg
  | _ => None
  end.

(** The classes that [adapters/base.py] defines for a failed extraction. *)
Definition is_extraction_error (e : exn) : bool :=
  match e with
  | ImageExtractorError | LabelsExtractorError => true
  | _ => false
  end.

Inductive outcome (A : Type) : Type :=
| Returned (a : A)
| Raised (e : exn).
Arguments Returned {A} a.
Arguments Raised {A} e.

(** A method of an object of state [S]: it returns or raises, and in both
    cases leaves the object in some state. *)
Definition M (S A : Type) : Type := S → outcome A * S.

Definition ret {S A} (a : A) : M S A := λ s, (Returned a, s).
Definition raise {S A} (e : exn) : M S A := λ s, (Raised e, s).
Definition bind {S A B} (c : M S A) (k : A → M S B) : M S B :=
  λ s, match c s with
       | (Returned a, s') => k a s'
       | (Raised e, s') => (Raised e, s')
       end.
Definition get {S} : M S S := λ s, (Returned s, s).
Definition modify {S} (f : S → S) : M S unit := λ s, (Returned tt, f s).

(** [for x in xs: body(x)] *)
Fixpoint for_ {S X} (xs : list X) (body : X → M S unit) : M S unit :=
  match xs with
  | [] => ret tt
  | x :: xs' => bind (body x) (λ _, for_ xs' body)
  end.

(** A method of a component, run on the object that owns the component. *)
Definition zoom {S T A} (proj : S → T) (upd : T → S → S) (c : M T A) : M S A :=
  λ s, let '(o, t) := c (proj s) in (o, upd t s).

(** A Python iterator over a finite collection.  [n_next] is a ghost
    counter of the calls to [next], failed ones included. *)
Record Iterator (A : Type) : Type := MkIterator {
  pending : list A;
  n_next : nat;
}.
Arguments MkIterator {A} pending n_next.
Arguments pending {A} i.
Arguments n_next {A} i.

Definition iter {A} (xs : list A) : Iterator A := MkIterator xs 0.

(** [next(it)] *)
Definition next {A} : M (Iterator A) A :=
  λ it, match pending it with
        | [] => (Raised StopIteration, MkIterator [] (S (n_next it)))
        | x :: rest => (Returned x, MkIterator rest (S (n_next it)))
        end.

(** Truth value of an [Optional[int]] and of an [Optional[list]]. *)
Definition truthy_int (n : option Z) : bool :=
  match n with
  | Some z => negb (z =? 0)%Z
  | None => false
  end.
Definition truthy_list {A} (l : option (list A)) : bool :=
  match l with
  | Some (_ :: _) => true
  | _ => false
  end.

End Py.

Export Py.

Declare Scope py_scope.
Delimit Scope py_scope with py.
Notation "'let!' x := c 'in' k" := (Py.bind c (λ x, k))
  (at level 10, x name, c at level 100, k at level 200) : py_scope.
Notation "'do!' c 'in' k" := (Py.bind c (λ _, k))
  (at level 10, c at level 100, k at level 200) : py_scope.
Open Scope py_scope.

(** ** Data classes *)

Module DataClasses.

(** A tensor or array: only its shape and flattened content matter here. *)
Record Tensor : Type := MkTensor {
  shape : list nat;
  values : list Z;
}.

(** A contour of the old pipeline: the polygon of one connected component. *)
Record Contour : Type := MkContour {
  points : list (Z * Z);
}.

(** [utils.data_classes.BatchData] as the extractors of
    [feature_extractors/segmentation_extractors.py] read it:
    [batch_onehot_contours] holds, per image, per class, the contours. *)
Record BatchData : Type := MkBatchData {
  images : Tensor;
  labels : Tensor;
  batch_onehot_contours : list (list (list Contour));
}.

End DataClasses.

(** ** feature_extractors/segmentation_extractors.py *)

Module SegmentationExtractors.
Import DataClasses.

Record SegmentationCountNumObjects : Type := MkCountNumObjects {
  train_set : bool;
  _hist : list nat;
}.

(** [__init__]: [self._hist = [0] * 51] *)
Definition __init__ (train_set : bool) : SegmentationCountNumObjects :=
  MkCountNumObjects train_set (replicate 51 0).

(** [num_objects_per_image = 0; for cls_contours in onehot_contours:
     num_objects_per_image += len(cls_contours)] *)
Definition num_objects_per_image (onehot_contours : list (list Contour)) : nat :=
  foldl (λ acc cls_contours, acc + length cls_contours) 0 onehot_contours.

(** [self._hist[n] += 1]: the read raises [IndexError] out of range (the
    index is a count, never negative). *)
Definition hist_incr (n : nat) : M SegmentationCountNumObjects unit :=
  λ self, match _hist self !! n with
          | Some v => (Returned tt, MkCountNumObjects (train_set self) (<[n := v + 1]> (_hist self)))
          | None => (Raised IndexError, self)
          end.

Definition execute (data : BatchData) : M SegmentationCountNumObjects unit :=
  for_ (batch_onehot_contours data)
       (λ onehot_contours, hist_incr (num_objects_per_image onehot_contours)).

End SegmentationExtractors.

(** The figure of one extractor: the bar plots drawn on its axis, in
    order.  A normalized histogram [np.array(hist) / sum(hist)] is kept as
    the counts and their divisor. *)
Module Plotting.

Record BarPlot : Type := MkBarPlot {
  bar_counts : list nat;
  bar_divisor : nat;
  bar_labels : list nat;
  bar_title : string;
  bar_train : bool;
}.

Definition Ax : Type := list BarPlot.

(** [create_bar_plot(ax, ...)] *)
Definition create_bar_plot (ax : Ax) (plot : BarPlot) : Ax := ax ++ [plot].

End Plotting.

Module CountNumObjectsProcess.
Import DataClasses SegmentationExtractors Plotting.

(** [self._hist[-i]] for [0 <= i < len(self._hist)] *)
Definition hist_from_end (hist : list nat) (i : nat) : nat :=
  default 0 (hist !! (if i is 0 then 0 else length hist - i)).

(** [idx = len(self._hist)], then the first [i] with [self._hist[-i] > 0]
    sets [idx = len(self._hist) - i + 1]. *)
Definition cut_index (hist : list nat) : nat :=
  match list_find (λ i, 0 < hist_from_end hist i) (seq 0 (length hist)) with
  | Some (_, i) => length hist - i + 1
  | None => length hist
  end.

Definition process (ax : Ax) : M SegmentationCountNumObjects Ax :=
  let! self := get in
  let hist := take (cut_index (_hist self)) (_hist self) in
  ret (create_bar_plot ax
         (MkBarPlot hist (sum_list hist) (seq 0 (length hist))
                    "# Objects per image" (train_set self))).

End CountNumObjectsProcess.

(** ** The extractor interface of the orchestrator *)

Module Extractor.
Import DataClasses Plotting.

(** What the manager asks of an extractor. *)
Class FeatureExtractor (E : Type) : Type := {
  execute : BatchData → M E unit;
  process : Ax → M E Ax;
  class_name : E → string;
}.

#[export] Instance CountNumObjects_extractor
  : FeatureExtractor SegmentationExtractors.SegmentationCountNumObjects := {|
  execute := SegmentationExtractors.execute;
  process := CountNumObjectsProcess.process;
  class_name := λ _, "SegmentationCountNumObjects";
|}.

End Extractor.

(** ** manager.py *)

Module Manager.
Import DataClasses Plotting.
Export (hints) Extractor.

(** The module-level flag, as shipped. *)
Definition debug_mode : bool := true.

Inductive Which : Type := TrainExtractors | ValExtractors.

(** A call [extractor.execute(batch_data)] handed to the thread pool, the
    extractor being the one at [task_index] of the list [task_list]. *)
Record Task : Type := MkTask {
  task_list : Which;
  task_index : nat;
  task_batch : BatchData;
}.

(** [for x in xs: body] where the body assigns a local variable. *)
Fixpoint for_fold {S X L} (xs : list X) (l : L) (body : X → L → M S L) : M S L :=
  match xs with
  | [] => ret l
  | x :: xs' => let! l' := body x l in for_fold xs' l' body
  end.

(** [try: c  except StopIteration: handler  else: orelse] *)
Definition try_except_StopIteration {S A B}
    (c : M S A) (handler : M S B) (orelse : A → M S B) : M S B :=
  λ s, match c s with
       | (Returned a, s') => orelse a s'
       | (Raised StopIteration, s') => handler s'
       | (Raised e, s') => (Raised e, s')
       end.

Section manager.
Context {E : Type} `{Extractor.FeatureExtractor E}.

(** The task preprocessor, whose code is outside this development, taken as
    a function that returns. *)
Variable preprocess : Tensor → Tensor → BatchData.

(** The order in which the pool completes the calls it holds. *)
Variable schedule : list Task → list Task.

Record AnalysisManager : Type := MkManager {
  _train_extractors : list E;
  _val_extractors : list E;
  _threads : list Task;
  _train_only : bool;
  _train_iter : Iterator (Tensor * Tensor);
  _val_iter : option (Iterator (Tensor * Tensor));
  _logger : list (string * Ax);
  _length_data : nat;
}.

Definition extractors (w : Which) (self : AnalysisManager) : list E :=
  match w with
  | TrainExtractors => _train_extractors self
  | ValExtractors => _val_extractors self
  end.

Definition set_extractors (w : Which) (es : list E) (self : AnalysisManager) : AnalysisManager :=
  match w with
  | TrainExtractors =>
      MkManager es (_val_extractors self) (_threads self) (_train_only self)
                (_train_iter self) (_val_iter self) (_logger self) (_length_data self)
  | ValExtractors =>
      MkManager (_train_extractors self) es (_threads self) (_train_only self)
                (_train_iter self) (_val_iter self) (_logger self) (_length_data self)
  end.

Definition set_threads (q : list Task) (self : AnalysisManager) : AnalysisManager :=
  MkManager (_train_extractors self) (_val_extractors self) q (_train_only self)
            (_train_iter self) (_val_iter self) (_logger self) (_length_data self).

Definition set_train_only (b : bool) (self : AnalysisManager) : AnalysisManager :=
  MkManager (_train_extractors self) (_val_extractors self) (_threads self) b
            (_train_iter self) (_val_iter self) (_logger self) (_length_data self).

Definition set_train_iter (it : Iterator (Tensor * Tensor)) (self : AnalysisManager)
  : AnalysisManager :=
  MkManager (_train_extractors self) (_val_extractors self) (_threads self) (_train_only self)
            it (_val_iter self) (_logger self) (_length_data self).

Definition set_val_iter (it : Iterator (Tensor * Tensor)) (self : AnalysisManager)
  : AnalysisManager :=
  MkManager (_train_extractors self) (_val_extractors self) (_threads self) (_train_only self)
            (_train_iter self) (Some it) (_logger self) (_length_data self).

Definition set_logger (lg : list (string * Ax)) (self : AnalysisManager) : AnalysisManager :=
  MkManager (_train_extractors self) (_val_extractors self) (_threads self) (_train_only self)
            (_train_iter self) (_val_iter self) lg (_length_data self).

(** [_get_batch(dataloader)] on the iterator itself. *)
Definition _get_batch : M (Iterator (Tensor * Tensor)) BatchData :=
  let! item := next in
  ret (preprocess item.1 item.2).

(** [self._get_batch(self._train_iter)] *)
Definition _get_batch_train : M AnalysisManager BatchData :=
  zoom _train_iter set_train_iter _get_batch.

(** [self._get_batch(self._val_iter)]; [next(None)] is a [TypeError]. *)
Definition _get_batch_val : M AnalysisManager BatchData :=
  λ self, match _val_iter self with
          | Some it => let '(o, it') := _get_batch it in (o, set_val_iter it' self)
          | None => (Raised TypeError, self)
          end.

(** A method of the extractor at index [i] of the list [w]. *)
Definition on_extractor {A} (w : Which) (i : nat) (c : M E A) (absent : A) : M AnalysisManager A :=
  λ self, match extractors w self !! i with
          | Some e => let '(o, e') := c e in (o, set_extractors w (<[i := e']> (extractors w self)) self)
          | None => (Returned absent, self)
          end.

(** [self._threads.submit(extractor.execute, batch_data)]: the call joins
    those the pool holds; the future stands for it. *)
Definition submit (t : Task) : M AnalysisManager Task :=
  λ self, (Returned t, set_threads (_threads self ++ [t]) self).

(** [[self._threads.submit(extractor.execute, batch_data) for extractor in extractors]] *)
Definition submit_all (w : Which) (batch_data : BatchData) : M AnalysisManager (list Task) :=
  let! self := get in
  for_fold (seq 0 (length (extractors w self))) []
           (λ i futures, let! f := submit (MkTask w i batch_data) in ret (futures ++ [f])).

(** A worker runs one call to its end; what it raises stays in its future,
    which nobody reads. *)
Definition run_task (t : Task) (self : AnalysisManager) : AnalysisManager :=
  (on_extractor (task_list t) (task_index t) (Extractor.execute (task_batch t)) tt self).2.

(** [concurrent.futures.wait(futures, return_when=ALL_COMPLETED)]: when it
    returns, the pool has completed the calls it held, each as a whole, in
    the order the schedule chose.  The calls are run here and not at
    [submit], and the listed futures are not told apart from the other
    calls that the pool holds. *)
Definition wait (futures : list Task) : M AnalysisManager unit :=
  modify (λ self, set_threads [] (foldl (λ m t, run_task t m) self (schedule (_threads self)))).

(** One pass of the loop body of [execute]; [futures] is the local variable
    of that name, [None] while it is unbound. *)
Definition execute_body (debug_mode : bool) (train_batch : nat) (futures : option (list Task))
  : M AnalysisManager (option (list Task)) :=
  if (3 <? train_batch) && debug_mode then ret futures else
  let! batch_data := _get_batch_train in
  let! self := get in
  let! futures :=
    for_fold (seq 0 (length (_train_extractors self))) futures
      (λ i futures,
         if negb debug_mode then
           let! fs := submit_all TrainExtractors batch_data in ret (Some fs)
         else
           do! on_extractor TrainExtractors i (Extractor.execute batch_data) tt in ret futures) in
  let! self := get in
  let! futures :=
    if negb (_train_only self) then
      try_except_StopIteration _get_batch_val
        (do! modify (set_train_only true) in ret futures)
        (λ batch_data,
           let! self := get in
           for_fold (seq 0 (length (_val_extractors self))) futures
             (λ i futures,
                if negb debug_mode then
                  match futures with
                  | Some fs =>
                      let! new := submit_all ValExtractors batch_data in ret (Some (fs ++ new))
                  | None => raise UnboundLocalError
                  end
                else
                  do! on_extractor ValExtractors i (Extractor.execute batch_data) tt in ret futures))
    else ret futures in
  if negb debug_mode then
    match futures with
    | Some fs => do! wait fs in ret futures
    | None => raise UnboundLocalError
    end
  else ret futures.

(** [for train_batch in tqdm.trange(self._length_data): ...] *)
Definition execute_loop (debug_mode : bool) (train_batches : list nat)
    (futures : option (list Task)) : M AnalysisManager (option (list Task)) :=
  for_fold train_batches futures (execute_body debug_mode).

Definition execute (debug_mode : bool) : M AnalysisManager unit :=
  let! self := get in
  let! _ := execute_loop debug_mode (seq 0 (_length_data self)) None in
  ret tt.

(** [self._logger.log_graph(name, fig)] *)
Definition log_graph (name : string) (fig : Ax) : M AnalysisManager unit :=
  modify (λ self, set_logger (_logger self ++ [(name, fig)]) self).

Definition extractor_class_name (w : Which) (i : nat) (self : AnalysisManager) : string :=
  match extractors w self !! i with
  | Some e => Extractor.class_name e
  | None => EmptyString
  end.

Definition post_process : M AnalysisManager unit :=
  let! self := get in
  for_ (seq 0 (length (_val_extractors self) `min` length (_train_extractors self)))
    (λ i,
       let ax : Ax := [] in
       let! self := get in
       (* First val - because graph params will be overwritten by latest (train) *)
       let! ax := (if negb (_train_only self)
                   then on_extractor ValExtractors i (Extractor.process ax) ax
                   else ret ax) in
       let! ax := on_extractor TrainExtractors i (Extractor.process ax) ax in
       let! self := get in
       log_graph (extractor_class_name ValExtractors i self +:+ "/fig") ax).

(** In the words of the specification, for a run whose val split is
    exhausted: the val extractors are skipped and the train extractors are
    aggregated, one figure each. *)
Definition aggregate_train_only : M AnalysisManager unit :=
  let! self := get in
  for_ (seq 0 (length (_val_extractors self) `min` length (_train_extractors self)))
    (λ i,
       let! ax := on_extractor TrainExtractors i (Extractor.process []) [] in
       let! self := get in
       log_graph (extractor_class_name ValExtractors i self +:+ "/fig") ax).

(** Every extractor of a list applied to the successive batches, in order:
    what a split's extractors are to have seen after those batches. *)
Definition execute_all (batch_data : BatchData) : M (list E) unit :=
  λ es, for_ (seq 0 (length es))
             (λ i es, match es !! i with
                      | Some e => let '(o, e') := Extractor.execute batch_data e in (o, <[i := e']> es)
                      | None => (Returned tt, es)
                      end) es.
Definition feed (batches : list BatchData) : M (list E) unit :=
  for_ batches execute_all.

Definition val_next_count (self : AnalysisManager) : nat :=
  match _val_iter self with
  | Some it => n_next it
  | None => 0
  end.

End manager.

End Manager.

(** ** batch_processors/adapters/base.py *)

Module Adapter.
Import DataClasses.

(** What a data iterator may yield. *)
#[warnings="-register-all"] Inductive PyData : Type :=
| PyTensor (t : Tensor)                    (* torch.Tensor *)
| PyNdarray (t : Tensor)                   (* np.ndarray *)
| PyImage (t : Tensor)                     (* PIL.Image.Image *)
| PyTuple (items : list PyData)
| PyList (items : list PyData)
| PyMapping (entries : list (string * PyData))
| PyObject (cls : string).                 (* an instance of any other class *)

(** [isinstance(data, (Tuple, List))] *)
Definition is_tuple_or_list (data : PyData) : bool :=
  match data with
  | PyTuple _ | PyList _ => true
  | _ => false
  end.

(** [isinstance(data, (Tuple, List, Mapping, Tuple, List))] *)
Definition is_supported_container (data : PyData) : bool :=
  match data with
  | PyTuple _ | PyList _ | PyMapping _ => true
  | _ => false
  end.

(** [isinstance(x, (torch.Tensor, np.ndarray, PIL.Image.Image))] *)
Definition is_array_like (x : PyData) : bool :=
  match x with
  | PyTensor _ | PyNdarray _ | PyImage _ => true
  | _ => false
  end.

(** The items of a tuple or list; used only under [is_tuple_or_list]. *)
Definition seq_items (data : PyData) : list PyData :=
  match data with
  | PyTuple items | PyList items => items
  | _ => []
  end.

(** [isinstance(data, (Tuple, List)) and len(data) == 2], then
    [isinstance(data[i], (torch.Tensor, np.ndarray, PIL.Image.Image))] *)
Definition is_pair_with_array_at (i : nat) (data : PyData) : bool :=
  is_tuple_or_list data && (length (seq_items data) =? 2)
  && match seq_items data !! i with
     | Some x => is_array_like x
     | None => false
     end.

(** [str(type(data))] *)
Definition type_repr (data : PyData) : string :=
  "<class '" +:+
  match data with
  | PyTensor _ => "torch.Tensor"
  | PyNdarray _ => "numpy.ndarray"
  | PyImage _ => "PIL.Image.Image"
  | PyTuple _ => "tuple"
  | PyList _ => "list"
  | PyMapping _ => "dict"
  | PyObject cls => cls
  end +:+ "'>".

Inductive Task : Type := Images | Labels.

Global Instance Task_eq_dec : EqDecision Task.
Proof. solve_decision. Defined.

(** What a configuration slot holds: a path into the batch such as
    ["[0]"], or a function supplied by the caller (named, since only its
    identity matters). *)
Inductive TensorExtractor : Type :=
| PathExtractor (path : string)
| CallableExtractor (name : string).

Record DataConfig : Type := MkDataConfig {
  images_extractor : option TensorExtractor;
  labels_extractor : option TensorExtractor;
}.

Definition slot (t : Task) (c : DataConfig) : option TensorExtractor :=
  match t with
  | Images => images_extractor c
  | Labels => labels_extractor c
  end.

Record Question : Type := MkQuestion {
  question : string;
  options : list (string * string);
}.

(** One of the predefined dataset-shape detectors: its images extractor is
    a method of the batch, its labels extractor an attribute. *)
Record BaseDatasetExtractor : Type := MkDatasetExtractor {
  de_images_extractor : PyData → TensorExtractor;
  de_labels_extractor : TensorExtractor;
}.

(** Ghost trace of what a resolution does outside the adapter: a call to
    the detectors, the enumeration of the candidate paths, a question put
    to the operator, a write of a configuration slot. *)
Inductive Event : Type :=
| EvFindExtractor (t : Task) (data : PyData)
| EvOptions (t : Task) (data : PyData)
| EvAsk (t : Task) (q : Question) (hint : string)
| EvStore (t : Task) (e : TensorExtractor).

Definition event_task (ev : Event) : Task :=
  match ev with
  | EvFindExtractor t _ | EvOptions t _ | EvAsk t _ _ | EvStore t _ => t
  end.

Definition is_store (t : Task) (ev : Event) : bool :=
  match ev with
  | EvStore t' _ => bool_decide (t' = t)
  | _ => false
  end.

(** The events that serve task [t], and the slot writes among them. *)
Definition events_of (t : Task) (evs : list Event) : list Event :=
  filter (λ ev, event_task ev = t) evs.
Definition stores_of (t : Task) (evs : list Event) : nat :=
  length (filter (λ ev, is_store t ev = true) evs).

Record DatasetAdapter : Type := MkAdapter {
  data_config : DataConfig;
  trace : list Event;
}.

Definition log (ev : Event) : M DatasetAdapter unit :=
  modify (λ self, MkAdapter (data_config self) (trace self ++ [ev])).

(** [self.data_config.images_extractor = e] (resp. [labels_extractor]) *)
Definition store (t : Task) (e : TensorExtractor) : M DatasetAdapter unit :=
  do! modify (λ self,
        MkAdapter
          match t with
          | Images => MkDataConfig (Some e) (labels_extractor (data_config self))
          | Labels => MkDataConfig (images_extractor (data_config self)) (Some e)
          end
          (trace self))
  in log (EvStore t e).

Definition nl : string := Eval cbv in String (Ascii.ascii_of_nat 10) EmptyString.

Definition extractor_name (t : Task) : string :=
  match t with
  | Images => "images_extractor"
  | Labels => "labels_extractor"
  end.

Definition unsupported_message (t : Task) (data : PyData) : string :=
  "Got object " +:+ type_repr data +:+ " from Data Iterator which is not supported!" +:+ nl +:+
  "Please implement a custom `" +:+ extractor_name t +:+ "` for your dataset. " +:+
  "You can find more detail about this in our documentation: https://github.com/Deci-AI/data-gradients".

(** The conventional position of a task in a pair. *)
Definition position (t : Task) : nat :=
  match t with
  | Images => 0
  | Labels => 1
  end.

Definition positional (t : Task) : TensorExtractor :=
  match t with
  | Images => PathExtractor "[0]"
  | Labels => PathExtractor "[1]"
  end.

Definition set_slot (t : Task) (e : TensorExtractor) (c : DataConfig) : DataConfig :=
  match t with
  | Images => MkDataConfig (Some e) (labels_extractor c)
  | Labels => MkDataConfig (images_extractor c) (Some e)
  end.

Section adapter.
(** Collaborators whose code is outside this development. *)
Variable find_extractor : PyData → option BaseDatasetExtractor.
Variable get_tensor_extractor_options : PyData → string * list (string * string).
Variable text_to_yellow : string → string.
(** The operator's answer to a question. *)
Variable ask : Question → string → TensorExtractor.
(** Applying a resolved extractor to a batch, and [to_torch]. *)
Variable call_extractor : TensorExtractor → PyData → outcome PyData.
Variable to_torch : PyData → outcome Tensor.

(** Modelled from the spec: [DataConfig.get_images_extractor] and
    [DataConfig.get_labels_extractor], whose file
    ([config/data/data_config.py]) is missing.  A stored extractor is
    returned as it is; with an empty slot the question is put to the
    operator and the chosen path is adopted as the memoized extractor.
    The returned callable is represented by the extractor it is resolved
    from.  A call without a question on an empty slot is not made by the
    adapter; it is given the failure of dereferencing [None]. *)
Definition get_extractor (t : Task) (q : option Question) (hint : string)
  : M DatasetAdapter TensorExtractor :=
  let! self := get in
  match slot t (data_config self), q with
  | Some e, _ => ret e
  | None, Some q =>
      do! log (EvAsk t q hint) in
      do! store t (ask q hint) in
      ret (ask q hint)
  | None, None => raise AttributeError
  end.

(** [self.auto_extractor.find_extractor(data=data)] *)
Definition auto_find (t : Task) (data : PyData)
  : M DatasetAdapter (option BaseDatasetExtractor) :=
  do! log (EvFindExtractor t data) in ret (find_extractor data).

Definition tensor_question (t : Task) (opts : list (string * string)) : Question :=
  MkQuestion
    ("Which tensor represents your " +:+
     text_to_yellow match t with Images => "Image(s)" | Labels => "Label(s)" end +:+ " ?")
    opts.

(** [self.data_config.get_images_extractor(...)],
    [self.data_config.get_labels_extractor(...)] *)
Definition get_images_extractor := get_extractor Images.
Definition get_labels_extractor := get_extractor Labels.

Definition _get_images_extractor (data : PyData) : M DatasetAdapter TensorExtractor :=
  let! self := get in
  match images_extractor (data_config self) with
  | Some _ => get_images_extractor None EmptyString
  | None =>
      (* We use the heuristic that a tuple of 2 should represent (image, label) *)
      if is_pair_with_array_at 0 data then
        do! store Images (PathExtractor "[0]") in         (* We save it for later use *)
        get_images_extractor None EmptyString
      else
      let! found := auto_find Images data in
      match found with
      | Some _ =>
          let! dataset_extractor := auto_find Images data in
          match dataset_extractor with
          | Some de =>
              do! store Images (de_images_extractor de data) in
              get_images_extractor None EmptyString
          | None => raise AttributeError
          end
      | None =>
          (* Otherwise, we ask the user how to map data -> image *)
          if is_supported_container data then
            do! log (EvOptions Images data) in
            let '(description, opts) := get_tensor_extractor_options data in
            get_images_extractor (Some (tensor_question Images opts)) description
          else raise (NotImplementedError (unsupported_message Images data))
      end
  end.

Definition _get_labels_extractor (data : PyData) : M DatasetAdapter TensorExtractor :=
  let! self := get in
  match labels_extractor (data_config self) with
  | Some _ => get_labels_extractor None EmptyString
  | None =>
      (* We use the heuristic that a tuple of 2 should represent (image, label) *)
      if is_pair_with_array_at 1 data then
        do! store Labels (PathExtractor "[1]") in         (* We save it for later use *)
        get_labels_extractor None EmptyString
      else
      let! found := auto_find Labels data in
      match found with
      | Some _ =>
          let! dataset_extractor := auto_find Labels data in
          match dataset_extractor with
          | Some de =>
              do! store Labels (de_labels_extractor de) in
              get_labels_extractor None EmptyString
          | None => raise AttributeError
          end
      | None =>
          (* Otherwise, we ask the user how to map data -> labels *)
          if is_supported_container data then
            do! log (EvOptions Labels data) in
            let '(description, opts) := get_tensor_extractor_options data in
            get_labels_extractor (Some (tensor_question Labels opts)) description
          else raise (NotImplementedError (unsupported_message Labels data))
      end
  end.

(** The resolver of a task. *)
Definition resolver (t : Task) : PyData → M DatasetAdapter TensorExtractor :=
  match t with
  | Images => _get_images_extractor
  | Labels => _get_labels_extractor
  end.

Definition pure {S A} (o : outcome A) : M S A := λ s, (o, s).

Definition _extract_images (data : PyData) : M DatasetAdapter PyData :=
  let! images_extractor := _get_images_extractor data in
  pure (call_extractor images_extractor data).

Definition _extract_labels (data : PyData) : M DatasetAdapter PyData :=
  let! labels_extractor := _get_labels_extractor data in
  pure (call_extractor labels_extractor data).

Definition extract (data : PyData) : M DatasetAdapter (Tensor * Tensor) :=
  let! images := _extract_images data in
  let! labels := _extract_labels data in
  let! images := pure (to_torch images) in
  let! labels := pure (to_torch labels) in
  ret (images, labels).

(** The adapter of a run applied to its successive raw batches, of
    either split. *)
Definition extract_all (batches : list PyData) : M DatasetAdapter unit :=
  for_ batches (λ data, let! _ := extract data in ret tt).

End adapter.

(** How many writes the slot of a task can still take in a run. *)
Definition budget (t : Task) (self : DatasetAdapter) : nat :=
  match slot t (data_config self) with
  | Some _ => 0
  | None => 1
  end.

(** [self'] is reached from [self] by steps that only extend the trace,
    that write the slot of [t] within its budget, and that leave a filled
    slot of [t] alone without any event of [t]. *)
Definition evolves (t : Task) (self self' : DatasetAdapter) : Prop :=
  ∃ new, trace self' = trace self ++ new
         ∧ stores_of t new + budget t self' ≤ budget t self
         ∧ ∀ e, slot t (data_config self) = Some e →
                slot t (data_config self') = Some e ∧ events_of t new = [].

End Adapter.

(** ** managers/detection_manager.py *)

Module DetectionManager.
Import Adapter.

(** The keyword arguments of the constructor that it inspects itself; the
    others are handed on unread. *)
Record Args : Type := MkArgs {
  class_names : option (list string);
  class_names_to_use : option (list string);
  n_classes : option Z;
  feature_extractors : option (list string);
  config_path : option string;
}.

(** The two data iterables, which a constructor could pull from. *)
Record Data : Type := MkData {
  train_data : Iterator PyData;
  val_data : Iterator PyData;
}.

(** What the constructor has settled when it hands over to the batch
    processor and to the base class. *)
Record Resolved : Type := MkResolved {
  r_class_names : list string;
  r_class_names_to_use : list string;
}.

(** [range(n)] *)
Definition range (n : Z) : list Z := Z.of_nat <$> seq 0 (Z.to_nat n).

(** [set(class_names_to_use) - set(class_names)], as the members in the
    order of [class_names_to_use]. *)
Definition invalid_class_names_to_use (to_use names : list string) : list string :=
  filter (λ x, x ∉ names) to_use.

Section detection_manager.
(** The rendering of a set of strings in a message, whose order Python does
    not fix. *)
Variable repr_set : list string → string.

(** [DetectionAnalysisManager.__init__] up to the calls of
    [get_grouped_feature_extractors], [DetectionBatchProcessor] and
    [super().__init__], whose code is outside this development.  The
    [DetectionDataConfig] built between the first two checks is a record of
    arguments that none of the checks reads. *)
Definition __init__ (args : Args) : M Data Resolved :=
  if bool_decide (feature_extractors args ≠ None) && bool_decide (config_path args ≠ None)
  then raise (RuntimeError "`feature_extractors` and `config_path` cannot be specified at the same time")
  else
  (* Check values of `n_classes` and `class_names` to define `class_names`. *)
  if truthy_int (n_classes args) && truthy_list (class_names args)
  then raise (RuntimeError "`class_names` and `n_classes` cannot be specified at the same time")
  else if bool_decide (n_classes args = None) && bool_decide (class_names args = None)
  then raise (RuntimeError "Either `class_names` or `n_classes` must be specified")
  else
  let! names :=
    match truthy_list (class_names args), class_names args, n_classes args with
    | true, Some names, _ => ret names
    | _, _, Some n => ret (pretty <$> range n)
    | _, _, None => raise TypeError       (* range(None) *)
    end in
  (* Define `class_names_to_use` *)
  match truthy_list (class_names_to_use args), class_names_to_use args with
  | true, Some to_use =>
      match invalid_class_names_to_use to_use names with
      | [] => ret (MkResolved names to_use)
      | invalid =>
          raise (RuntimeError
                   ("You defined `class_names_to_use` with classes that are not listed in `class_names`: "
                    +:+ repr_set invalid))
      end
  | _, _ => ret (MkResolved names names)
  end.

End detection_manager.

End DetectionManager.

(** ** feature_extractors/common/image_resolutions.py and
       feature_extractors/segmentation/classes_distribution.py *)

Module FeatureExtractors.
Import DataClasses.

Inductive Split : Type := Train | Val.

Global Instance Split_eq_dec : EqDecision Split.
Proof. solve_decision. Defined.

(** A dictionary with the two keys ["train"] and ["val"]. *)
Record PerSplit (A : Type) : Type := MkPerSplit {
  at_train : A;
  at_val : A;
}.
Arguments MkPerSplit {A} at_train at_val.
Arguments at_train {A} p.
Arguments at_val {A} p.

Definition at_split {A} (s : Split) (p : PerSplit A) : A :=
  match s with
  | Train => at_train p
  | Val => at_val p
  end.

Definition set_split {A} (s : Split) (a : A) (p : PerSplit A) : PerSplit A :=
  match s with
  | Train => MkPerSplit a (at_val p)
  | Val => MkPerSplit (at_train p) a
  end.

(** Keys of the histograms: class ids, and strings (resolutions, class names). *)
Inductive Key : Type :=
| KInt (i : Z)
| KStr (s : string).

Global Instance Key_eq_dec : EqDecision Key.
Proof. solve_decision. Defined.

(** A Python [dict] with counts as values: its items in insertion order. *)
Definition Dict : Type := list (Key * nat).

Definition keys (d : Dict) : list Key := d.*1.
Definition dict_values (d : Dict) : list nat := d.*2.

(** [d[k]], [None] standing for [KeyError]; [d.get(k)] *)
Fixpoint dict_get (k : Key) (d : Dict) : option nat :=
  match d with
  | [] => None
  | (k', v) :: d' => if decide (k' = k) then Some v else dict_get k d'
  end.

(** [d[k] = v]: in place for a key of [d], at the end for a new one. *)
Definition dict_set (k : Key) (v : nat) (d : Dict) : Dict :=
  match dict_get k d with
  | Some _ => (λ kv, if decide (kv.1 = k) then (k, v) else kv) <$> d
  | None => d ++ [(k, v)]
  end.

(** [dict.fromkeys(ks, 0)] *)
Definition fromkeys (ks : list Key) : Dict := foldl (λ d k, dict_set k 0 d) [] ks.

(** Two dictionaries that answer every lookup alike. *)
Definition dict_equiv (d1 d2 : Dict) : Prop := ∀ k, dict_get k d1 = dict_get k d2.

Record Contour : Type := MkContour {
  class_id : Z;
  points : list (Z * Z);
}.

(** A canonical batch: the images and labels of the batch one by one, the
    contours per image and per class, and the split tag. *)
Record SegBatchData : Type := MkSegBatchData {
  images : list Tensor;
  labels : list Tensor;
  contours : list (list (list Contour));
  split : Split;
}.

(** [t.shape[i]] *)
Definition shape_at {S} (i : nat) (t : Tensor) : M S nat :=
  match shape t !! i with
  | Some n => ret n
  | None => raise IndexError
  end.

(** Modelled from the spec: [FeatureExtractorAbstract.merge_dict_splits],
    whose file is missing: the key sets of the two splits are unioned, a key
    missing from a split being added to it with the value zero. *)
Definition fill_missing (ks : list Key) (d : Dict) : Dict :=
  foldl (λ d k, match dict_get k d with Some _ => d | None => dict_set k 0 d end) d ks.
Definition merge_dict_splits (hist : PerSplit Dict) : PerSplit Dict :=
  MkPerSplit (fill_missing (keys (at_val hist)) (at_train hist))
             (fill_missing (keys (at_train hist)) (at_val hist)).

Module ImagesResolutions.

Record ImagesResolutions : Type := MkImagesResolutions {
  _hist : PerSplit Dict;
}.

Definition __init__ : ImagesResolutions := MkImagesResolutions (MkPerSplit [] []).

(** [str(tuple((image.shape[2], image.shape[1])))] *)
Definition resolution_key (w h : nat) : Key :=
  KStr ("(" +:+ pretty w +:+ ", " +:+ pretty h +:+ ")").

(** [if res not in hist: hist[res] = 1 else: hist[res] += 1] *)
Definition count_key (res : Key) (d : Dict) : Dict :=
  match dict_get res d with
  | None => dict_set res 1 d
  | Some v => dict_set res (v + 1) d
  end.

Definition update (data : SegBatchData) : M ImagesResolutions unit :=
  for_ (images data) (λ image,
    let! w := shape_at 2 image in
    let! h := shape_at 1 image in
    modify (λ self,
      MkImagesResolutions
        (set_split (split data)
                   (count_key (resolution_key w h) (at_split (split data) (_hist self)))
                   (_hist self)))).

(** The updates of a run, in the order of its batches. *)
Definition update_all (batches : list SegBatchData) : M ImagesResolutions unit :=
  for_ batches update.

(** The key under which an image is counted, when it has the dimensions
    that [update] reads. *)
Definition image_key (image : Tensor) : option Key :=
  match shape image !! 2, shape image !! 1 with
  | Some w, Some h => Some (resolution_key w h)
  | _, _ => None
  end.
Definition well_shaped (data : SegBatchData) : Prop :=
  Forall (λ image, is_Some (image_key image)) (images data).
Definition batch_keys (data : SegBatchData) : list (Split * Key) :=
  omap (λ image, pair (split data) <$> image_key image) (images data).

(** The histograms after counting the keys of [l], each in its split. *)
Definition count_keys (l : list (Split * Key)) (hist : PerSplit Dict) : PerSplit Dict :=
  foldl (λ h p, set_split p.1 (count_key p.2 (at_split p.1 h)) h) hist l.

(** How often [(s, k)] occurs in a list of keys to count. *)
Definition occurrences (s : Split) (k : Key) (l : list (Split * Key)) : nat :=
  length (filter (λ p, p = (s, k)) l).

(** Returns [(values, bins)]. *)
Definition aggregate (s : Split) : M ImagesResolutions (list nat * list Key) :=
  do! modify (λ self, MkImagesResolutions (merge_dict_splits (_hist self))) in
  let! self := get in
  ret (dict_values (at_split s (_hist self)), keys (at_split s (_hist self))).

End ImagesResolutions.

Module GetClassDistribution.

(** The class-id to class-name table carried by every extractor. *)
Definition IdToName : Type := option (list (Z * Key)).

Record GetClassDistribution : Type := MkGetClassDistribution {
  _hist : PerSplit Dict;
  _total_objects : PerSplit nat;
  ignore_labels : list Z;
  id_to_name : IdToName;
}.

(** [[int(i) for i in range(0, n_classes + len(ignore_labels)) if i not in ignore_labels]] *)
Definition init_keys (n_classes : nat) (ignore_labels : list Z) : list Key :=
  KInt <$> filter (λ i, i ∉ ignore_labels)
                  (Z.of_nat <$> seq 0 (n_classes + length ignore_labels)).

Definition __init__ (table : IdToName) (n_classes : nat) (ignore_labels : list Z)
  : GetClassDistribution :=
  MkGetClassDistribution
    (MkPerSplit (fromkeys (init_keys n_classes ignore_labels))
                (fromkeys (init_keys n_classes ignore_labels)))
    (MkPerSplit 0 0) ignore_labels table.

(** [self._hist[s][k] += n]: the read raises [KeyError] for a missing key. *)
Definition hist_add (s : Split) (k : Key) (n : nat) : M GetClassDistribution unit :=
  λ self, match dict_get k (at_split s (_hist self)) with
          | Some v =>
              (Returned tt,
               MkGetClassDistribution
                 (set_split s (dict_set k (v + n) (at_split s (_hist self))) (_hist self))
                 (_total_objects self) (ignore_labels self) (id_to_name self))
          | None => (Raised KeyError, self)
          end.

(** [self._total_objects[s] += n] *)
Definition total_add (s : Split) (n : nat) : M GetClassDistribution unit :=
  modify (λ self,
    MkGetClassDistribution
      (_hist self)
      (set_split s (at_split s (_total_objects self) + n) (_total_objects self))
      (ignore_labels self) (id_to_name self)).

Definition update (data : SegBatchData) : M GetClassDistribution unit :=
  for_ (contours data) (λ image_contours,
    for_ image_contours (λ cls_contours,
      match cls_contours with
      | c0 :: _ =>
          do! hist_add (split data) (KInt (class_id c0)) (length cls_contours) in
          total_add (split data) (length cls_contours)
      | [] => ret tt
      end)).

(** The updates of a run, in the order of its batches. *)
Definition update_all (batches : list SegBatchData) : M GetClassDistribution unit :=
  for_ batches update.

(** One class of one image counted: the body of the inner loop of [update]. *)
Definition count_class (s : Split) (cls_contours : list Contour) : M GetClassDistribution unit :=
  match cls_contours with
  | c0 :: _ =>
      do! hist_add s (KInt (class_id c0)) (length cls_contours) in
      total_add s (length cls_contours)
  | [] => ret tt
  end.

(** The classes of the images of a run, flattened, each with its split. *)
Definition class_groups (batches : list SegBatchData) : list (Split * list Contour) :=
  data ← batches; image_contours ← contours data; pair (split data) <$> image_contours.

Section aggregate.
(** Helpers whose code is outside this development: the renaming of the
    keys of a histogram through the table, and the normalization of the
    counts by a total. *)
Variable class_id_to_name : IdToName → Dict → Dict.
Variable Values : Type.
Variable normalize : list nat → nat → Values.

(** Returns [(values, bins)]. *)
Definition aggregate (s : Split) : M GetClassDistribution (Values * list Key) :=
  do! modify (λ self,
        MkGetClassDistribution
          (set_split s (class_id_to_name (id_to_name self) (at_split s (_hist self))) (_hist self))
          (_total_objects self) (ignore_labels self) (id_to_name self)) in
  let! self := get in
  ret (normalize (dict_values (at_split s (_hist self))) (at_split s (_total_objects self)),
       keys (at_split s (_hist self))).

End aggregate.

(** Modelled from the spec: [class_id_to_name], whose file is missing: the
    class-id → class-name resolution table applied to a histogram.  Every
    key that is a class id of the table goes under its name, with its
    count; the other keys stay; without a table the histogram stays. *)
Definition name_of (names : list (Z * Key)) (k : Key) : Key :=
  match k with
  | KInt i =>
      match list_find (λ e : Z * Key, e.1 = i) names with
      | Some (_, (_, name)) => name
      | None => k
      end
  | KStr _ => k
  end.
Definition class_id_to_name (table : IdToName) (hist : Dict) : Dict :=
  match table with
  | None => hist
  | Some names => foldl (λ new_hist kv, dict_set (name_of names kv.1) kv.2 new_hist) [] hist
  end.



End GetClassDistribution.

End FeatureExtractors.

(** ** Concrete inputs *)

Module Samples.
Import DataClasses Adapter.

(** An RGB image tensor of 4 by 4 pixels. *)
Definition image_3x4x4 : Tensor := MkTensor [3; 4; 4] (replicate 48 0%Z).
Definition mask_1x4x4 : Tensor := MkTensor [1; 4; 4] (replicate 16 1%Z).

(** A batch of the old pipeline with one image: 51 contours of one class,
    resp. 2 and 1 contours of two classes. *)
Definition square : Contour := MkContour [(0, 0); (0, 1); (1, 1); (1, 0)]%Z.
Definition crowded_batch : BatchData :=
  MkBatchData image_3x4x4 mask_1x4x4 [[replicate 51 square]].
Definition sparse_batch : BatchData :=
  MkBatchData image_3x4x4 mask_1x4x4 [[[square; square]; [square]]].

(** The usual [(image, label)] pair of a dataset. *)
Definition pair_batch : PyData := PyTuple [PyTensor image_3x4x4; PyTensor mask_1x4x4].

(** A batch that is a bare tensor, not a container. *)
Definition bare_tensor_batch : PyData := PyTensor image_3x4x4.

(** A configuration that no resolution has touched, and one whose images
    extractor was supplied by the caller. *)
Definition fresh_adapter : DatasetAdapter := MkAdapter (MkDataConfig None None) [].
Definition adapter_with_user_extractor : DatasetAdapter :=
  MkAdapter (MkDataConfig (Some (CallableExtractor "my_images_extractor")) None) [].

(** Collaborators: no dataset-shape detector matches, the operator picks the
    first option, paths are not applied further. *)
Definition no_detector (data : PyData) : option BaseDatasetExtractor := None.
Definition no_options (data : PyData) : string * list (string * string) := (EmptyString, []).
Definition plain_text (s : string) : string := s.
Definition first_option (q : Question) (hint : string) : TensorExtractor :=
  match options q with
  | (_, path) :: _ => PathExtractor path
  | [] => PathExtractor EmptyString
  end.
Definition whole_batch (e : TensorExtractor) (data : PyData) : outcome PyData := Returned data.
Definition any_tensor (data : PyData) : outcome Tensor := Returned image_3x4x4.

(** Canonical batches of the train split: two images of 10 by 10, and one
    of 20 by 20 with two contours of class 1 and one of class 0. *)
Definition image_3x10x10 : Tensor := MkTensor [3; 10; 10] (replicate 300 0%Z).
Definition image_3x20x20 : Tensor := MkTensor [3; 20; 20] (replicate 1200 0%Z).
Definition blob (cls : Z) : FeatureExtractors.Contour :=
  FeatureExtractors.MkContour cls [(0, 0); (0, 1); (1, 1); (1, 0)]%Z.
Definition small_batch : FeatureExtractors.SegBatchData :=
  FeatureExtractors.MkSegBatchData [image_3x10x10; image_3x10x10] []
    [[[blob 0]; []]; [[]; [blob 1]]] FeatureExtractors.Train.
Definition large_batch : FeatureExtractors.SegBatchData :=
  FeatureExtractors.MkSegBatchData [image_3x20x20] []
    [[[blob 0]; [blob 1; blob 1]]] FeatureExtractors.Train.

Definition two_classes : FeatureExtractors.GetClassDistribution.GetClassDistribution :=
  FeatureExtractors.GetClassDistribution.__init__
    (Some [(0%Z, FeatureExtractors.KStr "road"); (1%Z, FeatureExtractors.KStr "car")]) 2 [].

(** A preprocessor that finds one contour in the one image of a batch, a
    pool that completes its calls in the order it got them, and managers
    over the contour counter: [n_train] and [n_val] batches in the
    iterators (no val iterator for [n_val = 0]), one or two extractors per
    split. *)
Definition one_contour (images labels : Tensor) : BatchData :=
  MkBatchData images labels [[[square]]].
Definition in_order (q : list Manager.Task) : list Manager.Task := q.
Definition sample_item : Tensor * Tensor := (image_3x4x4, mask_1x4x4).
Definition counting_manager (length_data n_train n_val : nat)
  : Manager.AnalysisManager (E := SegmentationExtractors.SegmentationCountNumObjects) :=
  Manager.MkManager
    [SegmentationExtractors.__init__ true] [SegmentationExtractors.__init__ false] []
    (bool_decide (n_val = 0)) (iter (replicate n_train sample_item))
    (if bool_decide (n_val = 0) then None else Some (iter (replicate n_val sample_item)))
    [] length_data.
Definition two_counters_manager (length_data n_train : nat)
  : Manager.AnalysisManager (E := SegmentationExtractors.SegmentationCountNumObjects) :=
  Manager.MkManager
    [SegmentationExtractors.__init__ true; SegmentationExtractors.__init__ true]
    [SegmentationExtractors.__init__ false; SegmentationExtractors.__init__ false] []
    true (iter (replicate n_train sample_item)) None [] length_data.

(** Constructor arguments of the detection manager. *)
Definition args_with_both : DetectionManager.Args :=
  DetectionManager.MkArgs (Some ["car"; "bus"; "bike"]) None (Some 3%Z) None None.
Definition args_with_neither : DetectionManager.Args :=
  DetectionManager.MkArgs None None None None None.
Definition args_with_n_classes : DetectionManager.Args :=
  DetectionManager.MkArgs None None (Some 3%Z) None None.
Definition args_with_class_names : DetectionManager.Args :=
  DetectionManager.MkArgs (Some ["car"; "bus"; "bike"]) (Some ["bus"]) None None None.
Definition untouched_data : DetectionManager.Data :=
  DetectionManager.MkData (iter [pair_batch; pair_batch]) (iter [pair_batch]).
Definition braces (names : list string) : string :=
  "{" +:+ foldr (λ x acc, "'" +:+ x +:+ "', " +:+ acc) EmptyString names +:+ "}".

End Samples.

(** ** Sequences and tensors as the further extractors read them *)

Module Sequences.
Import DataClasses.

(** [enumerate(xs, start)] *)
Fixpoint enumerate_from {A} (start : nat) (xs : list A) : list (nat * A) :=
  match xs with
  | [] => []
  | x :: xs' => (start, x) :: enumerate_from (S start) xs'
  end.
Definition enumerate {A} (xs : list A) : list (nat * A) := enumerate_from 0 xs.

(** The position that [xs[i]] reads in a list of [len] items, a negative
    [i] counting from the end; [None] stands for [IndexError]. *)
Definition py_index (len : nat) (i : Z) : option nat :=
  if decide (0 ≤ i < Z.of_nat len)%Z then Some (Z.to_nat i)
  else if decide (- Z.of_nat len ≤ i < 0)%Z then Some (Z.to_nat (Z.of_nat len + i))
  else None.

(** [xs[0]] *)
Definition first {S A} (xs : list A) : M S A :=
  match xs with
  | x :: _ => ret x
  | [] => raise IndexError
  end.

(** The [i]-th slice of a tensor along its first dimension. *)
Definition slice (t : Tensor) (i : nat) : Tensor :=
  let size := foldr Nat.mul 1 (tail (shape t)) in
  MkTensor (tail (shape t)) (take size (drop (i * size) (values t))).

(** [t[i]]: out of range, and for a 0-d tensor, an [IndexError]. *)
Definition tensor_at {S} (t : Tensor) (i : nat) : M S Tensor :=
  match shape t with
  | n :: _ => if decide (i < n) then ret (slice t i) else raise IndexError
  | [] => raise IndexError
  end.

(** [iter(t)]: the slices along the first dimension; a 0-d tensor is not
    iterable. *)
Definition tensor_iter {S} (t : Tensor) : M S (list Tensor) :=
  match shape t with
  | n :: _ => ret (slice t <$> seq 0 n)
  | [] => raise TypeError
  end.

(** [torch.max(t)], which refuses a tensor without elements. *)
Definition torch_max {S} (t : Tensor) : M S Z :=
  match values t with
  | v :: vs => ret (foldl Z.max v vs)
  | [] => raise (RuntimeError "max(): Expected reduction dim to be specified for input.numel() == 0.")
  end.

End Sequences.

(** ** feature_extractors/segmentation_extractors.py: the class distribution *)

Module SegmentationGetClassDistribution.
Import DataClasses Sequences.

Record SegmentationGetClassDistribution : Type := MkGetClassDistribution {
  train_set : bool;
  _hist : list nat;
}.

(** [__init__]: [self._hist = [0] * params['number_of_classes']] *)
Definition __init__ (train_set : bool) (number_of_classes : Z)
  : SegmentationGetClassDistribution :=
  MkGetClassDistribution train_set (replicate (Z.to_nat number_of_classes) 0).

(** [self._hist[i] += n] *)
Definition hist_add (i : Z) (n : nat) : M SegmentationGetClassDistribution unit :=
  λ self, match py_index (length (_hist self)) i with
          | Some p =>
              (Returned tt,
               MkGetClassDistribution (train_set self) (alter (λ v, v + n) p (_hist self)))
          | None => (Raised IndexError, self)
          end.

Section execute.
(** [preprocessing.contours.get_contour_class], whose code is outside this
    development: the class of a contour, read off the label of its image. *)
Variable get_contour_class : Contour → Tensor → Z.

(** The body of the inner loop of [execute], for the image at [i]. *)
Definition count_class (data : BatchData) (i : nat) (cls_contours : list Contour)
  : M SegmentationGetClassDistribution unit :=
  let! c0 := first cls_contours in
  let! label := tensor_at (labels data) i in
  hist_add (get_contour_class c0 label - 1) (length cls_contours).

Definition execute (data : BatchData) : M SegmentationGetClassDistribution unit :=
  for_ (enumerate (batch_onehot_contours data)) (λ '(i, onehot_contours),
    for_ onehot_contours (count_class data i)).

End execute.

End SegmentationGetClassDistribution.

(** ** feature_extractors/segmentation/classes_appearances_in_images.py *)

Module AppearancesInImages.
Import DataClasses Sequences FeatureExtractors.

Record AppearancesInImages : Type := MkAppearancesInImages {
  _hist : PerSplit Dict;
  _number_of_images : PerSplit nat;
  ignore_labels : list Z;
}.

Definition __init__ (num_classes : nat) (ignore_labels : list Z) : AppearancesInImages :=
  MkAppearancesInImages
    (MkPerSplit (fromkeys (GetClassDistribution.init_keys num_classes ignore_labels))
                (fromkeys (GetClassDistribution.init_keys num_classes ignore_labels)))
    (MkPerSplit 0 0) ignore_labels.

(** [self._number_of_images[s] += n] *)
Definition images_add (s : Split) (n : nat) : M AppearancesInImages unit :=
  modify (λ self,
    MkAppearancesInImages
      (_hist self)
      (set_split s (at_split s (_number_of_images self) + n) (_number_of_images self))
      (ignore_labels self)).

(** [self._hist[s][j] += 1]: the read raises [KeyError] for a missing key. *)
Definition hist_incr (s : Split) (j : nat) : M AppearancesInImages unit :=
  λ self, match dict_get (KInt (Z.of_nat j)) (at_split s (_hist self)) with
          | Some v =>
              (Returned tt,
               MkAppearancesInImages
                 (set_split s (dict_set (KInt (Z.of_nat j)) (v + 1) (at_split s (_hist self)))
                            (_hist self))
                 (_number_of_images self) (ignore_labels self))
          | None => (Raised KeyError, self)
          end.

(** The body of the inner loop of [update]. *)
Definition count_channel (s : Split) (j : nat) (class_channel : Tensor)
  : M AppearancesInImages unit :=
  let! m := torch_max class_channel in
  if decide (0 < m)%Z then hist_incr s j else ret tt.

(** The body of the outer loop of [update]. *)
Definition count_label (s : Split) (label : Tensor) : M AppearancesInImages unit :=
  let! channels := tensor_iter label in
  for_ (enumerate channels) (λ '(j, class_channel), count_channel s j class_channel).

Definition update (data : SegBatchData) : M AppearancesInImages unit :=
  do! images_add (split data) (length (labels data)) in
  for_ (enumerate (labels data)) (λ '(i, label), count_label (split data) label).

(** The updates of a run, in the order of its batches. *)
Definition update_all (batches : list SegBatchData) : M AppearancesInImages unit :=
  for_ batches update.

End AppearancesInImages.

(** ** Further sample inputs *)

Module MoreSamples.
Import DataClasses Samples.

(** Batches of the old pipeline: three images of which the second holds 51
    contours, and one image with a class that has no contour. *)
Definition mixed_batch : BatchData :=
  MkBatchData image_3x4x4 mask_1x4x4
    [[[square; square]; [square]]; [replicate 51 square]; [[square]]].
Definition gappy_batch : BatchData :=
  MkBatchData image_3x4x4 mask_1x4x4 [[[square]; []]].

(** A batch of the old pipeline whose label is all background. *)
Definition background_batch : BatchData :=
  MkBatchData image_3x4x4 image_3x4x4 [[[square; square]]].

(** A preprocessor that finds 51 contours in the one image of a batch. *)
Definition crowded_image (images labels : Tensor) : BatchData :=
  MkBatchData images labels [[replicate 51 square]].

(** Contour counters that have counted: three images of which two without
    contours, and four images with one to three contours. *)
Definition counter_with_empty_images : SegmentationExtractors.SegmentationCountNumObjects :=
  SegmentationExtractors.MkCountNumObjects true [2; 0; 1; 0].
Definition counter_up_to_three : SegmentationExtractors.SegmentationCountNumObjects :=
  SegmentationExtractors.MkCountNumObjects true [0; 2; 1; 1; 0; 0].

(** The class of a contour as the first value of the label of its image. *)
Definition class_at_origin (c : Contour) (label : Tensor) : Z :=
  default 0%Z (values label !! 0).

(** Managers over the contour counter: without any extractor, and with two
    train extractors for one val extractor. *)
Definition bare_manager
  : Manager.AnalysisManager (E := SegmentationExtractors.SegmentationCountNumObjects) :=
  Manager.MkManager [] [] [] true (iter [sample_item]) None [] 1.
Definition uneven_manager
  : Manager.AnalysisManager (E := SegmentationExtractors.SegmentationCountNumObjects) :=
  Manager.MkManager
    [SegmentationExtractors.__init__ true; SegmentationExtractors.__init__ true]
    [SegmentationExtractors.__init__ false] []
    true (iter []) None [] 0.

(** A train item whose label marks it, a preprocessor that finds 51
    contours in a marked item and one in any other, and a manager of three
    passes whose third train item is marked and whose val iterator holds
    one item. *)
Definition marked_item : Tensor * Tensor := (image_3x4x4, MkTensor [1; 4; 4] (replicate 16 2%Z)).
Definition crowded_when_marked (images labels : Tensor) : BatchData :=
  MkBatchData images labels
    (if bool_decide (values labels !! 0 = Some 2%Z)
     then [[replicate 51 square]] else [[[square]]]).
Definition marked_manager
  : Manager.AnalysisManager (E := SegmentationExtractors.SegmentationCountNumObjects) :=
  Manager.MkManager
    [SegmentationExtractors.__init__ true] [SegmentationExtractors.__init__ false] []
    false (iter [sample_item; sample_item; marked_item]) (Some (iter [sample_item])) [] 3.

(** Constructor arguments of the detection manager: an empty list of
    names, and no class at all. *)
Definition args_with_empty_names : DetectionManager.Args :=
  DetectionManager.MkArgs (Some []) None None None None.
Definition args_with_zero_classes : DetectionManager.Args :=
  DetectionManager.MkArgs None None (Some 0%Z) None None.

(** Canonical batches: one with an image that lacks its channel dimension,
    one with a contour of a class that nobody declared, one of the val
    split. *)
Definition image_10x10 : Tensor := MkTensor [10; 10] (replicate 100 0%Z).
Definition flat_batch : FeatureExtractors.SegBatchData :=
  FeatureExtractors.MkSegBatchData [image_3x10x10; image_10x10] [] [] FeatureExtractors.Train.
Definition stray_batch : FeatureExtractors.SegBatchData :=
  FeatureExtractors.MkSegBatchData [image_3x10x10] []
    [[[blob 0]; [blob 7]]] FeatureExtractors.Train.
Definition val_batch : FeatureExtractors.SegBatchData :=
  FeatureExtractors.MkSegBatchData [image_3x20x20] []
    [[[blob 1]]] FeatureExtractors.Val.

(** One-hot labels of two classes over 2 by 2 pixels, the second class
    present; a label without dimensions; batches of them. *)
Definition onehot_label : Tensor := MkTensor [2; 2; 2] [0; 0; 0; 0; 0; 1; 0; 0]%Z.
Definition scalar_label : Tensor := MkTensor [] [1%Z].
Definition labelled_batch : FeatureExtractors.SegBatchData :=
  FeatureExtractors.MkSegBatchData [image_3x10x10; image_3x10x10]
    [onehot_label; onehot_label] [] FeatureExtractors.Train.
Definition broken_batch : FeatureExtractors.SegBatchData :=
  FeatureExtractors.MkSegBatchData [image_3x10x10; image_3x10x10]
    [onehot_label; scalar_label] [] FeatureExtractors.Train.

End MoreSamples.

(** * Properties *)

Section py_facts.
Context {S X : Type}.

Lemma for__app (xs ys : list X) (body : X → M S unit) (s : S) :
  for_ (xs ++ ys) body s = (do! for_ xs body in for_ ys body) s.
Proof.
  revert s. induction xs as [|x xs IH]; intros s; simpl.
  - reflexivity.
  - unfold bind. destruct (body x s) as [[[]|e] s']; [|reflexivity].
    rewrite IH. reflexivity.
Qed.

Lemma bind_ret_l (c : M S unit) (s : S) : (do! ret tt in c) s = c s.
Proof. reflexivity. Qed.

Lemma bind_ret_r (c : M S unit) (s : S) : (do! c in ret tt) s = c s.
Proof. unfold bind, ret. destruct (c s) as [[[]|e] s']; reflexivity. Qed.

Lemma for__ext (xs : list X) (body body' : X → M S unit) (s : S) :
  (∀ x s, body x s = body' x s) → for_ xs body s = for_ xs body' s.
Proof.
  intros He. revert s. induction xs as [|x xs IH]; intros s; simpl; [reflexivity|].
  unfold bind. rewrite He. destruct (body' x s) as [[[]|e] s']; [apply IH | reflexivity].
Qed.

Lemma for__fmap {Y} (g : Y → X) (ys : list Y) (body : X → M S unit) (s : S) :
  for_ (g <$> ys) body s = for_ ys (λ y, body (g y)) s.
Proof.
  revert s. induction ys as [|y ys IH]; intros s; simpl; [reflexivity|].
  unfold bind. destruct (body (g y) s) as [[[]|e] s']; [apply IH | reflexivity].
Qed.

Lemma for__bind {Y} (f : Y → list X) (ys : list Y) (body : X → M S unit) (s : S) :
  for_ (ys ≫= f) body s = for_ ys (λ y, for_ (f y) body) s.
Proof.
  revert s. induction ys as [|y ys IH]; intros s; [reflexivity|].
  rewrite bind_cons, for__app. simpl. unfold bind.
  destruct (for_ (f y) body s) as [[[]|e] s']; [apply IH | reflexivity].
Qed.

(** A loop whose passes commute runs to the same state over any
    rearrangement of its items, when it returns. *)
Lemma for__Permutation (body : X → M S unit) (l1 l2 : list X) :
  (∀ x y s s', (do! body x in body y) s = (Returned tt, s') →
               (do! body y in body x) s = (Returned tt, s')) →
  l1 ≡ₚ l2 →
  ∀ s s', for_ l1 body s = (Returned tt, s') → for_ l2 body s = (Returned tt, s').
Proof.
  intros Hcomm Hp. induction Hp as [|x l l' Hp IH|x y l|l l' l'' Hp1 IH1 Hp2 IH2];
    intros s s' Hret.
  - exact Hret.
  - simpl in *. unfold bind in *. destruct (body x s) as [[[]|e] s1]; [|discriminate].
    apply IH. exact Hret.
  - simpl in *. unfold bind in Hret |- *.
    destruct (body y s) as [[[]|e] s1] eqn:Hy; [|discriminate].
    destruct (body x s1) as [[[]|e] s2] eqn:Hx; [|discriminate].
    assert (Hyx : (do! body y in body x) s = (Returned tt, s2)).
    { unfold bind. rewrite Hy. exact Hx. }
    apply Hcomm in Hyx. unfold bind in Hyx.
    destruct (body x s) as [[[]|e] s1']; [|discriminate].
    rewrite Hyx. exact Hret.
  - apply IH2, IH1, Hret.
Qed.

End py_facts.

Module CountNumObjectsFacts.
Import DataClasses SegmentationExtractors.

Lemma init_length (ts : bool) : length (_hist (__init__ ts)) = 51.
Proof. reflexivity. Qed.

Lemma hist_incr_in_range (n : nat) (self : SegmentationCountNumObjects) :
  n < length (_hist self) →
  ∃ self', hist_incr n self = (Returned tt, self')
           ∧ length (_hist self') = length (_hist self)
           ∧ sum_list (_hist self') = S (sum_list (_hist self)).
Proof.
  intros Hn. unfold hist_incr.
  destruct (lookup_lt_is_Some_2 _ _ Hn) as [v Hv]. rewrite Hv.
  eexists; split; [reflexivity|]. simpl. split.
  - apply length_insert.
  - clear Hn. revert n Hv. induction (_hist self) as [|h l IH]; intros [|n] Hv;
      simpl in *; try discriminate.
    + injection Hv as ->. lia.
    + rewrite (IH _ Hv). lia.
Qed.

Lemma hist_incr_out_of_range (n : nat) (self : SegmentationCountNumObjects) :
  length (_hist self) ≤ n → hist_incr n self = (Raised IndexError, self).
Proof.
  intros Hn. unfold hist_incr. rewrite (lookup_ge_None_2 _ _ Hn). reflexivity.
Qed.

(** C10. On an object whose histogram has its 51 counters, [execute]
    raises [IndexError] for every batch in which some image holds more
    than 50 contours in total, and returns for every batch whose images
    hold at most 50 each, having counted each image once. *)
Theorem execute_index_error_iff_above_50
    (self : SegmentationCountNumObjects) (data : BatchData) :
  length (_hist self) = 51 →
  (Exists (λ oc, 50 < num_objects_per_image oc) (batch_onehot_contours data) →
     (execute data self).1 = Raised IndexError)
  ∧ (Forall (λ oc, num_objects_per_image oc ≤ 50) (batch_onehot_contours data) →
     ∃ self', execute data self = (Returned tt, self')
              ∧ length (_hist self') = 51
              ∧ sum_list (_hist self')
                = sum_list (_hist self) + length (batch_onehot_contours data)).
Proof.
  unfold execute. generalize (batch_onehot_contours data). clear data.
  intros imgs. revert self.
  induction imgs as [|oc imgs IH]; intros self Hlen; split.
  - intros HE. inversion HE.
  - intros _. exists self. simpl. unfold ret. repeat split; [done | lia].
  - intros HE. simpl. unfold bind.
    destruct (le_lt_dec (num_objects_per_image oc) 50) as [Hle|Hgt].
    + destruct (hist_incr_in_range (num_objects_per_image oc) self)
        as (self' & -> & Hl & _); [lia|].
      apply IH; [congruence|].
      inversion HE as [? ? Hhd|? ? Htl]; subst; [lia | exact Htl].
    + rewrite hist_incr_out_of_range by lia. reflexivity.
  - intros HF. inversion HF as [|? ? Hhd Htl]; subst. simpl. unfold bind.
    destruct (hist_incr_in_range (num_objects_per_image oc) self)
      as (self1 & -> & Hl & Hs); [lia|].
    destruct (IH self1) as [_ IH2]; [congruence|].
    destruct (IH2 Htl) as (self2 & -> & Hl2 & Hs2).
    exists self2. repeat split; [done | lia].
Qed.

Lemma execute_index_error_iff_above_50_witness :
  (execute Samples.crowded_batch (__init__ true)).1 = Raised IndexError
  ∧ ∃ self', execute Samples.sparse_batch (__init__ true) = (Returned tt, self')
             ∧ _hist self' !! 3 = Some 1.
Proof.
  split.
  - apply (execute_index_error_iff_above_50 (__init__ true) Samples.crowded_batch);
      [reflexivity|].
    apply Exists_cons_hd. vm_compute. lia.
  - destruct (execute_index_error_iff_above_50 (__init__ true) Samples.sparse_batch)
      as [_ Hok]; [reflexivity|].
    destruct Hok as (self' & Hex & _).
    + repeat constructor.
    + exists self'. split; [exact Hex|].
      vm_compute in Hex. injection Hex as <-. reflexivity.
Defined.

End CountNumObjectsFacts.

(** ** The extractor resolver *)

Module AdapterFacts.
Import DataClasses Adapter.

Section resolver.
Variable find_extractor : PyData → option BaseDatasetExtractor.
Variable get_tensor_extractor_options : PyData → string * list (string * string).
Variable text_to_yellow : string → string.
Variable ask : Question → string → TensorExtractor.
Variable call_extractor : TensorExtractor → PyData → outcome PyData.
Variable to_torch : PyData → outcome Tensor.

Abbreviation resolver := (resolver find_extractor get_tensor_extractor_options text_to_yellow ask).

Ltac run_adapter :=
  repeat (first
    [ progress simpl
    | progress unfold Adapter.resolver, _get_images_extractor, _get_labels_extractor,
        get_images_extractor, get_labels_extractor, get_extractor, auto_find, store, log,
        bind, get, ret, raise, modify ]).

Lemma resolver_stored (t : Task) (data : PyData) (self : DatasetAdapter) (e : TensorExtractor) :
  slot t (data_config self) = Some e →
  resolver t data self = (Returned e, self).
Proof.
  destruct t; simpl; intros Hs; run_adapter; rewrite Hs; run_adapter; rewrite ?Hs; reflexivity.
Qed.

Lemma resolver_positional (t : Task) (data : PyData) (self : DatasetAdapter) :
  slot t (data_config self) = None →
  is_pair_with_array_at (position t) data = true →
  resolver t data self
  = (Returned (positional t),
     MkAdapter (set_slot t (positional t) (data_config self))
               (trace self ++ [EvStore t (positional t)])).
Proof.
  destruct t; simpl; intros Hs Hp; run_adapter; rewrite Hs, Hp; run_adapter; reflexivity.
Qed.

Lemma pair_is_container (i : nat) (data : PyData) :
  is_pair_with_array_at i data = true → is_supported_container data = true.
Proof. destruct data; simpl; try discriminate; reflexivity. Qed.

Lemma resolver_unsupported (t : Task) (data : PyData) (self : DatasetAdapter) :
  slot t (data_config self) = None →
  find_extractor data = None →
  is_supported_container data = false →
  resolver t data self
  = (Raised (NotImplementedError (unsupported_message t data)),
     MkAdapter (data_config self) (trace self ++ [EvFindExtractor t data])).
Proof.
  intros Hs Hf Hc.
  assert (Hp : is_pair_with_array_at (position t) data = false).
  { destruct (is_pair_with_array_at (position t) data) eqn:Hp; [|reflexivity].
    apply pair_is_container in Hp. congruence. }
  destruct t; simpl in *; run_adapter; rewrite Hs, Hp; run_adapter; rewrite Hf, Hc; reflexivity.
Qed.

Lemma evolves_refl (t : Task) (self : DatasetAdapter) : evolves t self self.
Proof.
  exists []. rewrite app_nil_r. repeat split; [simpl; lia | done].
Qed.

Lemma evolves_trans (t : Task) (s1 s2 s3 : DatasetAdapter) :
  evolves t s1 s2 → evolves t s2 s3 → evolves t s1 s3.
Proof.
  intros (n1 & Ht1 & Hb1 & Hk1) (n2 & Ht2 & Hb2 & Hk2).
  exists (n1 ++ n2). split; [|split].
  - rewrite Ht2, Ht1, app_assoc. reflexivity.
  - unfold stores_of in *. rewrite filter_app, length_app. lia.
  - intros e He. destruct (Hk1 e He) as [He2 Hn1].
    destruct (Hk2 e He2) as [He3 Hn2]. split; [exact He3|].
    unfold events_of in *. rewrite filter_app, Hn1, Hn2. reflexivity.
Qed.

Lemma evolves_events (t : Task) (self : DatasetAdapter) (c : DataConfig) (new : list Event) :
  stores_of t new + budget t (MkAdapter c (trace self ++ new)) ≤ budget t self →
  (∀ e, slot t (data_config self) = Some e → slot t c = Some e ∧ events_of t new = []) →
  evolves t self (MkAdapter c (trace self ++ new)).
Proof. intros Hb Hk. exists new. auto. Qed.

(** Whatever a resolver does, and whether it returns or raises, it keeps
    every task within its budget. *)
Lemma resolver_evolves (t t' : Task) (data : PyData) (self : DatasetAdapter) :
  evolves t self (resolver t' data self).2.
Proof.
  destruct (slot t' (data_config self)) as [e'|] eqn:Hs'.
  { rewrite (resolver_stored _ _ _ _ Hs'). apply evolves_refl. }
  destruct (is_pair_with_array_at (position t') data) eqn:Hp.
  { rewrite (resolver_positional _ _ _ Hs' Hp). simpl.
    apply evolves_events; unfold budget, stores_of, events_of;
      destruct t, t'; simpl in *; rewrite ?Hs';
      try (destruct (labels_extractor (data_config self)));
      try (destruct (images_extractor (data_config self)));
      simpl; try lia; try discriminate; intros e0 [= <-]; done. }
  destruct t'; simpl in Hs', Hp; run_adapter; rewrite Hs', Hp; run_adapter;
    (destruct (find_extractor data) as [de|]; run_adapter;
     [| destruct (is_supported_container data); run_adapter;
        [destruct (get_tensor_extractor_options data) as [description opts];
         run_adapter; rewrite Hs'; run_adapter |] ]);
    rewrite <- ?app_assoc; simpl;
    apply evolves_events; unfold budget, stores_of, events_of;
      destruct t; simpl in *; rewrite ?Hs';
      try (destruct (labels_extractor (data_config self)));
      try (destruct (images_extractor (data_config self)));
      simpl; try lia; try discriminate; intros e0 [= <-]; done.
Qed.

Abbreviation extract :=
  (extract find_extractor get_tensor_extractor_options text_to_yellow ask call_extractor to_torch).
Abbreviation extract_all :=
  (extract_all find_extractor get_tensor_extractor_options text_to_yellow ask call_extractor to_torch).

Lemma extract_evolves (t : Task) (data : PyData) (self : DatasetAdapter) :
  evolves t self (extract data self).2.
Proof.
  unfold Adapter.extract, _extract_images, _extract_labels, pure, bind.
  pose proof (resolver_evolves t Images data self) as H1. simpl in H1.
  destruct (_get_images_extractor _ _ _ _ data self) as [[ei|x] s1]; simpl in *; [|exact H1].
  destruct (call_extractor ei data) as [images|x]; simpl; [|exact H1].
  pose proof (resolver_evolves t Labels data s1) as H2. simpl in H2.
  destruct (_get_labels_extractor _ _ _ _ data s1) as [[el|x] s2]; simpl in *;
    [|exact (evolves_trans _ _ _ _ H1 H2)].
  destruct (call_extractor el data) as [labels|x]; simpl;
    [|exact (evolves_trans _ _ _ _ H1 H2)].
  destruct (to_torch images); simpl; [|exact (evolves_trans _ _ _ _ H1 H2)].
  destruct (to_torch labels); simpl; exact (evolves_trans _ _ _ _ H1 H2).
Qed.

Lemma extract_all_evolves (t : Task) (batches : list PyData) (self : DatasetAdapter) :
  evolves t self (extract_all batches self).2.
Proof.
  revert self. induction batches as [|data batches IH]; intros self.
  - apply evolves_refl.
  - unfold Adapter.extract_all. simpl. unfold bind at 1.
    pose proof (extract_evolves t data self) as H1.
    unfold bind at 1.
    destruct (extract data self) as [[r|x] s1]; simpl in *; [|exact H1].
    exact (evolves_trans _ _ _ _ H1 (IH s1)).
Qed.

(** A resolver that returns has its extractor in the slot of its task. *)
Lemma resolver_fills (t : Task) (data : PyData) (self self' : DatasetAdapter)
    (e : TensorExtractor) :
  resolver t data self = (Returned e, self') → slot t (data_config self') = Some e.
Proof.
  destruct (slot t (data_config self)) as [e0|] eqn:Hs.
  { rewrite (resolver_stored _ _ _ _ Hs). intros [= <- <-]. exact Hs. }
  destruct (is_pair_with_array_at (position t) data) eqn:Hp.
  { rewrite (resolver_positional _ _ _ Hs Hp). intros [= <- <-]. destruct t; reflexivity. }
  destruct t; simpl in Hs, Hp; run_adapter; rewrite Hs, Hp; run_adapter;
    (destruct (find_extractor data) as [de|]; run_adapter;
     [| destruct (is_supported_container data); run_adapter;
        [destruct (get_tensor_extractor_options data) as [description opts];
         run_adapter; rewrite Hs; run_adapter |] ]);
    first [discriminate | intros [= <- <-]; reflexivity].
Qed.

(** When [extract] returns, both slots are filled. *)
Lemma extract_fills (t : Task) (data : PyData) (self self1 : DatasetAdapter)
    (r : Tensor * Tensor) :
  extract data self = (Returned r, self1) → is_Some (slot t (data_config self1)).
Proof.
  unfold Adapter.extract, _extract_images, _extract_labels, pure, bind.
  destruct (_get_images_extractor _ _ _ _ data self) as [[ei|x] s1] eqn:Hi; [|discriminate].
  destruct (call_extractor ei data) as [images|x]; [|discriminate].
  destruct (_get_labels_extractor _ _ _ _ data s1) as [[el|x] s2] eqn:Hl; [|discriminate].
  destruct (call_extractor el data) as [labels|x]; [|discriminate].
  destruct (to_torch images); [|discriminate].
  destruct (to_torch labels); [|discriminate].
  intros [= _ <-].
  pose proof (resolver_fills Images data self s1 ei Hi) as Hfi.
  pose proof (resolver_fills Labels data s1 s2 el Hl) as Hfl.
  destruct t; [|eauto].
  destruct (resolver_evolves Images Labels data s1) as (new & _ & _ & Hk).
  simpl in Hk. rewrite Hl in Hk. destruct (Hk ei Hfi) as [Hkept _]. eauto.
Qed.

(** C1. A resolver called with its slot filled returns the stored extractor
    and leaves the configuration and the trace as they are; a resolver
    that returns, from any state, leaves its extractor in the slot; over
    the successive batches of a run, from any state, the slot of a task is
    written at most once, a slot that was filled keeps its extractor, and
    then the run adds no detector call, question or write for that task;
    and once the first batch of a run has been extracted, both slots are
    filled and the batches after it add no event of the task: the
    heuristic runs at most once per run and task. *)
Theorem resolution_memoized_for_the_run
    (t : Task) (batches : list PyData) (self : DatasetAdapter) :
  (∀ e data, slot t (data_config self) = Some e →
             resolver t data self = (Returned e, self))
  ∧ (∀ e data self', resolver t data self = (Returned e, self') →
                     slot t (data_config self') = Some e)
  ∧ (∃ new, trace (extract_all batches self).2 = trace self ++ new
            ∧ stores_of t new ≤ 1
            ∧ ∀ e, slot t (data_config self) = Some e →
                   slot t (data_config (extract_all batches self).2) = Some e
                   ∧ events_of t new = [] ∧ stores_of t new = 0)
  ∧ (∀ data rest r self1,
       batches = data :: rest →
       extract data self = (Returned r, self1) →
       ∃ e later, slot t (data_config self1) = Some e
                  ∧ slot t (data_config (extract_all batches self).2) = Some e
                  ∧ trace (extract_all batches self).2 = trace self1 ++ later
                  ∧ events_of t later = []).
Proof.
  split; [|split; [|split]].
  - intros e data He. apply resolver_stored. exact He.
  - intros e data self'. apply resolver_fills.
  - destruct (extract_all_evolves t batches self) as (new & Ht & Hb & Hk).
    exists new. split; [exact Ht|]. split.
    + unfold budget in Hb. destruct (slot t (data_config self)); lia.
    + intros e He. destruct (Hk e He) as [Hs Hn]. repeat split; [exact Hs | exact Hn |].
      unfold budget in Hb. rewrite He in Hb. lia.
  - intros data rest r self1 -> Hfirst.
    destruct (extract_fills t data self self1 r Hfirst) as [e He].
    assert (Hrun : extract_all (data :: rest) self = extract_all rest self1).
    { unfold Adapter.extract_all. cbn [for_]. unfold bind at 1. unfold bind at 1.
      rewrite Hfirst. reflexivity. }
    rewrite Hrun.
    destruct (extract_all_evolves t rest self1) as (later & Ht & _ & Hk).
    destruct (Hk e He) as [Hs Hn].
    exists e, later. repeat split; assumption.
Qed.

(** C2 (amended). With no extractor stored yet for the task, a pair whose
    element at the task's position (0 for images, 1 for labels) is a
    tensor, an array or an image makes the resolver store and return the
    positional extractor (["[0]"], ["[1]"]); the only event is that write:
    no detector is consulted and no question is asked. *)
Theorem positional_extractor_when_unresolved
    (t : Task) (data : PyData) (self : DatasetAdapter) :
  slot t (data_config self) = None →
  is_pair_with_array_at (position t) data = true →
  resolver t data self
  = (Returned (positional t),
     MkAdapter (set_slot t (positional t) (data_config self))
               (trace self ++ [EvStore t (positional t)]))
  ∧ positional Images = PathExtractor "[0]"
  ∧ positional Labels = PathExtractor "[1]".
Proof.
  intros Hs Hp. split; [|split; reflexivity].
  apply resolver_positional; assumption.
Qed.

(** C3 (amended). With no extractor stored for the task and no detector
    matching, a batch that is neither a tuple, a list nor a mapping makes
    the resolver raise [NotImplementedError]; its message gives the type of
    the batch and asks for a custom extractor of the task's name.  The
    detectors have been consulted once. *)
Theorem unsupported_batch_raises_not_implemented
    (t : Task) (data : PyData) (self : DatasetAdapter) :
  slot t (data_config self) = None →
  find_extractor data = None →
  is_supported_container data = false →
  resolver t data self
  = (Raised (NotImplementedError (unsupported_message t data)),
     MkAdapter (data_config self) (trace self ++ [EvFindExtractor t data]))
  ∧ ∃ middle rest,
      unsupported_message t data
      = "Got object " +:+ type_repr data +:+ middle +:+
        "Please implement a custom `" +:+ extractor_name t +:+ "`" +:+ rest.
Proof.
  intros Hs Hf Hc. split.
  - apply resolver_unsupported; assumption.
  - eexists _, _. unfold unsupported_message. simpl.
    instantiate (1 := " for your dataset. You can find more detail about this in our documentation: https://github.com/Deci-AI/data-gradients").
    instantiate (1 := " from Data Iterator which is not supported!" +:+ nl).
    destruct t; simpl; reflexivity.
Qed.

End resolver.

Import Samples.

Abbreviation sample_resolver :=
  (Adapter.resolver no_detector no_options plain_text first_option).
Abbreviation sample_extract_all :=
  (Adapter.extract_all no_detector no_options plain_text first_option whole_batch any_tensor).

Lemma resolution_memoized_for_the_run_witness :
  sample_resolver Images pair_batch adapter_with_user_extractor
  = (Returned (CallableExtractor "my_images_extractor"), adapter_with_user_extractor)
  ∧ stores_of Images
      (trace (sample_extract_all [pair_batch; pair_batch; pair_batch] fresh_adapter).2) ≤ 1
  ∧ ∃ e later,
      slot Images (data_config (sample_extract_all [pair_batch] fresh_adapter).2) = Some e
      ∧ slot Images
          (data_config (sample_extract_all [pair_batch; pair_batch; pair_batch] fresh_adapter).2)
        = Some e
      ∧ trace (sample_extract_all [pair_batch; pair_batch; pair_batch] fresh_adapter).2
        = trace (sample_extract_all [pair_batch] fresh_adapter).2 ++ later
      ∧ events_of Images later = [].
Proof.
  destruct (resolution_memoized_for_the_run no_detector no_options plain_text first_option
              whole_batch any_tensor Images [pair_batch; pair_batch; pair_batch]
              fresh_adapter) as (_ & _ & (new & Ht & Hn & _) & Honce).
  split; [|split].
  - apply (resolution_memoized_for_the_run no_detector no_options plain_text first_option
             whole_batch any_tensor Images [] adapter_with_user_extractor).
    reflexivity.
  - rewrite Ht. exact Hn.
  - apply (Honce pair_batch [pair_batch; pair_batch] (image_3x4x4, image_3x4x4)
             (sample_extract_all [pair_batch] fresh_adapter).2).
    + reflexivity.
    + vm_compute. reflexivity.
Defined.

(** C2, as stated, fails: a pair of tensors does not get the positional
    extractor when the caller supplied an images extractor; the stored one
    is returned. *)
Lemma positional_extractor_not_selected_when_stored :
  is_pair_with_array_at 0 pair_batch = true
  ∧ sample_resolver Images pair_batch adapter_with_user_extractor
    = (Returned (CallableExtractor "my_images_extractor"), adapter_with_user_extractor)
  ∧ (sample_resolver Images pair_batch adapter_with_user_extractor).1
    ≠ Returned (PathExtractor "[0]").
Proof. repeat split. vm_compute. discriminate. Qed.

Lemma positional_extractor_when_unresolved_witness :
  sample_resolver Labels pair_batch fresh_adapter
  = (Returned (PathExtractor "[1]"),
     MkAdapter (MkDataConfig None (Some (PathExtractor "[1]")))
               [EvStore Labels (PathExtractor "[1]")]).
Proof.
  apply (positional_extractor_when_unresolved no_detector no_options plain_text first_option
           Labels pair_batch fresh_adapter); reflexivity.
Defined.

(** C3, as stated, fails: the error raised for a bare tensor is a
    [NotImplementedError], none of the extraction errors of the module. *)
Lemma unsupported_batch_error_is_not_extraction_error :
  is_supported_container bare_tensor_batch = false
  ∧ ∃ e, (sample_resolver Images bare_tensor_batch fresh_adapter).1 = Raised e
         ∧ exn_class e = "NotImplementedError"
         ∧ is_extraction_error e = false
         ∧ exn_class e ≠ "ExtractionError".
Proof.
  split; [reflexivity|]. eexists. split; [vm_compute; reflexivity|].
  repeat split. simpl. discriminate.
Qed.

Lemma unsupported_batch_raises_not_implemented_witness :
  (sample_resolver Images bare_tensor_batch fresh_adapter).1
  = Raised (NotImplementedError (unsupported_message Images bare_tensor_batch)).
Proof.
  destruct (unsupported_batch_raises_not_implemented no_detector no_options plain_text
              first_option Images bare_tensor_batch fresh_adapter) as [-> _]; reflexivity.
Defined.

End AdapterFacts.

(** ** The class options of the detection manager *)

Module DetectionManagerFacts.
Import Adapter DetectionManager.

Section class_options.
Variable repr_set : list string → string.

Abbreviation __init__ := (__init__ repr_set).

Lemma init_conflict (args : Args) (data : Data) :
  truthy_int (n_classes args) = true ∧ truthy_list (class_names args) = true
  ∨ n_classes args = None ∧ class_names args = None →
  ∃ msg, __init__ args data = (Raised (RuntimeError msg), data).
Proof.
  intros Hc. unfold DetectionManager.__init__.
  destruct (bool_decide (feature_extractors args ≠ None) && bool_decide (config_path args ≠ None)).
  { eexists. reflexivity. }
  destruct Hc as [[Hn Hl]|[Hn Hl]].
  - rewrite Hn, Hl. eexists. reflexivity.
  - rewrite Hn, Hl. simpl. eexists. reflexivity.
Qed.

Lemma init_passes (args : Args) (data : Data) (names : list string) :
  ¬ (feature_extractors args ≠ None ∧ config_path args ≠ None) →
  invalid_class_names_to_use (default [] (class_names_to_use args)) names = [] →
  (truthy_list (class_names args) = true ∧ class_names args = Some names ∧ n_classes args = None)
  ∨ (class_names args = None ∧ ∃ n, n_classes args = Some n ∧ names = pretty <$> range n) →
  ∃ r, __init__ args data = (Returned r, data) ∧ r_class_names r = names.
Proof.
  intros Hfc Hto Hone. unfold DetectionManager.__init__.
  destruct (bool_decide (feature_extractors args ≠ None) && bool_decide (config_path args ≠ None))
    eqn:Hb.
  { apply andb_true_iff in Hb as [H1 H2].
    apply bool_decide_eq_true in H1, H2. tauto. }
  assert (Hgo : ∃ r,
    match truthy_list (class_names_to_use args), class_names_to_use args with
    | true, Some to_use =>
        match invalid_class_names_to_use to_use names with
        | [] => ret (MkResolved names to_use)
        | invalid =>
            raise (RuntimeError
              ("You defined `class_names_to_use` with classes that are not listed in `class_names`: "
               +:+ repr_set invalid))
        end
    | _, _ => ret (MkResolved names names)
    end data = (Returned r, data) ∧ r_class_names r = names).
  { destruct (class_names_to_use args) as [[|x l]|]; simpl in *;
      try (eexists; split; reflexivity).
    rewrite Hto. eexists; split; reflexivity. }
  destruct Hone as [(Ht & Hn & Hnone)|(Hn & n & Hsome & ->)].
  - rewrite Ht, Hn, Hnone. simpl. unfold bind, ret. exact Hgo.
  - rewrite Hn, Hsome. simpl. rewrite andb_false_r. simpl. unfold bind, ret. exact Hgo.
Qed.

(** C5 (amended). A non-zero [n_classes] together with a non-empty
    [class_names], or neither of the two, makes the constructor raise
    [RuntimeError] with the data iterables as they were; with [n_classes]
    alone, or a non-empty [class_names] alone, and the other options
    consistent, the constructor settles [class_names], which are the
    decimal forms of [0 .. n_classes - 1] when only [n_classes] is given. *)
Theorem class_options_are_exclusive (args : Args) (data : Data) :
  (truthy_int (n_classes args) = true ∧ truthy_list (class_names args) = true
   ∨ n_classes args = None ∧ class_names args = None →
   ∃ msg, __init__ args data = (Raised (RuntimeError msg), data))
  ∧ (¬ (feature_extractors args ≠ None ∧ config_path args ≠ None) →
     (∀ n, n_classes args = Some n → class_names args = None →
           invalid_class_names_to_use (default [] (class_names_to_use args))
                                      (pretty <$> range n) = [] →
           ∃ r, __init__ args data = (Returned r, data)
                ∧ r_class_names r = pretty <$> range n)
     ∧ (∀ names, class_names args = Some names → names ≠ [] → n_classes args = None →
           invalid_class_names_to_use (default [] (class_names_to_use args)) names = [] →
           ∃ r, __init__ args data = (Returned r, data) ∧ r_class_names r = names)).
Proof.
  split; [apply init_conflict|].
  intros Hfc. split.
  - intros n Hn Hc Hto. apply init_passes; [exact Hfc | exact Hto |].
    right. split; [exact Hc|]. exists n. split; [exact Hn | reflexivity].
  - intros names Hc Hne Hn Hto. apply init_passes; [exact Hfc | exact Hto |].
    left. rewrite Hc. destruct names; [congruence|]. repeat split. exact Hn.
Qed.

End class_options.

Import Samples.

Lemma class_options_are_exclusive_witness :
  (∃ msg, DetectionManager.__init__ braces args_with_both untouched_data
          = (Raised (RuntimeError msg), untouched_data))
  ∧ (∃ msg, DetectionManager.__init__ braces args_with_neither untouched_data
            = (Raised (RuntimeError msg), untouched_data))
  ∧ (∃ r, DetectionManager.__init__ braces args_with_n_classes untouched_data
          = (Returned r, untouched_data) ∧ r_class_names r = ["0"; "1"; "2"])
  ∧ (∃ r, DetectionManager.__init__ braces args_with_class_names untouched_data
          = (Returned r, untouched_data) ∧ r_class_names r = ["car"; "bus"; "bike"]).
Proof.
  split; [|split; [|split]].
  - apply (class_options_are_exclusive braces args_with_both untouched_data).
    left. split; reflexivity.
  - apply (class_options_are_exclusive braces args_with_neither untouched_data).
    right. split; reflexivity.
  - destruct (class_options_are_exclusive braces args_with_n_classes untouched_data)
      as [_ Hone].
    destruct Hone as [Hn _]; [intros [_ Hc]; apply Hc; reflexivity|].
    apply (Hn 3%Z); reflexivity.
  - destruct (class_options_are_exclusive braces args_with_class_names untouched_data)
      as [_ Hone].
    destruct Hone as [_ Hc]; [intros [_ Hc]; apply Hc; reflexivity|].
    apply Hc; [reflexivity | discriminate | reflexivity | reflexivity].
Defined.

(** C5, as stated, fails: with both options supplied the error raised is a
    [RuntimeError]; and with [n_classes] supplied as 0 next to class names
    nothing is raised. *)
Lemma both_supplied_is_not_a_configuration_error :
  (∃ e, (DetectionManager.__init__ braces args_with_both untouched_data).1 = Raised e
        ∧ exn_class e = "RuntimeError"
        ∧ exn_class e ≠ "ConfigurationError")
  ∧ ∃ r, DetectionManager.__init__ braces
           (MkArgs (Some ["car"]) None (Some 0%Z) None None) untouched_data
         = (Returned r, untouched_data).
Proof.
  split.
  - eexists. split; [vm_compute; reflexivity|]. split; [reflexivity|].
    simpl. discriminate.
  - eexists. vm_compute. reflexivity.
Qed.

End DetectionManagerFacts.

(** ** Dictionaries *)

Module DictFacts.
Import FeatureExtractors.

Lemma dict_get_None (k : Key) (d : Dict) : dict_get k d = None ↔ k ∉ keys d.
Proof.
  unfold keys. induction d as [|[k' v] d IH]; simpl.
  - split; [intros _; apply not_elem_of_nil | done].
  - rewrite not_elem_of_cons. destruct (decide (k' = k)) as [->|Hne].
    + split; [discriminate | intros [? _]; congruence].
    + rewrite IH. split; [intros ?; split; [congruence | assumption] | tauto].
Qed.


Lemma dict_get_elem_of (k : Key) (v : nat) (d : Dict) :
  NoDup (keys d) → (k, v) ∈ d ↔ dict_get k d = Some v.
Proof.
  unfold keys. induction d as [|[k' v'] d IH]; simpl; intros Hnd.
  - split; [intros H; inversion H | discriminate].
  - apply NoDup_cons in Hnd as [Hk' Hnd]. rewrite elem_of_cons.
    destruct (decide (k' = k)) as [->|Hne].
    + split.
      * intros [[= -> ]|Hin]; [reflexivity|].
        exfalso. apply Hk'. apply list_elem_of_fmap. exists (k, v). done.
      * intros [= ->]. left. reflexivity.
    + rewrite IH by exact Hnd. split; [intros [[= ? ?]|?]; congruence | auto].
Qed.

Lemma dict_equiv_Permutation (d1 d2 : Dict) :
  NoDup (keys d1) → NoDup (keys d2) → dict_equiv d1 d2 → d1 ≡ₚ d2.
Proof.
  intros H1 H2 He. apply NoDup_Permutation.
  - exact (NoDup_fmap_1 fst d1 H1).
  - exact (NoDup_fmap_1 fst d2 H2).
  - intros [k v]. rewrite !dict_get_elem_of by assumption. rewrite (He k). done.
Qed.

(** [d[k] = v] for a key of [d]. *)
Lemma dict_set_present (k : Key) (v : nat) (d : Dict) :
  is_Some (dict_get k d) →
  dict_set k v d = (λ kv, if decide (kv.1 = k) then (k, v) else kv) <$> d.
Proof. intros [v0 Hv]. unfold dict_set. rewrite Hv. reflexivity. Qed.

Lemma dict_set_absent (k : Key) (v : nat) (d : Dict) :
  dict_get k d = None → dict_set k v d = d ++ [(k, v)].
Proof. intros Hv. unfold dict_set. rewrite Hv. reflexivity. Qed.

Lemma keys_replace (k : Key) (v : nat) (d : Dict) :
  keys ((λ kv : Key * nat, if decide (kv.1 = k) then (k, v) else kv) <$> d) = keys d.
Proof.
  unfold keys. induction d as [|[k' v'] d IH]; [reflexivity|].
  rewrite !fmap_cons, IH. simpl. destruct (decide (k' = k)) as [->|]; reflexivity.
Qed.

Lemma dict_get_replace (k k0 : Key) (v : nat) (d : Dict) :
  dict_get k ((λ kv : Key * nat, if decide (kv.1 = k0) then (k0, v) else kv) <$> d)
  = if decide (k0 = k) then (λ _, v) <$> dict_get k d else dict_get k d.
Proof.
  induction d as [|[k' v'] d IH].
  - simpl. destruct (decide (k0 = k)); reflexivity.
  - rewrite fmap_cons. cbn [fst dict_get]. 
    destruct (decide (k' = k0)) as [->|Hne]; cbn [dict_get].
    + destruct (decide (k0 = k)) as [->|]; [reflexivity|]. rewrite IH.
      destruct (decide (k0 = k)); [congruence | reflexivity].
    + rewrite IH. destruct (decide (k' = k)) as [->|]; [|reflexivity].
      destruct (decide (k0 = k)); [congruence | reflexivity].
Qed.

Lemma dict_get_app_singleton (k k0 : Key) (v : nat) (d : Dict) :
  dict_get k (d ++ [(k0, v)])
  = match dict_get k d with
    | Some w => Some w
    | None => if decide (k0 = k) then Some v else None
    end.
Proof.
  induction d as [|[k' v'] d IH]; simpl; [reflexivity|].
  destruct (decide (k' = k)); [reflexivity | exact IH].
Qed.

Lemma dict_get_set (k k0 : Key) (v : nat) (d : Dict) :
  dict_get k (dict_set k0 v d) = if decide (k0 = k) then Some v else dict_get k d.
Proof.
  destruct (dict_get k0 d) as [v0|] eqn:H0.
  - rewrite dict_set_present by eauto. rewrite dict_get_replace.
    destruct (decide (k0 = k)) as [<-|]; [rewrite H0|]; reflexivity.
  - rewrite dict_set_absent by exact H0. rewrite dict_get_app_singleton.
    destruct (decide (k0 = k)) as [<-|]; [rewrite H0; reflexivity|].
    destruct (dict_get k d); reflexivity.
Qed.

Lemma dict_set_NoDup (k : Key) (v : nat) (d : Dict) :
  NoDup (keys d) → NoDup (keys (dict_set k v d)).
Proof.
  intros Hnd. destruct (dict_get k d) as [v0|] eqn:H0.
  - rewrite dict_set_present by eauto. rewrite keys_replace. exact Hnd.
  - rewrite dict_set_absent by exact H0. unfold keys in *. rewrite fmap_app. simpl.
    apply NoDup_app. split; [exact Hnd|]. split; [|apply NoDup_singleton].
    intros x Hx Hx'. apply list_elem_of_singleton in Hx' as ->.
    apply dict_get_None in H0. exact (H0 Hx).
Qed.





End DictFacts.

(** ** The resolutions histogram *)

Module ImagesResolutionsFacts.
Import DataClasses FeatureExtractors FeatureExtractors.ImagesResolutions DictFacts.

Lemma count_key_get (k k0 : Key) (d : Dict) :
  dict_get k (count_key k0 d)
  = if decide (k0 = k) then Some (default 0 (dict_get k d) + 1) else dict_get k d.
Proof.
  unfold count_key. destruct (dict_get k0 d) as [v0|] eqn:H0; rewrite dict_get_set;
    destruct (decide (k0 = k)) as [<-|]; try reflexivity; rewrite H0; reflexivity.
Qed.

Lemma count_key_NoDup (k0 : Key) (d : Dict) :
  NoDup (keys d) → NoDup (keys (count_key k0 d)).
Proof. unfold count_key. destruct (dict_get k0 d); apply dict_set_NoDup. Qed.

Lemma at_split_set_split {A} (s s0 : Split) (a : A) (p : PerSplit A) :
  at_split s (set_split s0 a p) = if decide (s0 = s) then a else at_split s p.
Proof. destruct s, s0; reflexivity. Qed.

Lemma count_keys_get (s : Split) (k : Key) (l : list (Split * Key)) (hist : PerSplit Dict) :
  dict_get k (at_split s (count_keys l hist))
  = if decide (occurrences s k l = 0) then dict_get k (at_split s hist)
    else Some (default 0 (dict_get k (at_split s hist)) + occurrences s k l).
Proof.
  unfold count_keys, occurrences. revert hist.
  induction l as [|[s0 k0] l IH]; intros hist; [reflexivity|].
  cbn [foldl]. rewrite IH. cbn [fst snd]. rewrite at_split_set_split.
  rewrite filter_cons. destruct (decide ((s0, k0) = (s, k))) as [[= -> ->]|Hne].
  - rewrite (decide_True (P := s = s)) by reflexivity. rewrite count_key_get.
    rewrite (decide_True (P := k = k)) by reflexivity. cbn [length default].
    generalize (length (filter (λ p, p = (s, k)) l)). intros n.
    rewrite (decide_False (P := S n = 0)) by lia. unfold id.
    destruct (decide (n = 0)) as [->|]; f_equal; lia.
  - destruct (decide (s0 = s)) as [->|]; [|reflexivity].
    rewrite count_key_get.
    rewrite (decide_False (P := k0 = k)) by (intros ->; apply Hne; reflexivity).
    reflexivity.
Qed.

Lemma count_keys_NoDup (s : Split) (l : list (Split * Key)) (hist : PerSplit Dict) :
  (∀ s', NoDup (keys (at_split s' hist))) →
  NoDup (keys (at_split s (count_keys l hist))).
Proof.
  unfold count_keys. revert hist. induction l as [|[s0 k0] l IH]; intros hist Hnd.
  - apply Hnd.
  - cbn [foldl]. apply IH. intros s'. cbn [fst snd]. rewrite at_split_set_split.
    destruct (decide (s0 = s')); [apply count_key_NoDup|]; apply Hnd.
Qed.

(** The body and the loop of [update] over the images of a split. *)
Abbreviation count_image s :=
  (λ image : Tensor,
     let! w := shape_at 2 image in
     let! h := shape_at 1 image in
     modify (λ self : ImagesResolutions,
       MkImagesResolutions
         (set_split s (count_key (resolution_key w h) (at_split s (_hist self)))
                    (_hist self)))).

Lemma count_image_keyed (s : Split) (image : Tensor) (k : Key) (self : ImagesResolutions) :
  image_key image = Some k →
  count_image s image self
  = (Returned tt,
     MkImagesResolutions (set_split s (count_key k (at_split s (_hist self))) (_hist self))).
Proof.
  unfold image_key, shape_at, bind.
  destruct (shape image !! 2) as [w|]; [|discriminate].
  destruct (shape image !! 1) as [h|]; [|discriminate].
  intros [= <-]. reflexivity.
Qed.

Lemma count_image_unkeyed (s : Split) (image : Tensor) (self : ImagesResolutions) :
  image_key image = None → (count_image s image self).1 = Raised IndexError.
Proof.
  unfold image_key, shape_at, bind.
  destruct (shape image !! 2) as [w|]; [|reflexivity].
  destruct (shape image !! 1) as [h|]; [discriminate | reflexivity].
Qed.

Lemma count_images_returns (s : Split) (imgs : list Tensor) (self : ImagesResolutions) :
  Forall (λ image, is_Some (image_key image)) imgs →
  for_ imgs (count_image s) self
  = (Returned tt,
     MkImagesResolutions
       (count_keys (omap (λ image, pair s <$> image_key image) imgs) (_hist self))).
Proof.
  revert self. induction imgs as [|image imgs IH]; intros self Hall.
  - destruct self. reflexivity.
  - apply Forall_cons in Hall as [[k Hk] Hall].
    cbn [for_ omap list_omap]. unfold bind at 1.
    rewrite (count_image_keyed s image k self Hk), (IH _ Hall), Hk. reflexivity.
Qed.

Lemma count_images_well_shaped (s : Split) (imgs : list Tensor) (self self' : ImagesResolutions) :
  for_ imgs (count_image s) self = (Returned tt, self') →
  Forall (λ image, is_Some (image_key image)) imgs.
Proof.
  revert self. induction imgs as [|image imgs IH]; intros self Hret.
  - constructor.
  - cbn [for_] in Hret. unfold bind at 1 in Hret.
    destruct (image_key image) as [k|] eqn:Hk.
    + rewrite (count_image_keyed s image k self Hk) in Hret.
      constructor; [rewrite Hk; eauto | exact (IH _ Hret)].
    + pose proof (count_image_unkeyed s image self Hk) as Hraise.
      destruct (count_image s image self) as [[[]|e] s1]; discriminate.
Qed.

Lemma update_all_returns (batches : list SegBatchData) (self : ImagesResolutions) :
  Forall well_shaped batches →
  update_all batches self
  = (Returned tt, MkImagesResolutions (count_keys (batches ≫= batch_keys) (_hist self))).
Proof.
  unfold update_all. revert self.
  induction batches as [|data batches IH]; intros self Hall.
  - destruct self. reflexivity.
  - apply Forall_cons in Hall as [Hd Hall]. cbn [for_]. unfold bind at 1.
    unfold update at 1. rewrite (count_images_returns _ _ _ Hd).
    rewrite (IH _ Hall). cbn [_hist]. rewrite bind_cons.
    unfold count_keys. rewrite foldl_app. reflexivity.
Qed.

Lemma update_all_well_shaped (batches : list SegBatchData) (self self' : ImagesResolutions) :
  update_all batches self = (Returned tt, self') → Forall well_shaped batches.
Proof.
  unfold update_all. revert self.
  induction batches as [|data batches IH]; intros self Hret.
  - constructor.
  - cbn [for_] in Hret. unfold bind at 1 in Hret.
    destruct (update data self) as [[[]|e] s1] eqn:Hu; [|discriminate Hret].
    constructor; [|exact (IH _ Hret)].
    exact (count_images_well_shaped _ _ _ _ Hu).
Qed.

Lemma occurrences_Permutation (s : Split) (k : Key) (l1 l2 : list (Split * Key)) :
  l1 ≡ₚ l2 → occurrences s k l1 = occurrences s k l2.
Proof. intros Hp. unfold occurrences. rewrite Hp. reflexivity. Qed.

Lemma count_keys_equiv (s : Split) (l1 l2 : list (Split * Key)) (hist : PerSplit Dict) :
  l1 ≡ₚ l2 →
  dict_equiv (at_split s (count_keys l1 hist)) (at_split s (count_keys l2 hist)).
Proof.
  intros Hp k. rewrite !count_keys_get, (occurrences_Permutation s k l1 l2 Hp). reflexivity.
Qed.

End ImagesResolutionsFacts.

(** ** The class distribution *)

Module GetClassDistributionFacts.
Import DataClasses FeatureExtractors FeatureExtractors.GetClassDistribution DictFacts.

(** [d[k] = a] for a key of [d], as a map over the items. *)
Abbreviation replace k a :=
  (fmap (M := list) (λ kv : Key * nat, if decide (kv.1 = k) then (k, a) else kv)).

Lemma replace_replace (k : Key) (a b : nat) (d : Dict) :
  replace k a (replace k b d) = replace k a d.
Proof.
  rewrite <- list_fmap_compose. apply list_fmap_ext. intros i [k' v'] _. simpl.
  destruct (decide (k' = k)) as [->|]; simpl.
  - rewrite decide_True by reflexivity. reflexivity.
  - rewrite decide_False by assumption. reflexivity.
Qed.

Lemma replace_comm (k1 k2 : Key) (a b : nat) (d : Dict) :
  k1 ≠ k2 → replace k1 a (replace k2 b d) = replace k2 b (replace k1 a d).
Proof.
  intros Hne. rewrite <- !list_fmap_compose. apply list_fmap_ext. intros i [k' v'] _. simpl.
  destruct (decide (k' = k2)) as [->|]; simpl.
  - rewrite !(decide_False (P := k2 = k1)) by congruence. simpl.
    rewrite decide_True by reflexivity. reflexivity.
  - destruct (decide (k' = k1)) as [->|]; simpl.
    + rewrite decide_False by congruence. reflexivity.
    + rewrite decide_False by assumption. reflexivity.
Qed.

(** One class counted under its key. *)
Abbreviation add_counted s k n := (do! hist_add s k n in total_add s n).

Lemma add_counted_keyed (s : Split) (k : Key) (n v : nat) (self : GetClassDistribution) :
  dict_get k (at_split s (_hist self)) = Some v →
  add_counted s k n self
  = (Returned tt,
     MkGetClassDistribution
       (set_split s (replace k (v + n) (at_split s (_hist self))) (_hist self))
       (set_split s (at_split s (_total_objects self) + n) (_total_objects self))
       (ignore_labels self) (id_to_name self)).
Proof.
  intros Hv. unfold bind, hist_add, total_add, modify. rewrite Hv.
  rewrite dict_set_present by eauto. reflexivity.
Qed.

Lemma add_counted_unkeyed (s : Split) (k : Key) (n : nat) (self : GetClassDistribution) :
  dict_get k (at_split s (_hist self)) = None →
  add_counted s k n self = (Raised KeyError, self).
Proof. intros Hv. unfold bind, hist_add. rewrite Hv. reflexivity. Qed.

Lemma set_split_set_split {A} (s : Split) (a b : A) (p : PerSplit A) :
  set_split s a (set_split s b p) = set_split s a p.
Proof. destruct s; reflexivity. Qed.

Lemma set_split_comm {A} (s1 s2 : Split) (a b : A) (p : PerSplit A) :
  s1 ≠ s2 → set_split s1 a (set_split s2 b p) = set_split s2 b (set_split s1 a p).
Proof. destruct s1, s2; congruence || reflexivity. Qed.

Lemma at_split_same {A} (s : Split) (a : A) (p : PerSplit A) :
  at_split s (set_split s a p) = a.
Proof. destruct s; reflexivity. Qed.

Lemma at_split_other {A} (s s0 : Split) (a : A) (p : PerSplit A) :
  s0 ≠ s → at_split s (set_split s0 a p) = at_split s p.
Proof. destruct s, s0; congruence || reflexivity. Qed.

Lemma add_counted_comm (s1 s2 : Split) (k1 k2 : Key) (n1 n2 : nat)
    (self self' : GetClassDistribution) :
  (do! add_counted s1 k1 n1 in add_counted s2 k2 n2) self = (Returned tt, self') →
  (do! add_counted s2 k2 n2 in add_counted s1 k1 n1) self = (Returned tt, self').
Proof.
  unfold bind at 1. unfold bind at 3.
  destruct (dict_get k1 (at_split s1 (_hist self))) as [v1|] eqn:H1;
    [|rewrite (add_counted_unkeyed _ _ _ _ H1); discriminate].
  rewrite (add_counted_keyed _ _ _ _ _ H1).
  match goal with |- add_counted _ _ _ ?st = _ → _ => set (self1 := st) end.
  destruct (dict_get k2 (at_split s2 (_hist self1))) as [v2|] eqn:H2;
    [|rewrite (add_counted_unkeyed _ _ _ _ H2); discriminate].
  rewrite (add_counted_keyed _ _ _ _ _ H2). intros [= <-].
  subst self1. cbn [_hist _total_objects ignore_labels id_to_name] in *.
  destruct (decide (s1 = s2)) as [<-|Hs].
  - rewrite at_split_same in H2. rewrite dict_get_replace in H2.
    rewrite !at_split_same, !set_split_set_split.
    destruct (decide (k1 = k2)) as [<-|Hk].
    + rewrite H1 in H2. injection H2 as <-.
      rewrite (add_counted_keyed s1 k1 n2 v1 self H1).
      cbn [_hist _total_objects ignore_labels id_to_name].
      erewrite add_counted_keyed; cycle 1.
      { cbn [_hist]. rewrite at_split_same, dict_get_replace.
        rewrite decide_True by reflexivity. rewrite H1. reflexivity. }
      cbn [_hist _total_objects ignore_labels id_to_name].
      rewrite !at_split_same, !set_split_set_split, !replace_replace.
      replace (v1 + n2 + n1) with (v1 + n1 + n2) by lia.
      replace (at_split s1 (_total_objects self) + n2 + n1)
        with (at_split s1 (_total_objects self) + n1 + n2) by lia.
      reflexivity.
    + rewrite (add_counted_keyed s1 k2 n2 v2 self H2).
      cbn [_hist _total_objects ignore_labels id_to_name].
      erewrite add_counted_keyed; cycle 1.
      { cbn [_hist]. rewrite at_split_same, dict_get_replace.
        rewrite decide_False by congruence. exact H1. }
      cbn [_hist _total_objects ignore_labels id_to_name].
      rewrite !at_split_same, !set_split_set_split.
      rewrite (replace_comm k2 k1) by congruence.
      replace (at_split s1 (_total_objects self) + n2 + n1)
        with (at_split s1 (_total_objects self) + n1 + n2) by lia.
      reflexivity.
  - rewrite at_split_other in H2 by exact Hs.
    rewrite !(at_split_other s2 s1) by exact Hs.
    rewrite (add_counted_keyed s2 k2 n2 v2 self H2).
    cbn [_hist _total_objects ignore_labels id_to_name].
    erewrite add_counted_keyed; cycle 1.
    { cbn [_hist]. rewrite at_split_other by congruence. exact H1. }
    cbn [_hist _total_objects ignore_labels id_to_name].
    rewrite !(at_split_other s1 s2) by congruence.
    rewrite (set_split_comm s2 s1) by congruence.
    rewrite (set_split_comm s2 s1 (at_split s2 (_total_objects self) + n2)) by congruence.
    reflexivity.
Qed.

Lemma count_class_comm (p q : Split * list Contour) (self self' : GetClassDistribution) :
  (do! count_class p.1 p.2 in count_class q.1 q.2) self = (Returned tt, self') →
  (do! count_class q.1 q.2 in count_class p.1 p.2) self = (Returned tt, self').
Proof.
  destruct p as [s1 [|c1 g1]], q as [s2 [|c2 g2]]; cbn [fst snd count_class].
  - done.
  - rewrite bind_ret_l, bind_ret_r. done.
  - rewrite bind_ret_l, bind_ret_r. done.
  - apply add_counted_comm.
Qed.

Lemma update_as_groups (data : SegBatchData) (self : GetClassDistribution) :
  update data self
  = for_ (image_contours ← contours data; pair (split data) <$> image_contours)
         (λ p, count_class p.1 p.2) self.
Proof.
  unfold update. rewrite for__bind. apply for__ext. intros image_contours st.
  rewrite for__fmap. reflexivity.
Qed.

Lemma update_all_as_groups (batches : list SegBatchData) (self : GetClassDistribution) :
  update_all batches self = for_ (class_groups batches) (λ p, count_class p.1 p.2) self.
Proof.
  unfold update_all, class_groups. rewrite for__bind. apply for__ext.
  intros data st. apply update_as_groups.
Qed.

Lemma update_all_Permutation (bs1 bs2 : list SegBatchData) (self self' : GetClassDistribution) :
  bs1 ≡ₚ bs2 →
  update_all bs1 self = (Returned tt, self') →
  update_all bs2 self = (Returned tt, self').
Proof.
  intros Hp. rewrite !update_all_as_groups.
  apply for__Permutation.
  - intros p q st st'. apply count_class_comm.
  - unfold class_groups. rewrite Hp. reflexivity.
Qed.

End GetClassDistributionFacts.

(** ** Aggregation *)

Module AggregationFacts.
Import DataClasses FeatureExtractors DictFacts.
Import ImagesResolutionsFacts GetClassDistributionFacts.


(** *** Renaming through the table *)

(** The histogram that [class_id_to_name] builds, from [acc] on. *)
Abbreviation renamed names acc d :=
  (foldl (λ new_hist (kv : Key * nat),
            dict_set (GetClassDistribution.name_of names kv.1) kv.2 new_hist) acc d).









Section class_distribution.
Variable Values : Type.
Variable normalize : list nat → nat → Values.


Abbreviation gcd_aggregate :=
  (GetClassDistribution.aggregate GetClassDistribution.class_id_to_name Values normalize).


End class_distribution.

Import Samples.



End AggregationFacts.

(** ** The orchestrator *)

Module ManagerFacts.
Import DataClasses Plotting Manager.

Section orchestrator.
Context {E : Type} `{Extractor.FeatureExtractor E}.
Variable preprocess : Tensor → Tensor → BatchData.
Variable schedule : list Task → list Task.

Abbreviation Mgr := (AnalysisManager (E := E)).
Abbreviation execute_body := (execute_body preprocess schedule).
Abbreviation execute_loop := (execute_loop preprocess schedule).
Abbreviation execute := (Manager.execute preprocess schedule).

Lemma extractors_set (w : Which) (es : list E) (self : Mgr) :
  extractors w (set_extractors w es self) = es.
Proof. destruct w; reflexivity. Qed.

Lemma set_extractors_set (w : Which) (es es' : list E) (self : Mgr) :
  set_extractors w es (set_extractors w es' self) = set_extractors w es self.
Proof. destruct w; reflexivity. Qed.

Lemma set_extractors_same (w : Which) (self : Mgr) :
  set_extractors w (extractors w self) self = self.
Proof. destruct w, self; reflexivity. Qed.

(** What one pass over the extractors does to a list of them. *)
Abbreviation execute_at batch_data :=
  (λ (i : nat) (es : list E),
     match es !! i with
     | Some e => let '(o, e') := Extractor.execute batch_data e in (o, <[i := e']> es)
     | None => (Returned tt, es)
     end).

(** The debug branch of a loop over the extractors of [w]. *)
Lemma debug_pass (w : Which) (batch_data : BatchData) (indices : list nat)
    (futures : option (list Task)) (self : Mgr) :
  for_fold indices futures
    (λ i futures,
       do! on_extractor w i (Extractor.execute batch_data) tt in ret futures) self
  = let '(o, es) := for_ indices (execute_at batch_data) (extractors w self) in
    (match o with Returned _ => Returned futures | Raised e => Raised e end,
     set_extractors w es self).
Proof.
  set (body := λ (i : nat) (futures : option (list Task)),
         do! on_extractor w i (Extractor.execute batch_data) tt in ret futures).
  revert self. induction indices as [|i indices IH]; intros self.
  - simpl. unfold ret. rewrite set_extractors_same. reflexivity.
  - cbn [for_fold for_]. unfold bind. unfold body at 1. unfold bind, on_extractor.
    destruct (extractors w self !! i) as [e|] eqn:He.
    + destruct (Extractor.execute batch_data e) as [[[]|x] e'].
      * unfold ret at 1. rewrite IH, extractors_set.
        destruct (for_ indices _ _) as [o es]. rewrite set_extractors_set. reflexivity.
      * reflexivity.
    + unfold ret at 1. rewrite IH.
      destruct (for_ indices _ _) as [o es]. reflexivity.
Qed.

Lemma execute_all_eq (batch_data : BatchData) (es : list E) :
  execute_all batch_data es = for_ (seq 0 (length es)) (execute_at batch_data) es.
Proof. reflexivity. Qed.

(** The outcome of a pass, for the loop that carries [futures]. *)
Abbreviation carrying futures o :=
  (match o with Returned _ => Returned futures | Raised e => Raised e end).

(** One pass of the loop of [execute] in debug mode, case by case. *)
Lemma execute_body_debug (train_batch : nat) (futures : option (list Task)) (self : Mgr) :
  train_batch ≤ 3 →
  execute_body true train_batch futures self
  = match pending (_train_iter self) with
    | [] => (Raised StopIteration,
             set_train_iter (MkIterator [] (S (n_next (_train_iter self)))) self)
    | item :: rest =>
        let self1 := set_train_iter (MkIterator rest (S (n_next (_train_iter self)))) self in
        match execute_all (preprocess item.1 item.2) (_train_extractors self) with
        | (Raised e, tes) => (Raised e, set_extractors TrainExtractors tes self1)
        | (Returned _, tes) =>
            let self2 := set_extractors TrainExtractors tes self1 in
            if _train_only self then (Returned futures, self2) else
            match _val_iter self with
            | None => (Raised TypeError, self2)
            | Some vit =>
                match pending vit with
                | [] => (Returned futures,
                         set_train_only true (set_val_iter (MkIterator [] (S (n_next vit))) self2))
                | vitem :: vrest =>
                    let self3 := set_val_iter (MkIterator vrest (S (n_next vit))) self2 in
                    let '(o, ves) :=
                      execute_all (preprocess vitem.1 vitem.2) (_val_extractors self) in
                    (carrying futures o, set_extractors ValExtractors ves self3)
                end
            end
        end
    end.
Proof.
  intros Hi. unfold Manager.execute_body.
  replace (3 <? train_batch) with false by (symmetry; apply Nat.ltb_ge; lia).
  cbn [andb negb]. unfold bind at 1.
  unfold _get_batch_train, zoom, _get_batch, bind at 1, next.
  destruct (pending (_train_iter self)) as [|item rest]; [reflexivity|].
  unfold ret at 1. unfold bind at 1, get at 1. unfold bind at 1.
  rewrite (debug_pass TrainExtractors).
  cbn [_train_extractors set_train_iter extractors]. rewrite <- execute_all_eq.
  destruct (execute_all (preprocess item.1 item.2) (_train_extractors self))
    as [[[]|e] tes]; [|reflexivity].
  cbv zeta. unfold bind at 1, get at 1.
  replace (_train_only (set_extractors TrainExtractors tes
             (set_train_iter (MkIterator rest (S (n_next (_train_iter self)))) self)))
    with (_train_only self) by reflexivity.
  destruct (_train_only self); cbn [negb]; [reflexivity|].
  unfold bind at 1, try_except_StopIteration, _get_batch_val.
  replace (_val_iter (set_extractors TrainExtractors tes
             (set_train_iter (MkIterator rest (S (n_next (_train_iter self)))) self)))
    with (_val_iter self) by reflexivity.
  destruct (_val_iter self) as [vit|]; [|reflexivity].
  unfold _get_batch, bind at 1, next.
  destruct (pending vit) as [|vitem vrest]; [reflexivity|].
  unfold ret at 1. unfold bind at 1, get at 1.
  rewrite (debug_pass ValExtractors).
  cbn [_val_extractors set_val_iter set_extractors set_train_iter extractors].
  rewrite <- execute_all_eq.
  destruct (execute_all (preprocess vitem.1 vitem.2) (_val_extractors self))
    as [[[]|e] ves]; reflexivity.
Qed.

Lemma execute_body_skip (train_batch : nat) (futures : option (list Task)) (self : Mgr) :
  3 < train_batch → execute_body true train_batch futures self = (Returned futures, self).
Proof.
  intros Hi. unfold Manager.execute_body.
  replace (3 <? train_batch) with true by (symmetry; apply Nat.ltb_lt; lia).
  reflexivity.
Qed.

Lemma execute_loop_skip (train_batches : list nat) (futures : option (list Task)) (self : Mgr) :
  Forall (λ i, 3 < i) train_batches →
  execute_loop true train_batches futures self = (Returned futures, self).
Proof.
  unfold Manager.execute_loop. induction 1 as [|i l Hi Hl IH]; [reflexivity|].
  cbn [for_fold]. unfold bind. rewrite (execute_body_skip _ _ _ Hi). exact IH.
Qed.

Lemma for_fold_app {S X L} (xs ys : list X) (l : L) (body : X → L → M S L) (s : S) :
  for_fold (xs ++ ys) l body s = (let! l' := for_fold xs l body in for_fold ys l' body) s.
Proof.
  revert l s. induction xs as [|x xs IH]; intros l s; [reflexivity|].
  cbn [app for_fold]. unfold bind. destruct (body x l s) as [[l'|e] s']; [|reflexivity].
  rewrite IH. reflexivity.
Qed.

(** In debug mode only the first four passes count. *)
Lemma execute_loop_first_four (n : nat) (futures : option (list Task)) (self : Mgr) :
  execute_loop true (seq 0 n) futures self = execute_loop true (seq 0 (n `min` 4)) futures self.
Proof.
  destruct (le_lt_dec n 4) as [Hle|Hgt].
  - rewrite Nat.min_l by exact Hle. reflexivity.
  - rewrite Nat.min_r by lia. replace n with (4 + (n - 4)) at 1 by lia.
    rewrite seq_app. unfold Manager.execute_loop. rewrite for_fold_app. unfold bind.
    destruct (for_fold (seq 0 4) futures (execute_body true) self) as [[l'|e] s']; [|reflexivity].
    apply execute_loop_skip. apply Forall_forall. intros i Hi.
    apply elem_of_seq in Hi. lia.
Qed.

(** One pass calls [next] at most once on each iterator. *)
Lemma execute_body_pulls (train_batch : nat) (futures : option (list Task)) (self : Mgr) :
  n_next (_train_iter (execute_body true train_batch futures self).2)
  ≤ S (n_next (_train_iter self))
  ∧ val_next_count (execute_body true train_batch futures self).2 ≤ S (val_next_count self).
Proof.
  destruct (le_lt_dec train_batch 3) as [Hle|Hgt];
    [|rewrite execute_body_skip by exact Hgt; simpl; lia].
  rewrite execute_body_debug by exact Hle. unfold val_next_count.
  destruct (pending (_train_iter self)) as [|item rest]; [simpl; lia|].
  cbv zeta.
  destruct (execute_all (preprocess item.1 item.2) (_train_extractors self))
    as [[[]|e] tes]; [|simpl; lia].
  destruct (_train_only self); [simpl; lia|].
  destruct (_val_iter self) as [vit|] eqn:Hv; [|simpl; rewrite Hv; lia].
  destruct (pending vit) as [|vitem vrest]; [simpl; lia|].
  destruct (execute_all (preprocess vitem.1 vitem.2) (_val_extractors self)) as [o ves].
  simpl. lia.
Qed.

Lemma execute_loop_pulls (train_batches : list nat) (futures : option (list Task)) (self : Mgr) :
  n_next (_train_iter (execute_loop true train_batches futures self).2)
  ≤ n_next (_train_iter self) + length train_batches
  ∧ val_next_count (execute_loop true train_batches futures self).2
    ≤ val_next_count self + length train_batches.
Proof.
  unfold Manager.execute_loop. revert futures self.
  induction train_batches as [|i l IH]; intros futures self; [simpl; lia|].
  cbn [for_fold length]. unfold bind.
  pose proof (execute_body_pulls i futures self) as Hb.
  destruct (execute_body true i futures self) as [[l'|e] s']; simpl in Hb |- *; [|lia].
  specialize (IH l' s'). lia.
Qed.

(** The batch that [_get_batch] makes of an item of an iterator. *)
Abbreviation batch_of := (λ item : Tensor * Tensor, preprocess item.1 item.2).

Lemma feed_cons (batch_data : BatchData) (batches : list BatchData) (es : list E) :
  feed (batch_data :: batches) es
  = match execute_all batch_data es with
    | (Returned _, es') => feed batches es'
    | (Raised e, es') => (Raised e, es')
    end.
Proof.
  unfold feed. cbn [for_]. unfold bind.
  destruct (execute_all batch_data es) as [[[]|e] es']; reflexivity.
Qed.

(** The loop once the val split is out of the way. *)
Lemma execute_loop_train_only (train_batches : list nat) (futures : option (list Task))
    (self : Mgr) (tes : list E) :
  Forall (λ i, i ≤ 3) train_batches →
  _train_only self = true →
  length train_batches ≤ length (pending (_train_iter self)) →
  feed (batch_of <$> take (length train_batches) (pending (_train_iter self)))
       (_train_extractors self) = (Returned tt, tes) →
  execute_loop true train_batches futures self
  = (Returned futures,
     MkManager tes (_val_extractors self) (_threads self) true
       (MkIterator (drop (length train_batches) (pending (_train_iter self)))
                   (n_next (_train_iter self) + length train_batches))
       (_val_iter self) (_logger self) (_length_data self)).
Proof.
  unfold Manager.execute_loop. intros Hall. revert self tes.
  induction Hall as [|i l Hi Hl IH]; intros self tes Hto Hlen Hfeed.
  - cbn in Hfeed. injection Hfeed as <-. destruct self as [? ? ? ? [? ?] ? ? ?].
    simpl in *. subst. unfold ret. rewrite Nat.add_0_r. reflexivity.
  - cbn [for_fold]. unfold bind. rewrite execute_body_debug by exact Hi.
    destruct (pending (_train_iter self)) as [|item rest] eqn:Hp; [simpl in Hlen; lia|].
    cbn [length take fmap list_fmap] in Hfeed. rewrite feed_cons in Hfeed.
    cbv zeta.
    destruct (execute_all (batch_of item) (_train_extractors self)) as [[[]|e] tes1];
      [|discriminate Hfeed].
    rewrite Hto. erewrite IH; cycle 1.
    + simpl. exact Hto.
    + simpl in Hlen |- *. lia.
    + simpl. exact Hfeed.
    + destruct self as [? ? ? ? [? ?] ? ? ?]. simpl in *. subst.
      f_equal. f_equal. f_equal. lia.
Qed.

(** The loop while the val split is served, until its iterator is
    exhausted, and on to the end of the run. *)
Lemma execute_loop_val_exhausted (train_batches : list nat) (futures : option (list Task))
    (self : Mgr) (vit : Iterator (Tensor * Tensor)) (tes ves : list E) :
  Forall (λ i, i ≤ 3) train_batches →
  _train_only self = false →
  _val_iter self = Some vit →
  length (pending vit) < length train_batches →
  length train_batches ≤ length (pending (_train_iter self)) →
  feed (batch_of <$> take (length train_batches) (pending (_train_iter self)))
       (_train_extractors self) = (Returned tt, tes) →
  feed (batch_of <$> pending vit) (_val_extractors self) = (Returned tt, ves) →
  execute_loop true train_batches futures self
  = (Returned futures,
     MkManager tes ves (_threads self) true
       (MkIterator (drop (length train_batches) (pending (_train_iter self)))
                   (n_next (_train_iter self) + length train_batches))
       (Some (MkIterator [] (n_next vit + S (length (pending vit)))))
       (_logger self) (_length_data self)).
Proof.
  intros Hall. revert self vit tes ves.
  induction Hall as [|i l Hi Hl IH]; intros self vit tes ves Hto Hv Hvlen Hlen Hfeed Hvfeed.
  - simpl in Hvlen. lia.
  - unfold Manager.execute_loop. cbn [for_fold]. unfold bind.
    rewrite execute_body_debug by exact Hi.
    destruct (pending (_train_iter self)) as [|item rest] eqn:Hp; [simpl in Hlen; lia|].
    cbn [length take fmap list_fmap] in Hfeed. rewrite feed_cons in Hfeed.
    cbv zeta.
    destruct (execute_all (batch_of item) (_train_extractors self)) as [[[]|e] tes1];
      [|discriminate Hfeed].
    rewrite Hto, Hv.
    destruct (pending vit) as [|vitem vrest] eqn:Hvp.
    + cbn in Hvfeed. injection Hvfeed as <-.
      fold (execute_loop true l futures). erewrite execute_loop_train_only; cycle 1.
      * exact Hl.
      * reflexivity.
      * simpl in Hlen |- *. lia.
      * simpl. exact Hfeed.
      * destruct self as [? ? ? ? [? ?] ? ? ?], vit as [? ?]. simpl in *. subst.
        f_equal. f_equal; [f_equal; lia | do 2 f_equal; lia].
    + cbn [fmap list_fmap] in Hvfeed. rewrite feed_cons in Hvfeed.
      destruct (execute_all (batch_of vitem) (_val_extractors self)) as [[[]|e] ves1];
        [|discriminate Hvfeed].
      fold (execute_loop true l futures).
      erewrite (IH _ (MkIterator vrest (S (n_next vit)))); cycle 1.
      * simpl. exact Hto.
      * reflexivity.
      * simpl in Hvlen |- *. lia.
      * simpl in Hlen |- *. lia.
      * simpl. exact Hfeed.
      * simpl. exact Hvfeed.
      * destruct self as [? ? ? ? [? ?] ? ? ?], vit as [? ?]. simpl in *. subst.
        f_equal. f_equal; [f_equal; lia | do 2 f_equal; lia].
Qed.

Lemma for__invariant {S X} (P : S → Prop) (xs : list X) (body : X → M S unit) (s : S) :
  P s → (∀ x s, P s → P (body x s).2) → P (for_ xs body s).2.
Proof.
  intros Hs Hb. revert s Hs. induction xs as [|x xs IH]; intros s Hs; [exact Hs|].
  cbn [for_]. unfold bind. specialize (Hb x s Hs).
  destruct (body x s) as [[[]|e] s']; [apply IH|]; exact Hb.
Qed.

Lemma for__ext_invariant {S X} (P : S → Prop) (xs : list X) (body body' : X → M S unit) (s : S) :
  P s → (∀ x s, P s → body x s = body' x s) → (∀ x s, P s → P (body' x s).2) →
  for_ xs body s = for_ xs body' s.
Proof.
  intros Hs He Hb. revert s Hs. induction xs as [|x xs IH]; intros s Hs; [reflexivity|].
  cbn [for_]. unfold bind. rewrite (He x s Hs). specialize (Hb x s Hs).
  destruct (body' x s) as [[[]|e] s']; [apply IH; exact Hb | reflexivity].
Qed.

(** The figure of the train extractor at index [i], alone on its axis. *)
Abbreviation train_figure :=
  (λ i : nat,
     let! ax := on_extractor TrainExtractors i (Extractor.process []) [] in
     let! self := get in
     log_graph (extractor_class_name ValExtractors i self +:+ "/fig") ax).

Lemma train_figure_frame (i : nat) (self : Mgr) :
  _train_only (train_figure i self).2 = _train_only self
  ∧ _val_extractors (train_figure i self).2 = _val_extractors self.
Proof.
  unfold bind, on_extractor, get, log_graph, modify. simpl.
  destruct (_train_extractors self !! i) as [e|]; [|done].
  destruct (Extractor.process [] e) as [[ax|x] e']; done.
Qed.

Lemma post_process_train_only (self : Mgr) :
  _train_only self = true →
  post_process self = aggregate_train_only self
  ∧ _val_extractors (post_process self).2 = _val_extractors self.
Proof.
  intros Hto.
  assert (Heq : post_process self = aggregate_train_only self).
  { unfold post_process, aggregate_train_only, bind at 1 3, get at 1 3.
    apply (for__ext_invariant (λ s, _train_only s = true)); [exact Hto | |].
    - intros i s Hs. unfold bind at 1, get at 1. rewrite Hs. reflexivity.
    - intros i s Hs. destruct (train_figure_frame i s) as [-> _]. exact Hs. }
  split; [exact Heq|]. rewrite Heq.
  unfold aggregate_train_only, bind at 1, get at 1.
  apply (for__invariant (λ s, _val_extractors s = _val_extractors self)); [reflexivity|].
  intros i s Hs. destruct (train_figure_frame i s) as [_ ->]. exact Hs.
Qed.

Lemma execute_unfold (debug : bool) (self : Mgr) :
  execute debug self
  = (carrying tt (execute_loop debug (seq 0 (_length_data self)) None self).1,
     (execute_loop debug (seq 0 (_length_data self)) None self).2).
Proof.
  unfold Manager.execute, bind, get, ret.
  destruct (execute_loop debug (seq 0 (_length_data self)) None self) as [[f|e] s'];
    reflexivity.
Qed.

(** C4 (amended). In a run, as shipped, whose val iterator holds fewer
    batches than the run has passes while the train iterator holds one for
    every pass, and whose extractors take their batches without raising:
    [execute] returns; the
    val iterator has been asked once more than it had batches and never
    again, the train iterator once per pass; the train extractors have seen
    every train batch and the val extractors the val batches there were;
    and [post_process], now train-only, draws the train extractors alone
    and leaves the val extractors untouched. *)
Theorem val_exhaustion_is_not_fatal
    (self : Mgr) (vit : Iterator (Tensor * Tensor)) (tes ves : list E) :
  _train_only self = false →
  _val_iter self = Some vit →
  length (pending vit) < _length_data self `min` 4 →
  _length_data self `min` 4 ≤ length (pending (_train_iter self)) →
  feed ((λ item, preprocess item.1 item.2)
          <$> take (_length_data self `min` 4) (pending (_train_iter self)))
       (_train_extractors self) = (Returned tt, tes) →
  feed ((λ item, preprocess item.1 item.2) <$> pending vit)
       (_val_extractors self) = (Returned tt, ves) →
  ∃ self', execute debug_mode self = (Returned tt, self')
           ∧ _train_only self' = true
           ∧ _train_extractors self' = tes
           ∧ _val_extractors self' = ves
           ∧ n_next (_train_iter self')
             = n_next (_train_iter self) + _length_data self `min` 4
           ∧ val_next_count self' = n_next vit + S (length (pending vit))
           ∧ post_process self' = aggregate_train_only self'
           ∧ _val_extractors (post_process self').2 = ves.
Proof.
  intros Hto Hv Hvlen Hlen Hfeed Hvfeed.
  rewrite execute_unfold. unfold debug_mode. rewrite execute_loop_first_four.
  assert (Hn : length (seq 0 (_length_data self `min` 4)) = _length_data self `min` 4)
    by apply length_seq.
  rewrite (execute_loop_val_exhausted _ None self vit tes ves); rewrite ?Hn; try assumption.
  - eexists. split; [reflexivity|]. cbn [fst snd].
    repeat (split; [reflexivity|]).
    apply (post_process_train_only (MkManager tes ves _ true _ _ _ _)). reflexivity.
  - apply Forall_forall. intros i Hi. apply elem_of_seq in Hi. lia.
Qed.

(** C9. With the flag as shipped, a pass whose index exceeds 3 returns at
    once and leaves the manager as it was: nothing is pulled and no
    extractor is touched; so a run of any length is the run of its first
    four passes, and calls [next] at most 4 times on the train iterator and
    at most 4 times on the val iterator. *)
Theorem debug_mode_stops_after_four_batches (self : Mgr) :
  (∀ train_batch futures s,
     3 < train_batch → execute_body debug_mode train_batch futures s = (Returned futures, s))
  ∧ execute_loop debug_mode (seq 0 (_length_data self)) None self
    = execute_loop debug_mode (seq 0 (_length_data self `min` 4)) None self
  ∧ n_next (_train_iter (execute debug_mode self).2) ≤ n_next (_train_iter self) + 4
  ∧ val_next_count (execute debug_mode self).2 ≤ val_next_count self + 4.
Proof.
  unfold debug_mode. split; [|split].
  - intros train_batch futures s Hi. apply execute_body_skip. exact Hi.
  - apply execute_loop_first_four.
  - rewrite execute_unfold. cbn [snd]. rewrite execute_loop_first_four.
    pose proof (execute_loop_pulls (seq 0 (_length_data self `min` 4)) None self) as Hp.
    rewrite length_seq in Hp. lia.
Qed.

(** The pool holds nothing and each split has its one extractor. *)
Abbreviation single self :=
  (_threads (E := E) self = [] ∧ length (_train_extractors self) = 1
   ∧ length (_val_extractors self) = 1).

Lemma schedule_one (t : Task) : (∀ q, schedule q ≡ₚ q) → schedule [t] = [t].
Proof. intros Hs. apply Permutation_length_1_inv. symmetry. apply Hs. Qed.

Lemma schedule_two (t u : Task) :
  (∀ q, schedule q ≡ₚ q) → schedule [t; u] = [t; u] ∨ schedule [t; u] = [u; t].
Proof. intros Hs. apply Permutation_length_2_inv. symmetry. apply Hs. Qed.

Ltac run_parallel :=
  unfold Manager.execute_body; rewrite andb_false_r; cbn [negb];
  unfold bind, _get_batch_train, _get_batch_val, zoom, _get_batch, next,
    try_except_StopIteration, submit_all, submit, get, ret, raise, wait, modify;
  cbn -[Extractor.execute].

Ltac run_tasks :=
  cbn -[Extractor.execute]; unfold run_task, on_extractor; cbn -[Extractor.execute].

Lemma execute_body_parallel (train_batch : nat) (futures futures' : option (list Task))
    (self self' : Mgr) :
  (∀ q, schedule q ≡ₚ q) →
  single self →
  train_batch ≤ 3 →
  execute_body true train_batch futures self = (Returned futures, self') →
  single self'
  ∧ ∃ futures'', execute_body false train_batch futures' self = (Returned futures'', self').
Proof.
  intros Hs (Hq & Ht & Hv) Hi. rewrite execute_body_debug by exact Hi.
  destruct self as [tes ves q to [items n] vi lg len]. simpl in Hq, Ht, Hv. subst q.
  destruct tes as [|te [|? ?]]; try discriminate Ht.
  destruct ves as [|ve [|? ?]]; try discriminate Hv.
  cbn [pending _train_iter _train_extractors _val_extractors _train_only _val_iter n_next].
  destruct items as [|item rest]; [discriminate|].
  cbv zeta. unfold execute_all. cbn [length seq for_]. unfold bind at 1. cbn [lookup list_lookup].
  destruct (Extractor.execute (preprocess item.1 item.2) te) as [[[]|x] te'] eqn:Hte;
    [|discriminate].
  cbn [ret list_insert insert].
  destruct to.
  - intros [= <-]. split; [simpl; auto|]. eexists. run_parallel.
    rewrite (schedule_one _ Hs). run_tasks. rewrite Hte. reflexivity.
  - destruct vi as [[vitems vn]|]; [|discriminate]. cbn [pending n_next].
    destruct vitems as [|vitem vrest].
    + intros [= <-]. split; [simpl; auto|]. eexists. run_parallel.
      rewrite (schedule_one _ Hs). run_tasks. rewrite Hte. reflexivity.
    + unfold bind at 1. cbn [lookup list_lookup].
      destruct (Extractor.execute (preprocess vitem.1 vitem.2) ve) as [[[]|x] ve'] eqn:Hve;
        [|discriminate].
      cbn [ret list_insert insert]. intros [= <-]. split; [simpl; auto|]. eexists.
      run_parallel.
      destruct (schedule_two
                  (MkTask TrainExtractors 0 (preprocess item.1 item.2))
                  (MkTask ValExtractors 0 (preprocess vitem.1 vitem.2)) Hs) as [-> | ->];
        run_tasks; rewrite ?Hte, ?Hve; cbn -[Extractor.execute]; rewrite ?Hte, ?Hve;
        reflexivity.
Qed.

Lemma execute_loop_parallel (train_batches : list nat) (futures futures' f : option (list Task))
    (self self' : Mgr) :
  (∀ q, schedule q ≡ₚ q) →
  single self →
  Forall (λ i, i ≤ 3) train_batches →
  execute_loop true train_batches futures self = (Returned f, self') →
  ∃ futures'', execute_loop false train_batches futures' self = (Returned futures'', self').
Proof.
  intros Hs Hsingle Hall. revert futures' self Hsingle.
  unfold Manager.execute_loop.
  induction Hall as [|i l Hi Hl IH]; intros futures' self Hsingle Hret.
  - injection Hret as _ <-. eexists. reflexivity.
  - cbn [for_fold] in Hret |- *. unfold bind in Hret |- *.
    destruct (execute_body true i futures self) as [[f0|e] s1] eqn:Hb; [|discriminate].
    assert (f0 = futures) as ->.
    { rewrite execute_body_debug in Hb by exact Hi.
      destruct (pending (_train_iter self)); [discriminate|]. cbv zeta in Hb.
      destruct (execute_all _ (_train_extractors self)) as [[[]|?] ?]; [|discriminate].
      destruct (_train_only self); [congruence|].
      destruct (_val_iter self) as [vit|]; [|discriminate].
      destruct (pending vit); [congruence|].
      destruct (execute_all _ (_val_extractors self)) as [[[]|?] ?]; congruence. }
    destruct (execute_body_parallel i futures futures' self s1 Hs Hsingle Hi Hb)
      as (Hsingle1 & f1 & ->).
    apply (IH f1 s1 Hsingle1 Hret).
Qed.

(** C8 (amended). For a run of at most 4 passes with one extractor per
    split and an empty pool, whatever the order in which the pool completes
    its calls: when the run in debug mode returns, the run in parallel mode
    returns too and leaves the manager, its extractors included, in the
    same state, from which [post_process] draws the same figures. *)
Theorem parallel_agrees_with_debug_on_short_single_runs (self self' : Mgr) :
  (∀ q, schedule q ≡ₚ q) →
  _threads self = [] →
  length (_train_extractors self) = 1 →
  length (_val_extractors self) = 1 →
  _length_data self ≤ 4 →
  execute true self = (Returned tt, self') →
  execute false self = (Returned tt, self')
  ∧ post_process (execute false self).2 = post_process (execute true self).2.
Proof.
  intros Hs Hq Ht Hv Hlen Hret.
  assert (Hpar : execute false self = (Returned tt, self')).
  { rewrite execute_unfold in Hret |- *.
    destruct (execute_loop true (seq 0 (_length_data self)) None self) as [[f|e] s1] eqn:Hl;
      [|discriminate].
    injection Hret as <-.
    destruct (execute_loop_parallel (seq 0 (_length_data self)) None None f self s1)
      as (f' & ->); auto.
    apply Forall_forall. intros i Hi. apply elem_of_seq in Hi. lia. }
  split; [exact Hpar|]. rewrite Hpar, Hret. reflexivity.
Qed.

End orchestrator.

Import Samples SegmentationExtractors.

Lemma val_exhaustion_is_not_fatal_witness :
  ∃ self', Manager.execute one_contour in_order debug_mode (counting_manager 3 3 1)
           = (Returned tt, self')
           ∧ _train_only self' = true
           ∧ (_hist <$> _train_extractors self') = [<[1 := 3]> (replicate 51 0)]
           ∧ (_hist <$> _val_extractors self') = [<[1 := 1]> (replicate 51 0)]
           ∧ n_next (_train_iter self') = 3
           ∧ val_next_count self' = 2.
Proof.
  destruct (val_exhaustion_is_not_fatal one_contour in_order (counting_manager 3 3 1)
              (iter [sample_item])
              [MkCountNumObjects true (<[1 := 3]> (replicate 51 0))]
              [MkCountNumObjects false (<[1 := 1]> (replicate 51 0))])
    as (self' & Hex & Hto & Htes & Hves & Hn & Hvn & _).
  - reflexivity.
  - reflexivity.
  - vm_compute. lia.
  - vm_compute. lia.
  - vm_compute. reflexivity.
  - vm_compute. reflexivity.
  - exists self'. rewrite Htes, Hves. repeat split; assumption.
Defined.

(** C4, as stated, fails.  Over four passes, three train batches and one
    val batch, the val iterator raises [StopIteration] in the second pass,
    while the train iterator still holds a batch; the run goes on
    train-only and raises the [StopIteration] of the train iterator in its
    fourth pass.  And over three passes with an extractor that raises on
    the third train batch, the val iterator is exhausted in the second
    pass, a train batch is left, and the run raises what the extractor
    raises. *)
Lemma val_exhaustion_does_not_keep_the_run_from_raising :
  (execute_loop one_contour in_order debug_mode (seq 0 2) None (counting_manager 4 3 1)).1
  = Returned None
  ∧ _train_only
      (execute_loop one_contour in_order debug_mode (seq 0 2) None (counting_manager 4 3 1)).2
    = true
  ∧ val_next_count
      (execute_loop one_contour in_order debug_mode (seq 0 2) None (counting_manager 4 3 1)).2
    = 2
  ∧ pending (_train_iter
      (execute_loop one_contour in_order debug_mode (seq 0 2) None (counting_manager 4 3 1)).2)
    = [sample_item]
  ∧ (Manager.execute one_contour in_order debug_mode (counting_manager 4 3 1)).1
    = Raised StopIteration
  ∧ _train_only
      (execute_loop MoreSamples.crowded_when_marked in_order debug_mode (seq 0 2) None
         MoreSamples.marked_manager).2
    = true
  ∧ pending (_train_iter
      (execute_loop MoreSamples.crowded_when_marked in_order debug_mode (seq 0 2) None
         MoreSamples.marked_manager).2)
    = [MoreSamples.marked_item]
  ∧ (Manager.execute MoreSamples.crowded_when_marked in_order debug_mode
       MoreSamples.marked_manager).1
    = Raised IndexError.
Proof. repeat split; vm_compute; reflexivity. Qed.

Lemma debug_mode_stops_after_four_batches_witness :
  execute_body one_contour in_order debug_mode 4 None (counting_manager 9 9 9)
  = (Returned None, counting_manager 9 9 9)
  ∧ n_next (_train_iter
              (Manager.execute one_contour in_order debug_mode (counting_manager 9 9 9)).2) ≤ 4.
Proof.
  destruct (debug_mode_stops_after_four_batches one_contour in_order (counting_manager 9 9 9))
    as (Hskip & _ & Hn & _).
  split; [apply Hskip; lia | exact Hn].
Defined.

(** C8, as stated, fails: over five train batches the debug mode counts four
    images and the parallel mode five. *)
Lemma debug_and_parallel_modes_differ :
  (Manager.execute one_contour in_order true (counting_manager 5 5 0)).1 = Returned tt
  ∧ (Manager.execute one_contour in_order false (counting_manager 5 5 0)).1 = Returned tt
  ∧ (_hist <$> _train_extractors
       (Manager.execute one_contour in_order true (counting_manager 5 5 0)).2)
    = [<[1 := 4]> (replicate 51 0)]
  ∧ (_hist <$> _train_extractors
       (Manager.execute one_contour in_order false (counting_manager 5 5 0)).2)
    = [<[1 := 5]> (replicate 51 0)]
  ∧ _train_extractors (Manager.execute one_contour in_order true (counting_manager 5 5 0)).2
    ≠ _train_extractors (Manager.execute one_contour in_order false (counting_manager 5 5 0)).2.
Proof.
  repeat split; try (vm_compute; reflexivity). vm_compute. discriminate.
Qed.

(** With two extractors per split the parallel mode hands every call to the
    pool twice: after one batch each extractor has counted its image twice. *)
Lemma parallel_mode_submits_each_call_per_extractor :
  (_hist <$> _train_extractors
     (Manager.execute one_contour in_order true (two_counters_manager 1 1)).2)
  = [<[1 := 1]> (replicate 51 0); <[1 := 1]> (replicate 51 0)]
  ∧ (_hist <$> _train_extractors
       (Manager.execute one_contour in_order false (two_counters_manager 1 1)).2)
    = [<[1 := 2]> (replicate 51 0); <[1 := 2]> (replicate 51 0)].
Proof. split; vm_compute; reflexivity. Qed.

Lemma parallel_agrees_with_debug_on_short_single_runs_witness :
  Manager.execute one_contour in_order false (counting_manager 3 3 1)
  = (Returned tt, (Manager.execute one_contour in_order true (counting_manager 3 3 1)).2).
Proof.
  apply (parallel_agrees_with_debug_on_short_single_runs one_contour in_order
           (counting_manager 3 3 1)
           (Manager.execute one_contour in_order true (counting_manager 3 3 1)).2).
  - intros q. reflexivity.
  - reflexivity.
  - reflexivity.
  - reflexivity.
  - vm_compute. lia.
  - vm_compute. reflexivity.
Defined.

End ManagerFacts.

(** * Further properties *)

(** ** Loops *)

Module LoopFacts.
Import Sequences.

(** A loop that meets an item on which its body raises [e], and whose body
    raises nothing else, raises [e]. *)
Lemma for__Exists_raises {St X} (I : St → Prop) (bad : X → Prop) (e0 : exn)
    (xs : list X) (body : X → M St unit) (s : St) :
  I s →
  (∀ x s, I s → I (body x s).2) →
  (∀ x s e, (body x s).1 = Raised e → e = e0) →
  (∀ x s, bad x → I s → (body x s).1 = Raised e0) →
  Exists bad xs → (for_ xs body s).1 = Raised e0.
Proof.
  intros Hs Hinv Honly Hbad Hex. revert s Hs.
  induction Hex as [x xs Hx|x xs Hex IH]; intros s Hs; cbn [for_]; unfold bind.
  - specialize (Hbad x s Hx Hs). destruct (body x s) as [[[]|e] s1]; [discriminate|].
    exact Hbad.
  - specialize (Hinv x s Hs). specialize (Honly x s).
    destruct (body x s) as [[[]|e] s1]; [apply IH; exact Hinv|].
    cbn. f_equal. apply Honly. reflexivity.
Qed.

Lemma for__preserves {St X} (P : St → Prop) (xs : list X) (body : X → M St unit) (s : St) :
  P s → (∀ x s, P s → P (body x s).2) → P (for_ xs body s).2.
Proof.
  intros Hs Hb. revert s Hs. induction xs as [|x xs IH]; intros s Hs; [exact Hs|].
  cbn [for_]. unfold bind. specialize (Hb x s Hs).
  destruct (body x s) as [[[]|e] s']; [apply IH|]; exact Hb.
Qed.

(** A loop raises only what its body raises. *)
Lemma for__raises_only {St X} (Q : exn → Prop) (xs : list X) (body : X → M St unit) (s : St) :
  (∀ x s e, (body x s).1 = Raised e → Q e) →
  ∀ e, (for_ xs body s).1 = Raised e → Q e.
Proof.
  intros Hb. revert s. induction xs as [|x xs IH]; intros s e; [discriminate|].
  cbn [for_]. unfold bind. specialize (Hb x s).
  destruct (body x s) as [[[]|e'] s1]; [apply IH|]. cbn [fst]. intros [= <-].
  apply Hb. reflexivity.
Qed.

(** A property indexed by the number of items taken, which every item
    advances by one whether or not the body raises on it. *)
Lemma for__enumerate_counted {St X} (P : nat → St → Prop) (xs : list X)
    (body : nat * X → M St unit) (s : St) :
  P 0 s →
  (∀ j x s, P j s → P (S j) (body (j, x) s).2) →
  (∀ j s, P j s → P (S j) s) →
  P (length xs) (for_ (enumerate xs) body s).2.
Proof.
  intros Hs Hstep Hmono. unfold enumerate.
  enough (Hgen : ∀ o s, P o s → P (o + length xs) (for_ (enumerate_from o xs) body s).2)
    by exact (Hgen 0 s Hs).
  assert (Hlift : ∀ n o s, P o s → P (o + n) s).
  { induction n as [|n IHn]; intros o s0 H0.
    - rewrite Nat.add_0_r. exact H0.
    - rewrite Nat.add_succ_r. apply Hmono, IHn, H0. }
  clear s Hs. induction xs as [|x xs IH]; intros o s Hs.
  - cbn [length]. rewrite Nat.add_0_r. exact Hs.
  - cbn [enumerate_from for_ length]. unfold bind. specialize (Hstep o x s Hs).
    destruct (body (o, x) s) as [[[]|e] s1]; cbn [snd] in Hstep |- *.
    + rewrite Nat.add_succ_r. exact (IH (S o) s1 Hstep).
    + rewrite Nat.add_succ_r. exact (Hlift (length xs) (S o) s1 Hstep).
Qed.

Lemma enumerate_from_elem_of {X} (o : nat) (xs : list X) (x : X) :
  x ∈ xs → ∃ i, (i, x) ∈ enumerate_from o xs.
Proof.
  revert o. induction xs as [|y xs IH]; intros o Hin; [inversion Hin|].
  apply elem_of_cons in Hin as [->|Hin].
  - exists o. left.
  - destruct (IH (S o) Hin) as [i Hi]. exists i. right. exact Hi.
Qed.

End LoopFacts.


(** ** The contour counter, beyond its bound *)

Module CountNumObjectsMore.
Import DataClasses SegmentationExtractors Plotting CountNumObjectsProcess CountNumObjectsFacts.

Lemma count_images_in_range (imgs : list (list (list Contour)))
    (self : SegmentationCountNumObjects) :
  Forall (λ oc, num_objects_per_image oc < length (_hist self)) imgs →
  ∃ self', for_ imgs (λ oc, hist_incr (num_objects_per_image oc)) self = (Returned tt, self')
           ∧ length (_hist self') = length (_hist self).
Proof.
  revert self. induction imgs as [|oc imgs IH]; intros self Hall.
  - exists self. split; reflexivity.
  - apply Forall_cons in Hall as [Hoc Hall]. cbn [for_]. unfold bind.
    destruct (hist_incr_in_range _ self Hoc) as (self1 & -> & Hl & _).
    destruct (IH self1) as (self2 & -> & Hl2); [rewrite Hl; exact Hall|].
    exists self2. split; [reflexivity | congruence].
Qed.

(** X1. When an image of a batch holds more contours than the histogram has
    bins, [execute] raises [IndexError] with the images before it counted:
    the extractor is left as [execute] leaves it on those images alone. *)
Theorem execute_keeps_what_it_counted
    (self : SegmentationCountNumObjects) (data : BatchData)
    (before after : list (list (list Contour))) (crowded : list (list Contour)) :
  batch_onehot_contours data = before ++ crowded :: after →
  Forall (λ oc, num_objects_per_image oc < length (_hist self)) before →
  length (_hist self) ≤ num_objects_per_image crowded →
  ∃ self', execute (MkBatchData (images data) (labels data) before) self = (Returned tt, self')
           ∧ execute data self = (Raised IndexError, self').
Proof.
  intros Hdata Hbefore Hcrowded. unfold execute. rewrite Hdata. cbn [batch_onehot_contours].
  destruct (count_images_in_range before self Hbefore) as (self' & Hret & Hlen).
  exists self'. split; [exact Hret|].
  rewrite for__app. unfold bind at 1. rewrite Hret. cbn [for_]. unfold bind.
  rewrite hist_incr_out_of_range by lia. reflexivity.
Qed.

Lemma sum_list_drop_zero (h : list nat) (idx : nat) :
  (∀ p, idx ≤ p → p < length h → h !! p = Some 0) → sum_list (drop idx h) = 0.
Proof.
  revert idx. induction h as [|x h IH]; intros idx Hz; [destruct idx; reflexivity|].
  destruct idx as [|idx]; cbn [drop].
  - assert (Hx : x = 0).
    { specialize (Hz 0). cbn in Hz. assert (Some x = Some 0) as [= ->] by (apply Hz; lia).
      reflexivity. }
    subst x. cbn. change h with (drop 0 h). apply IH.
    intros p _ Hp. apply (Hz (S p)); simpl; lia.
  - apply IH. intros p Hle Hp. apply (Hz (S p)); simpl; lia.
Qed.

Lemma sum_list_take_drop (h : list nat) (idx : nat) :
  sum_list h = sum_list (take idx h) + sum_list (drop idx h).
Proof. rewrite <- (take_drop idx h) at 1. apply sum_list_with_app. Qed.

Lemma seq_find_first (P : nat → Prop) `{∀ i, Decision (P i)} (n pos i : nat) :
  list_find P (seq 0 n) = Some (pos, i) →
  i = pos ∧ i < n ∧ P i ∧ ∀ j, j < i → ¬ P j.
Proof.
  intros Hf. apply list_find_Some in Hf as (Hl & HP & Hfirst).
  apply lookup_seq in Hl as [-> Hlt]. simpl. repeat split; try assumption.
  intros j Hj. apply (Hfirst j j); [|exact Hj].
  apply lookup_seq. split; [reflexivity | lia].
Qed.

Lemma cut_keeps_the_counts (h : list nat) :
  sum_list (take (cut_index h) h) = sum_list h.
Proof.
  rewrite (sum_list_take_drop h (cut_index h)).
  enough (sum_list (drop (cut_index h) h) = 0) by lia.
  unfold cut_index.
  destruct (list_find _ (seq 0 (length h))) as [[pos i]|] eqn:Hf.
  - apply seq_find_first in Hf as (_ & Hi & _ & Hfirst).
    apply sum_list_drop_zero. intros p Hle Hp.
    destruct (h !! p) as [v|] eqn:Hv; [|apply lookup_ge_None in Hv; lia].
    destruct v as [|v]; [reflexivity|]. exfalso.
    apply (Hfirst (length h - p)); [lia|].
    unfold hist_from_end. destruct (length h - p) as [|d] eqn:Hd; [lia|].
    replace (length h - S d) with p by lia. rewrite Hv. simpl. lia.
  - rewrite drop_ge by reflexivity. reflexivity.
Qed.

(** X2. [process] leaves the extractor as it is and adds one bar plot to the
    axis; the cut loses no count: the bars are a prefix of the histogram
    with the same sum, and that sum, the number of images counted, is the
    divisor of the normalization (zero when no image was counted). *)
Theorem process_plots_every_count (ax : Ax) (self : SegmentationCountNumObjects) :
  ∃ plot, process ax self = (Returned (ax ++ [plot]), self)
          ∧ bar_counts plot = take (length (bar_counts plot)) (_hist self)
          ∧ sum_list (bar_counts plot) = sum_list (_hist self)
          ∧ bar_divisor plot = sum_list (_hist self)
          ∧ bar_train plot = train_set self.
Proof.
  eexists. split; [reflexivity|]. cbn [bar_counts bar_divisor bar_train].
  split; [|split; [|split]].
  - rewrite length_take.
    destruct (le_lt_dec (cut_index (_hist self)) (length (_hist self))).
    + rewrite Nat.min_l by assumption. reflexivity.
    + rewrite Nat.min_r by lia. rewrite !take_ge by lia. reflexivity.
  - apply cut_keeps_the_counts.
  - apply cut_keeps_the_counts.
  - reflexivity.
Qed.

(** X3. The cut of [process]: once an image without contours was counted,
    nothing is cut and every bin is plotted; with no such image and [m] the
    highest count seen, the bins [0 .. m] are plotted. *)
Theorem process_cut (ax : Ax) (self : SegmentationCountNumObjects) :
  (∀ v, _hist self !! 0 = Some v → 0 < v →
        (process ax self).1
        = Returned (ax ++ [MkBarPlot (_hist self) (sum_list (_hist self))
                                     (seq 0 (length (_hist self)))
                                     "# Objects per image" (train_set self)]))
  ∧ (∀ m v, _hist self !! 0 = Some 0 → 0 < m → _hist self !! m = Some v → 0 < v →
            (∀ p, m < p → p < length (_hist self) → _hist self !! p = Some 0) →
            (process ax self).1
            = Returned (ax ++ [MkBarPlot (take (S m) (_hist self))
                                         (sum_list (take (S m) (_hist self)))
                                         (seq 0 (S m))
                                         "# Objects per image" (train_set self)])).
Proof.
  split.
  - intros v H0 Hv.
    assert (Hcut : cut_index (_hist self) = length (_hist self) + 1).
    { unfold cut_index. destruct (_hist self) as [|x h]; [discriminate|].
      injection H0 as ->. cbn [length seq list_find]. unfold hist_from_end at 1.
      cbn [lookup list_lookup default]. rewrite decide_True by exact Hv. simpl. lia. }
    unfold process, bind, get, ret, create_bar_plot. cbn [fst]. rewrite Hcut.
    rewrite take_ge by lia. reflexivity.
  - intros m v H0 Hm Hmv Hv Habove.
    pose proof (lookup_lt_Some _ _ _ Hmv) as Hlt.
    assert (Hcut : cut_index (_hist self) = S m).
    { unfold cut_index.
      destruct (list_find _ (seq 0 (length (_hist self)))) as [[pos i]|] eqn:Hf.
      - apply seq_find_first in Hf as (_ & Hi & HP & Hfirst).
        assert (i = length (_hist self) - m); [|lia].
        destruct (Nat.lt_trichotomy i (length (_hist self) - m)) as [Hl|[He|Hg]];
          [|exact He|].
        + exfalso. unfold hist_from_end in HP. destruct i as [|i].
          * rewrite H0 in HP. simpl in HP. lia.
          * rewrite (Habove (length (_hist self) - S i)) in HP by lia. simpl in HP. lia.
        + exfalso. apply (Hfirst (length (_hist self) - m)); [exact Hg|].
          unfold hist_from_end. destruct (length (_hist self) - m) as [|d] eqn:Hd; [lia|].
          replace (length (_hist self) - S d) with m by lia. rewrite Hmv. exact Hv.
      - exfalso. apply list_find_None in Hf.
        rewrite Forall_forall in Hf. apply (Hf (length (_hist self) - m)).
        + apply elem_of_seq. lia.
        + unfold hist_from_end. destruct (length (_hist self) - m) as [|d] eqn:Hd; [lia|].
          replace (length (_hist self) - S d) with m by lia. rewrite Hmv. exact Hv. }
    unfold process, bind, get, ret, create_bar_plot. cbn [fst]. rewrite Hcut.
    rewrite length_take. replace (S m `min` length (_hist self)) with (S m) by lia.
    reflexivity.
Qed.

Lemma execute_keeps_what_it_counted_witness :
  ∃ self', execute (MkBatchData (images MoreSamples.mixed_batch) (labels MoreSamples.mixed_batch)
                                [[[Samples.square; Samples.square]; [Samples.square]]])
                   (__init__ true) = (Returned tt, self')
           ∧ execute MoreSamples.mixed_batch (__init__ true) = (Raised IndexError, self').
Proof.
  apply (execute_keeps_what_it_counted (__init__ true) MoreSamples.mixed_batch
           [[[Samples.square; Samples.square]; [Samples.square]]]
           [[[Samples.square]]] [replicate 51 Samples.square]).
  - reflexivity.
  - apply Forall_singleton. vm_compute. lia.
  - vm_compute. lia.
Defined.

Lemma process_cut_witness :
  (process [] MoreSamples.counter_with_empty_images).1
  = Returned [MkBarPlot [2; 0; 1; 0] 3 [0; 1; 2; 3] "# Objects per image" true]
  ∧ (process [] MoreSamples.counter_up_to_three).1
    = Returned [MkBarPlot [0; 2; 1; 1] 4 [0; 1; 2; 3] "# Objects per image" true].
Proof.
  split.
  - apply (proj1 (process_cut [] MoreSamples.counter_with_empty_images) 2).
    + reflexivity.
    + lia.
  - apply (proj2 (process_cut [] MoreSamples.counter_up_to_three) 3 1).
    + reflexivity.
    + lia.
    + reflexivity.
    + lia.
    + intros p Hp Hlen. simpl in Hlen.
      destruct p as [|[|[|[|[|[|p]]]]]]; try lia; reflexivity.
Defined.

End CountNumObjectsMore.

(** ** The orchestrator, beyond the exhausted val split *)

Module ManagerMore.
Import DataClasses Plotting Manager ManagerFacts.

Section orchestrator.
Context {E : Type} `{Extractor.FeatureExtractor E}.
Variable preprocess : Tensor → Tensor → BatchData.
Variable schedule : list Task → list Task.

Abbreviation Mgr := (AnalysisManager (E := E)).
Abbreviation execute_body := (execute_body preprocess schedule).
Abbreviation execute_loop := (execute_loop preprocess schedule).
Abbreviation execute := (Manager.execute preprocess schedule).
Abbreviation batch_of := (λ item : Tensor * Tensor, preprocess item.1 item.2).

(** X4. In a train-only run, as shipped, whose train iterator holds fewer
    batches than the run has passes, and whose extractors take those batches
    without raising: [execute] raises the [StopIteration] of the train
    iterator, after the extractors have seen every batch, with the logger
    as it was. *)
Theorem train_exhaustion_is_fatal (self : Mgr) (tes : list E) :
  _train_only self = true →
  length (pending (_train_iter self)) < _length_data self `min` 4 →
  feed ((λ item, preprocess item.1 item.2) <$> pending (_train_iter self))
       (_train_extractors self) = (Returned tt, tes) →
  ∃ self', execute debug_mode self = (Raised StopIteration, self')
           ∧ _train_extractors self' = tes
           ∧ pending (_train_iter self') = []
           ∧ n_next (_train_iter self')
             = n_next (_train_iter self) + S (length (pending (_train_iter self)))
           ∧ _logger self' = _logger self.
Proof.
  intros Hto Hlen Hfeed.
  set (k := length (pending (_train_iter self))) in *.
  assert (Hloop : ∃ self', execute_loop true (seq 0 (_length_data self)) None self
                           = (Raised StopIteration, self')
                           ∧ _train_extractors self' = tes
                           ∧ pending (_train_iter self') = []
                           ∧ n_next (_train_iter self') = n_next (_train_iter self) + S k
                           ∧ _logger self' = _logger self).
  { rewrite execute_loop_first_four.
    replace (_length_data self `min` 4)
      with (k + S (_length_data self `min` 4 - S k)) by lia.
    rewrite seq_app. unfold Manager.execute_loop. rewrite for_fold_app. unfold bind.
    fold (execute_loop true (seq 0 k) None).
    rewrite (execute_loop_train_only preprocess schedule (seq 0 k) None self tes).
    - cbn [seq for_fold]. unfold bind. rewrite execute_body_debug by lia.
      cbn [pending _train_iter]. rewrite length_seq. fold k. rewrite drop_ge by (unfold k; lia).
      eexists. split; [reflexivity|]. cbn. repeat split. lia.
    - apply Forall_forall. intros i Hi. apply elem_of_seq in Hi. lia.
    - exact Hto.
    - rewrite length_seq. unfold k. lia.
    - rewrite length_seq. unfold k. rewrite take_ge by lia. exact Hfeed. }
  destruct Hloop as (self' & Hl & Hrest).
  exists self'. split; [|exact Hrest].
  rewrite execute_unfold. unfold debug_mode. rewrite Hl. reflexivity.
Qed.

(** What the parallel mode itself can raise. *)
Abbreviation from_the_loop e :=
  (e = StopIteration ∨ e = TypeError ∨ e = UnboundLocalError).

Lemma for_fold_returns {S X L} (xs : list X) (l : L) (body : X → L → M S L) (s : S) :
  (∀ x l s, ∃ l' s', body x l s = (Returned l', s')) →
  ∃ l' s', for_fold xs l body s = (Returned l', s').
Proof.
  intros Hb. revert l s. induction xs as [|x xs IH]; intros l s.
  - eexists _, _. reflexivity.
  - cbn [for_fold]. unfold bind. destruct (Hb x l s) as (l1 & s1 & ->). apply IH.
Qed.

Lemma for_fold_raises {S X L} (P : exn → Prop) (xs : list X) (l : L)
    (body : X → L → M S L) (s : S) (e : exn) :
  (∀ x l s e, (body x l s).1 = Raised e → P e) →
  (for_fold xs l body s).1 = Raised e → P e.
Proof.
  intros Hb. revert l s. induction xs as [|x xs IH]; intros l s; [discriminate|].
  cbn [for_fold]. unfold bind. pose proof (Hb x l s) as Hx.
  destruct (body x l s) as [[l1|e1] s1]; [apply IH|].
  intros [= <-]. apply Hx. reflexivity.
Qed.

Lemma submit_all_returns (w : Which) (batch_data : BatchData) (self : Mgr) :
  ∃ fs self', submit_all w batch_data self = (Returned fs, self').
Proof.
  unfold submit_all, bind at 1, get at 1. apply for_fold_returns.
  intros i l s. eexists _, _. reflexivity.
Qed.

Lemma execute_body_parallel_raises (train_batch : nat) (futures : option (list Task))
    (self : Mgr) (e : exn) :
  (execute_body false train_batch futures self).1 = Raised e → from_the_loop e.
Proof.
  unfold Manager.execute_body. rewrite andb_false_r. cbn [negb]. unfold bind at 1.
  unfold _get_batch_train, zoom, _get_batch, bind at 1, next.
  destruct (pending (_train_iter self)) as [|item rest]; [intros [= <-]; auto|].
  unfold ret at 1. unfold bind at 1, get at 1. unfold bind at 1.
  match goal with |- context [for_fold ?xs futures ?body ?s] =>
    destruct (for_fold_returns xs futures body s) as (f1 & s1 & ->) end.
  { intros i l s. unfold bind. destruct (submit_all_returns TrainExtractors
      (preprocess item.1 item.2) s) as (fs & s' & ->). eexists _, _. reflexivity. }
  unfold bind at 1, get at 1. unfold bind at 1.
  destruct (_train_only s1); cbn [negb].
  - unfold ret at 1. destruct f1 as [fs|]; [|intros [= <-]; auto]. discriminate.
  - unfold try_except_StopIteration, _get_batch_val.
    destruct (_val_iter s1) as [vit|]; [|intros [= <-]; auto].
    unfold _get_batch, bind at 1, next.
    destruct (pending vit) as [|vitem vrest].
    + unfold bind at 1, modify, ret at 1. destruct f1 as [fs|]; [|intros [= <-]; auto].
      discriminate.
    + unfold ret at 1. unfold bind at 1, get at 1.
      match goal with |- context [for_fold ?xs f1 ?body ?s] =>
        pose proof (for_fold_raises (λ e, e = UnboundLocalError) xs f1 body s) as Hval;
        destruct (for_fold xs f1 body s) as [[f2|e2] s2] end.
      * destruct f2 as [fs|]; [|intros [= <-]; auto]. discriminate.
      * intros [= <-]. right. right. apply Hval; [|reflexivity].
        intros i [fs|] s e'; [|intros [= <-]; reflexivity].
        unfold bind. destruct (submit_all_returns ValExtractors
          (preprocess vitem.1 vitem.2) s) as (new & s' & ->). discriminate.
Qed.

(** X5. In parallel mode nothing that an extractor raises comes out of
    [execute]: it returns, or raises the [StopIteration] of the train
    iterator, the [TypeError] of a missing val iterator, or the
    [UnboundLocalError] of its own variable [futures]. *)
Theorem parallel_mode_swallows_extractor_errors (self : Mgr) (e : exn) :
  (execute false self).1 = Raised e →
  e = StopIteration ∨ e = TypeError ∨ e = UnboundLocalError.
Proof.
  rewrite execute_unfold. cbn [fst].
  destruct (execute_loop false (seq 0 (_length_data self)) None self) as [[f|e'] s'] eqn:Hl;
    [discriminate|].
  intros [= <-].
  apply (for_fold_raises (λ e, from_the_loop e) (seq 0 (_length_data self)) None
           (execute_body false) self).
  - intros i l s e0. apply execute_body_parallel_raises.
  - unfold Manager.execute_loop in Hl. rewrite Hl. reflexivity.
Qed.

(** X6. In parallel mode without any extractor, the first pass of a run
    pulls its batches and then raises [UnboundLocalError]: [futures] was
    never assigned when [wait] reads it. *)
Theorem parallel_mode_needs_an_extractor (self : Mgr) :
  _train_extractors self = [] →
  _val_extractors self = [] →
  0 < _length_data self →
  pending (_train_iter self) ≠ [] →
  _train_only self = true ∨ is_Some (_val_iter self) →
  (execute false self).1 = Raised UnboundLocalError
  ∧ n_next (_train_iter (execute false self).2) = S (n_next (_train_iter self)).
Proof.
  intros Ht Hv Hlen Hp Hsplit. rewrite execute_unfold. cbn [fst snd].
  destruct (_length_data self) as [|n] eqn:Hn; [lia|]. cbn [seq].
  unfold Manager.execute_loop. cbn [for_fold].
  assert (Hbody : ∃ s', execute_body false 0 None self = (Raised UnboundLocalError, s')
                        ∧ n_next (_train_iter s') = S (n_next (_train_iter self))).
  { clear Hn. destruct self as [tes ves q to [items nn] vi lg len].
    cbn in Ht, Hv, Hp, Hsplit. subst.
    destruct items as [|item rest]; [congruence|].
    destruct to.
    - eexists. split; reflexivity.
    - destruct Hsplit as [|[[vitems vn] ->]]; [discriminate|].
      destruct vitems as [|vitem vrest]; eexists; split; reflexivity. }
  destruct Hbody as (s' & Hb & Hs'). unfold bind. rewrite Hb. split; [reflexivity | exact Hs'].
Qed.

(** X7. When [post_process] returns it has logged one figure for every pair
    of a val and a train extractor, after the figures logged before. *)
Theorem post_process_logs_a_figure_per_pair (self self' : Mgr) :
  post_process self = (Returned tt, self') →
  ∃ figures, _logger self' = _logger self ++ figures
             ∧ length figures
               = length (_val_extractors self) `min` length (_train_extractors self).
Proof.
  unfold post_process, bind at 1, get at 1. intros Hret.
  set (n := length (_val_extractors self) `min` length (_train_extractors self)) in *.
  assert (Hpre : ∀ xs s s',
    for_ xs (λ i : nat,
       let ax : Ax := [] in
       let! self0 := get in
       let! ax0 := (if negb (_train_only self0)
                    then on_extractor ValExtractors i (Extractor.process ax) ax
                    else ret ax) in
       let! ax1 := on_extractor TrainExtractors i (Extractor.process ax0) ax0 in
       let! self1 := get in
       log_graph (extractor_class_name ValExtractors i self1 +:+ "/fig") ax1) s
    = (Returned tt, s') →
    ∃ figures, _logger s' = _logger s ++ figures ∧ length figures = length xs).
  { induction xs as [|i xs IH]; intros s s'.
    - intros [= <-]. exists []. rewrite app_nil_r. split; reflexivity.
    - cbn [for_]. unfold bind at 1.
      match goal with |- context [let (_, _) := ?c s in _] =>
        destruct (c s) as [[[]|e] s1] eqn:Hbody end; [|discriminate].
      intros Hrest. destruct (IH _ _ Hrest) as (figs & Hl & Hn).
      assert (Hone : ∃ fig, _logger s1 = _logger s ++ [fig]).
      { revert Hbody. cbv zeta. unfold bind at 1, get at 1. unfold bind at 1.
        destruct (negb (_train_only s)).
        - unfold on_extractor at 1. cbn [extractors].
          destruct (_val_extractors s !! i) as [ve|].
          + destruct (Extractor.process [] ve) as [[ax0|e] ve']; [|discriminate].
            unfold bind at 1, on_extractor at 1. cbn [extractors set_extractors _train_extractors].
            destruct (_train_extractors s !! i) as [te|].
            * destruct (Extractor.process ax0 te) as [[ax1|e] te']; [|discriminate].
              unfold bind, get, log_graph, modify. intros [= <-]. eexists. reflexivity.
            * unfold bind, get, log_graph, modify. intros [= <-]. eexists. reflexivity.
          + unfold bind at 1, on_extractor at 1. cbn [extractors].
            destruct (_train_extractors s !! i) as [te|].
            * destruct (Extractor.process [] te) as [[ax1|e] te']; [|discriminate].
              unfold bind, get, log_graph, modify. intros [= <-]. eexists. reflexivity.
            * unfold bind, get, log_graph, modify. intros [= <-]. eexists. reflexivity.
        - unfold ret at 1. unfold bind at 1, on_extractor at 1. cbn [extractors].
          destruct (_train_extractors s !! i) as [te|].
          + destruct (Extractor.process [] te) as [[ax1|e] te']; [|discriminate].
            unfold bind, get, log_graph, modify. intros [= <-]. eexists. reflexivity.
          + unfold bind, get, log_graph, modify. intros [= <-]. eexists. reflexivity. }
      destruct Hone as (fig & Hfig). exists (fig :: figs).
      rewrite Hl, Hfig, <- app_assoc. split; [reflexivity | simpl; lia]. }
  destruct (Hpre _ _ _ Hret) as (figs & Hl & Hn).
  exists figs. split; [exact Hl|]. rewrite Hn, length_seq. reflexivity.
Qed.


(** X8. In debug mode what an extractor raises on the first train batch
    comes out of [execute]: the batch was pulled, the train extractors are
    as the failing call left them, and nothing else of the manager has
    changed; no val batch was pulled and no figure logged. *)
Theorem debug_mode_raises_what_an_extractor_raises
    (self : Mgr) (item : Tensor * Tensor) (rest : list (Tensor * Tensor))
    (e : exn) (tes : list E) :
  0 < _length_data self →
  pending (_train_iter self) = item :: rest →
  execute_all (batch_of item) (_train_extractors self) = (Raised e, tes) →
  execute debug_mode self
  = (Raised e,
     set_extractors TrainExtractors tes
       (set_train_iter (MkIterator rest (S (n_next (_train_iter self)))) self)).
Proof.
  intros Hlen Hpending Hraise.
  rewrite execute_unfold. unfold debug_mode.
  destruct (_length_data self) as [|n]; [lia|].
  cbn [seq]. unfold Manager.execute_loop. cbn [for_fold]. unfold bind.
  rewrite execute_body_debug by lia. rewrite Hpending, Hraise. reflexivity.
Qed.

End orchestrator.

Lemma train_exhaustion_is_fatal_witness :
  ∃ self', Manager.execute Samples.one_contour Samples.in_order debug_mode
             (Samples.counting_manager 3 2 0) = (Raised StopIteration, self')
           ∧ (SegmentationExtractors._hist <$> _train_extractors self')
             = [<[1 := 2]> (replicate 51 0)]
           ∧ n_next (_train_iter self') = 3
           ∧ _logger self' = [].
Proof.
  destruct (train_exhaustion_is_fatal Samples.one_contour Samples.in_order
              (Samples.counting_manager 3 2 0)
              [SegmentationExtractors.MkCountNumObjects true (<[1 := 2]> (replicate 51 0))])
    as (self' & Hex & Htes & _ & Hn & Hlog).
  - reflexivity.
  - vm_compute. lia.
  - vm_compute. reflexivity.
  - exists self'. rewrite Htes. repeat split; assumption.
Defined.

Lemma parallel_mode_swallows_extractor_errors_witness :
  (Manager.execute Samples.one_contour Samples.in_order false
     (Samples.counting_manager 2 1 0)).1 = Raised StopIteration
  ∧ (StopIteration = StopIteration ∨ StopIteration = TypeError
     ∨ StopIteration = UnboundLocalError).
Proof.
  assert (Hraised : (Manager.execute Samples.one_contour Samples.in_order false
                       (Samples.counting_manager 2 1 0)).1 = Raised StopIteration)
    by (vm_compute; reflexivity).
  split; [exact Hraised|].
  exact (parallel_mode_swallows_extractor_errors Samples.one_contour Samples.in_order
           (Samples.counting_manager 2 1 0) StopIteration Hraised).
Defined.

Lemma parallel_mode_needs_an_extractor_witness :
  (Manager.execute Samples.one_contour Samples.in_order false MoreSamples.bare_manager).1
  = Raised UnboundLocalError
  ∧ n_next (_train_iter
              (Manager.execute Samples.one_contour Samples.in_order false
                 MoreSamples.bare_manager).2)
    = S (n_next (_train_iter MoreSamples.bare_manager)).
Proof.
  apply (parallel_mode_needs_an_extractor Samples.one_contour Samples.in_order
           MoreSamples.bare_manager).
  - reflexivity.
  - reflexivity.
  - vm_compute. lia.
  - discriminate.
  - left. reflexivity.
Defined.

Lemma post_process_logs_a_figure_per_pair_witness :
  ∃ figures,
    _logger (post_process MoreSamples.uneven_manager).2
    = _logger MoreSamples.uneven_manager ++ figures
    ∧ length figures
      = length (_val_extractors MoreSamples.uneven_manager)
          `min` length (_train_extractors MoreSamples.uneven_manager).
Proof.
  apply (post_process_logs_a_figure_per_pair MoreSamples.uneven_manager
           (post_process MoreSamples.uneven_manager).2).
  vm_compute. reflexivity.
Defined.

Lemma debug_mode_raises_what_an_extractor_raises_witness :
  Manager.execute MoreSamples.crowded_image Samples.in_order debug_mode
    (Samples.counting_manager 3 3 1)
  = (Raised IndexError,
     set_extractors TrainExtractors [SegmentationExtractors.__init__ true]
       (set_train_iter
          (MkIterator [Samples.sample_item; Samples.sample_item]
             (S (n_next (_train_iter (Samples.counting_manager 3 3 1)))))
          (Samples.counting_manager 3 3 1))).
Proof.
  apply (debug_mode_raises_what_an_extractor_raises MoreSamples.crowded_image Samples.in_order
           (Samples.counting_manager 3 3 1) Samples.sample_item
           [Samples.sample_item; Samples.sample_item] IndexError
           [SegmentationExtractors.__init__ true]).
  - vm_compute. lia.
  - reflexivity.
  - vm_compute. reflexivity.
Defined.

End ManagerMore.

(** ** The class options, beyond their exclusion *)

Module DetectionManagerMore.
Import Adapter DetectionManager.

Section class_options.
Variable repr_set : list string → string.

Abbreviation __init__ := (__init__ repr_set).

(** The names of the classes, as the constructor settles them when it gets
    that far. *)
Lemma init_returns (args : Args) (data data' : Data) (r : Resolved) :
  __init__ args data = (Returned r, data') →
  data' = data
  ∧ ((truthy_list (class_names args) = true ∧ class_names args = Some (r_class_names r))
     ∨ (truthy_list (class_names args) = false
        ∧ ∃ n, n_classes args = Some n ∧ r_class_names r = pretty <$> range n))
  ∧ ((truthy_list (class_names_to_use args) = true
      ∧ class_names_to_use args = Some (r_class_names_to_use r)
      ∧ invalid_class_names_to_use (r_class_names_to_use r) (r_class_names r) = [])
     ∨ (truthy_list (class_names_to_use args) = false
        ∧ r_class_names_to_use r = r_class_names r)).
Proof.
  unfold DetectionManager.__init__.
  destruct (bool_decide (feature_extractors args ≠ None) && bool_decide (config_path args ≠ None));
    [discriminate|].
  destruct (truthy_int (n_classes args) && truthy_list (class_names args)); [discriminate|].
  destruct (bool_decide (n_classes args = None) && bool_decide (class_names args = None));
    [discriminate|].
  unfold bind.
  assert (Hto : ∀ names,
    match truthy_list (class_names_to_use args), class_names_to_use args with
    | true, Some to_use =>
        match invalid_class_names_to_use to_use names with
        | [] => ret (MkResolved names to_use)
        | invalid =>
            raise (RuntimeError
              ("You defined `class_names_to_use` with classes that are not listed in `class_names`: "
               +:+ repr_set invalid))
        end
    | _, _ => ret (MkResolved names names)
    end data = (Returned r, data') →
    data' = data ∧ r_class_names r = names
    ∧ ((truthy_list (class_names_to_use args) = true
        ∧ class_names_to_use args = Some (r_class_names_to_use r)
        ∧ invalid_class_names_to_use (r_class_names_to_use r) (r_class_names r) = [])
       ∨ (truthy_list (class_names_to_use args) = false
          ∧ r_class_names_to_use r = r_class_names r))).
  { intros names. destruct (class_names_to_use args) as [[|x l]|]; cbn [truthy_list].
    - intros [= <- <-]. split; [reflexivity|]. split; [reflexivity|]. right. split; reflexivity.
    - destruct (invalid_class_names_to_use (x :: l) names) eqn:Hinv; [|discriminate].
      intros [= <- <-]. split; [reflexivity|]. split; [reflexivity|]. left.
      split; [reflexivity|]. split; [reflexivity | exact Hinv].
    - intros [= <- <-]. split; [reflexivity|]. split; [reflexivity|]. right. split; reflexivity. }
  destruct (class_names args) as [[|x l]|]; cbn [truthy_list].
  - destruct (n_classes args) as [n|]; [|discriminate]. unfold ret at 1.
    intros Hr. destruct (Hto _ Hr) as (-> & Hn & Hu). split; [reflexivity|].
    split; [right; eauto | exact Hu].
  - unfold ret at 1. intros Hr. destruct (Hto _ Hr) as (-> & Hn & Hu). split; [reflexivity|].
    rewrite Hn. split; [left; auto | rewrite <- Hn; exact Hu].
  - destruct (n_classes args) as [n|]; [|discriminate]. unfold ret at 1.
    intros Hr. destruct (Hto _ Hr) as (-> & Hn & Hu). split; [reflexivity|].
    split; [right; eauto | exact Hu].
Qed.

(** X9. Whenever the constructor gets past its checks, the classes to use
    are among the classes, they are all the classes when none was asked
    for, and they are not empty unless the classes are. *)
Theorem classes_to_use_are_classes (args : Args) (data data' : Data) (r : Resolved) :
  __init__ args data = (Returned r, data') →
  r_class_names_to_use r ⊆ r_class_names r
  ∧ (truthy_list (class_names_to_use args) = false →
     r_class_names_to_use r = r_class_names r)
  ∧ (r_class_names r ≠ [] → r_class_names_to_use r ≠ []).
Proof.
  intros Hr. destruct (init_returns _ _ _ _ Hr) as (_ & _ & [(Ht & Hsome & Hinv)|[Hf Heq]]).
  - split; [|split].
    + intros x Hx. destruct (decide (x ∈ r_class_names r)) as [|Hnin]; [assumption|].
      exfalso. assert (Hin : x ∈ invalid_class_names_to_use (r_class_names_to_use r)
                                 (r_class_names r)).
      { apply list_elem_of_filter. auto. }
      rewrite Hinv in Hin. inversion Hin.
    + rewrite Ht. discriminate.
    + intros _. rewrite Hsome in Ht. destruct (r_class_names_to_use r); [discriminate|done].
  - rewrite Heq. auto.
Qed.

(** X10. Given only [n_classes], or [n_classes] beside an empty list of
    names, the constructor names the classes after their ids: as many
    names as [n_classes] says, all different. *)
Theorem default_class_names_are_distinct (args : Args) (data data' : Data) (r : Resolved) (n : Z) :
  n_classes args = Some n →
  truthy_list (class_names args) = false →
  __init__ args data = (Returned r, data') →
  r_class_names r = pretty <$> range n
  ∧ length (r_class_names r) = Z.to_nat n
  ∧ NoDup (r_class_names r).
Proof.
  intros Hn Hf Hr. destruct (init_returns _ _ _ _ Hr) as (_ & [[Ht _]|(_ & m & Hm & Hnames)] & _);
    [congruence|].
  assert (m = n) as -> by congruence. rewrite Hnames. split; [reflexivity|].
  unfold range. split.
  - rewrite !length_fmap, length_seq. reflexivity.
  - apply NoDup_fmap_2; [apply _|]. apply NoDup_fmap_2; [apply _|]. apply NoDup_seq.
Qed.

(** X11. The empty cases of the class options: an empty list of names
    without [n_classes] ends in the [TypeError] of [range(None)], and an
    [n_classes] that is zero or negative, without names and without
    classes to use, is accepted and settles on no class at all. *)
Theorem empty_class_options (args : Args) (data : Data) :
  ¬ (feature_extractors args ≠ None ∧ config_path args ≠ None) →
  (class_names args = Some [] → n_classes args = None →
   __init__ args data = (Raised TypeError, data))
  ∧ (∀ n, n_classes args = Some n → (n ≤ 0)%Z →
          truthy_list (class_names args) = false →
          truthy_list (class_names_to_use args) = false →
          __init__ args data = (Returned (MkResolved [] []), data)).
Proof.
  intros Hfc. unfold DetectionManager.__init__.
  destruct (bool_decide (feature_extractors args ≠ None) && bool_decide (config_path args ≠ None))
    eqn:Hb.
  { apply andb_true_iff in Hb as [H1 H2]. apply bool_decide_eq_true in H1, H2. tauto. }
  split.
  - intros Hc Hn. rewrite Hc, Hn. reflexivity.
  - intros n Hn Hle Hc Hu. rewrite Hn, Hc, andb_false_r. cbn [bool_decide andb].
    rewrite bool_decide_eq_false_2 by discriminate. cbn [andb].
    unfold range. replace (Z.to_nat n) with 0 by lia.
    destruct (class_names args) as [[|x l]|]; try discriminate Hc;
      destruct (class_names_to_use args) as [[|y k]|]; try discriminate Hu; reflexivity.
Qed.

End class_options.

Lemma classes_to_use_are_classes_witness :
  ["bus"] ⊆ ["car"; "bus"; "bike"]
  ∧ (truthy_list (class_names_to_use Samples.args_with_class_names) = false →
     ["bus"] = ["car"; "bus"; "bike"])
  ∧ (["car"; "bus"; "bike"] ≠ [] → ["bus"] ≠ []).
Proof.
  apply (classes_to_use_are_classes Samples.braces Samples.args_with_class_names
           Samples.untouched_data Samples.untouched_data
           (MkResolved ["car"; "bus"; "bike"] ["bus"])).
  vm_compute. reflexivity.
Defined.

Lemma default_class_names_are_distinct_witness :
  ["0"; "1"; "2"] = pretty <$> range 3
  ∧ length ["0"; "1"; "2"] = Z.to_nat 3
  ∧ NoDup ["0"; "1"; "2"].
Proof.
  apply (default_class_names_are_distinct Samples.braces Samples.args_with_n_classes
           Samples.untouched_data Samples.untouched_data
           (MkResolved ["0"; "1"; "2"] ["0"; "1"; "2"]) 3).
  - reflexivity.
  - reflexivity.
  - vm_compute. reflexivity.
Defined.

Lemma empty_class_options_witness :
  DetectionManager.__init__ Samples.braces MoreSamples.args_with_empty_names
    Samples.untouched_data = (Raised TypeError, Samples.untouched_data)
  ∧ DetectionManager.__init__ Samples.braces MoreSamples.args_with_zero_classes
      Samples.untouched_data = (Returned (MkResolved [] []), Samples.untouched_data).
Proof.
  split.
  - apply (proj1 (empty_class_options Samples.braces MoreSamples.args_with_empty_names
                    Samples.untouched_data (λ H, proj1 H eq_refl))); reflexivity.
  - apply (proj2 (empty_class_options Samples.braces MoreSamples.args_with_zero_classes
                    Samples.untouched_data (λ H, proj1 H eq_refl)) 0%Z).
    + reflexivity.
    + lia.
    + reflexivity.
    + reflexivity.
Defined.

End DetectionManagerMore.

(** ** The accumulators, beyond their aggregation *)

Module AccumulatorsMore.
Import DataClasses FeatureExtractors DictFacts.
Import ImagesResolutionsFacts GetClassDistributionFacts LoopFacts.

(** *** ImagesResolutions *)

Lemma image_key_dimensions (image : Tensor) :
  is_Some (ImagesResolutions.image_key image) ↔ 3 ≤ length (shape image).
Proof.
  unfold ImagesResolutions.image_key. split.
  - destruct (shape image !! 2) as [w|] eqn:Hw; [|intros [? ?]; discriminate].
    intros _. apply lookup_lt_Some in Hw. lia.
  - intros Hlen. destruct (lookup_lt_is_Some_2 (shape image) 2) as [w ->]; [lia|].
    destruct (lookup_lt_is_Some_2 (shape image) 1) as [h ->]; [lia|]. eauto.
Qed.

(** X12. [update] of the resolutions extractor returns when every image of
    the batch has its three dimensions, and raises [IndexError] when one
    has fewer. *)
Theorem update_needs_three_dimensions
    (data : SegBatchData) (self : ImagesResolutions.ImagesResolutions) :
  (Forall (λ image, 3 ≤ length (shape image)) (images data) →
   ∃ self', ImagesResolutions.update data self = (Returned tt, self'))
  ∧ (Exists (λ image, length (shape image) < 3) (images data) →
     (ImagesResolutions.update data self).1 = Raised IndexError).
Proof.
  split.
  - intros Hall. eexists. unfold ImagesResolutions.update.
    apply count_images_returns. eapply Forall_impl; [exact Hall|].
    intros image. apply image_key_dimensions.
  - intros Hex. unfold ImagesResolutions.update.
    apply (for__Exists_raises (λ _, True) (λ image, length (shape image) < 3));
      [exact I | auto | | | exact Hex].
    + intros image s e.
      destruct (ImagesResolutions.image_key image) as [k|] eqn:Hk.
      * rewrite (count_image_keyed _ _ _ _ Hk). discriminate.
      * rewrite (count_image_unkeyed _ _ _ Hk). congruence.
    + intros image s Hlt _. apply count_image_unkeyed.
      destruct (ImagesResolutions.image_key image) eqn:Hk; [|reflexivity].
      assert (3 ≤ length (shape image)) by (apply image_key_dimensions; eauto). lia.
Qed.

Lemma replace_sum (k : Key) (a v : nat) (d : Dict) :
  NoDup (keys d) → dict_get k d = Some v →
  sum_list (dict_values (replace k a d)) + v = sum_list (dict_values d) + a.
Proof.
  unfold keys, dict_values. induction d as [|[k' v'] d IH]; [discriminate|].
  rewrite !fmap_cons. cbn [fst snd dict_get sum_list_with]. intros Hnd Hget.
  apply NoDup_cons in Hnd as [Hk' Hnd].
  destruct (decide (k' = k)) as [->|Hne].
  - injection Hget as ->. cbn [snd].
    assert (Hsame : replace k a d = d).
    { clear IH Hnd. induction d as [|[k2 v2] d IHd]; [reflexivity|].
      rewrite fmap_cons. cbn [fst]. rewrite decide_False.
      - f_equal. apply IHd. intros Hin. apply Hk'. rewrite fmap_cons. right. exact Hin.
      - intros ->. apply Hk'. rewrite fmap_cons. left. }
    rewrite Hsame. unfold id. lia.
  - cbn [snd]. specialize (IH Hnd Hget). unfold id in *. lia.
Qed.

Lemma count_key_sum (k : Key) (d : Dict) :
  NoDup (keys d) →
  sum_list (dict_values (ImagesResolutions.count_key k d)) = S (sum_list (dict_values d)).
Proof.
  intros Hnd. unfold ImagesResolutions.count_key.
  destruct (dict_get k d) as [v|] eqn:Hv.
  - rewrite dict_set_present by eauto. pose proof (replace_sum k (v + 1) v d Hnd Hv). lia.
  - rewrite dict_set_absent by exact Hv. unfold dict_values. rewrite fmap_app.
    rewrite sum_list_with_app. simpl. unfold id. lia.
Qed.

Lemma count_keys_sum (s : Split) (l : list (Split * Key)) (hist : PerSplit Dict) :
  (∀ s', NoDup (keys (at_split s' hist))) →
  sum_list (dict_values (at_split s (ImagesResolutions.count_keys l hist)))
  = sum_list (dict_values (at_split s hist)) + length (filter (λ p, p.1 = s) l).
Proof.
  unfold ImagesResolutions.count_keys. revert hist.
  induction l as [|[s0 k0] l IH]; intros hist Hnd; [simpl; lia|].
  cbn [foldl]. rewrite IH.
  - cbn [fst snd]. rewrite at_split_set_split, filter_cons. cbn [fst].
    destruct (decide (s0 = s)) as [->|].
    + rewrite count_key_sum by apply Hnd. simpl. lia.
    + lia.
  - intros s'. cbn [fst snd]. rewrite at_split_set_split.
    destruct (decide (s0 = s')) as [<-|]; [apply count_key_NoDup|]; apply Hnd.
Qed.

Lemma batch_keys_of_split (s : Split) (batches : list SegBatchData) :
  Forall ImagesResolutions.well_shaped batches →
  length (filter (λ p : Split * Key, p.1 = s) (batches ≫= ImagesResolutions.batch_keys))
  = sum_list ((λ data, length (images data)) <$> filter (λ data, split data = s) batches).
Proof.
  induction 1 as [|data batches Hd Hall IH]; [reflexivity|].
  rewrite bind_cons, filter_app, length_app, IH, filter_cons.
  assert (Hk : ∀ imgs, Forall (λ image, is_Some (ImagesResolutions.image_key image)) imgs →
    length (filter (λ p : Split * Key, p.1 = s)
              (omap (λ image, pair (split data) <$> ImagesResolutions.image_key image) imgs))
    = if decide (split data = s) then length imgs else 0).
  { induction 1 as [|image imgs [k Hk] Himgs IHi];
      [destruct (decide (split data = s)); reflexivity|].
    cbn [omap list_omap]. rewrite Hk. cbn [fmap option_fmap option_map].
    rewrite filter_cons. cbn [fst].
    destruct (decide (split data = s)); cbn [length]; rewrite IHi; reflexivity. }
  unfold ImagesResolutions.batch_keys. rewrite (Hk _ Hd).
  destruct (decide (split data = s)); [rewrite fmap_cons; reflexivity | reflexivity].
Qed.

(** X13. After a fresh resolutions extractor has taken a sequence of
    batches, the counts of a split add up to the number of images of the
    batches of that split. *)
Theorem resolutions_count_every_image
    (batches : list SegBatchData) (r : ImagesResolutions.ImagesResolutions) (s : Split) :
  ImagesResolutions.update_all batches ImagesResolutions.__init__ = (Returned tt, r) →
  sum_list (dict_values (at_split s (ImagesResolutions._hist r)))
  = sum_list ((λ data, length (images data)) <$> filter (λ data, split data = s) batches).
Proof.
  intros Hret. pose proof (update_all_well_shaped _ _ _ Hret) as Hw.
  rewrite (update_all_returns _ _ Hw) in Hret. injection Hret as <-.
  cbn [ImagesResolutions._hist]. rewrite count_keys_sum.
  - rewrite batch_keys_of_split by exact Hw. destruct s; reflexivity.
  - intros s'. destruct s'; apply NoDup_nil_2.
Qed.

(** *** GetClassDistribution *)

Lemma fromkeys_distinct (ks : list Key) :
  NoDup ks → fromkeys ks = (λ k, (k, 0)) <$> ks.
Proof.
  unfold fromkeys.
  enough (Hgen : ∀ d : Dict, NoDup (keys d ++ ks) →
            foldl (λ d k, dict_set k 0 d) d ks = d ++ ((λ k, (k, 0)) <$> ks)).
  { intros Hnd. apply (Hgen []). exact Hnd. }
  induction ks as [|k ks IH]; intros d Hnd; [rewrite app_nil_r; reflexivity|].
  cbn [foldl]. rewrite dict_set_absent.
  - rewrite IH.
    + rewrite fmap_cons, <- app_assoc. reflexivity.
    + unfold keys in *. rewrite fmap_app, <- app_assoc. exact Hnd.
  - apply dict_get_None. apply NoDup_app in Hnd as (_ & Hd & _).
    intros Hin. apply (Hd k Hin). left.
Qed.

Lemma init_keys_elem (n : nat) (ign : list Z) (i : Z) :
  KInt i ∈ GetClassDistribution.init_keys n ign
  ↔ (0 ≤ i < Z.of_nat (n + length ign))%Z ∧ i ∉ ign.
Proof.
  unfold GetClassDistribution.init_keys. rewrite list_elem_of_fmap. split.
  - intros (j & [= ->] & Hj). apply list_elem_of_filter in Hj as [Hnot Hj].
    apply list_elem_of_fmap in Hj as (m & -> & Hm). apply elem_of_seq in Hm.
    split; [lia | exact Hnot].
  - intros [Hr Hnot]. exists i. split; [reflexivity|].
    apply list_elem_of_filter. split; [exact Hnot|].
    apply list_elem_of_fmap. exists (Z.to_nat i). split; [lia|]. apply elem_of_seq. lia.
Qed.

Lemma init_keys_NoDup (n : nat) (ign : list Z) : NoDup (GetClassDistribution.init_keys n ign).
Proof.
  unfold GetClassDistribution.init_keys. apply NoDup_fmap_2.
  - intros i j [= ->]. reflexivity.
  - apply NoDup_filter, NoDup_fmap_2; [exact Nat2Z.inj | apply NoDup_seq].
Qed.

Lemma filter_length_split {A} (P : A → Prop) `{!∀ x, Decision (P x)} (l : list A) :
  length (filter P l) + length (filter (λ x, ¬ P x) l) = length l.
Proof.
  induction l as [|x l IH]; [reflexivity|]. rewrite !filter_cons.
  destruct (decide (P x)) as [HP|HP].
  - rewrite decide_False by tauto. cbn [length]. lia.
  - rewrite decide_True by exact HP. cbn [length]. lia.
Qed.

Lemma filter_Forall_id {A} (P : A → Prop) `{!∀ x, Decision (P x)} (l : list A) :
  Forall P l → filter P l = l.
Proof.
  induction 1 as [|x l Hx Hl IH]; [reflexivity|].
  rewrite filter_cons, decide_True by exact Hx. f_equal. exact IH.
Qed.

Abbreviation initial table n ign := (GetClassDistribution.__init__ table n ign).
Abbreviation hist_of s self := (at_split s (GetClassDistribution._hist self)).

(** X14. A fresh class-distribution extractor holds, for either split, a
    zero count for exactly the ids below [n_classes + len(ignore_labels)]
    that are not ignored: [n_classes] keys when the ignored labels are
    distinct ids of that range, and [n_classes + len(ignore_labels)] keys
    when they all lie outside of it. *)
Theorem init_has_a_zero_count_per_class
    (table : GetClassDistribution.IdToName) (n : nat) (ign : list Z) (s : Split) :
  (∀ i, dict_get (KInt i) (hist_of s (initial table n ign))
        = if decide ((0 ≤ i < Z.of_nat (n + length ign))%Z ∧ i ∉ ign) then Some 0 else None)
  ∧ (NoDup ign → (∀ i, i ∈ ign → (0 ≤ i < Z.of_nat (n + length ign))%Z) →
     length (keys (hist_of s (initial table n ign))) = n)
  ∧ ((∀ i, i ∈ ign → ¬ (0 ≤ i < Z.of_nat (n + length ign))%Z) →
     length (keys (hist_of s (initial table n ign))) = n + length ign).
Proof.
  assert (Hh : hist_of s (initial table n ign)
               = (λ k, (k, 0)) <$> GetClassDistribution.init_keys n ign).
  { destruct s; apply fromkeys_distinct, init_keys_NoDup. }
  assert (Hk : keys (hist_of s (initial table n ign)) = GetClassDistribution.init_keys n ign).
  { rewrite Hh. unfold keys. rewrite <- list_fmap_compose. apply list_fmap_id. }
  split; [|split].
  - intros i. destruct (decide _) as [Hin|Hout].
    + apply dict_get_elem_of; [rewrite Hk; apply init_keys_NoDup|].
      rewrite Hh. apply list_elem_of_fmap. exists (KInt i).
      split; [reflexivity | apply init_keys_elem, Hin].
    + apply dict_get_None. rewrite Hk, init_keys_elem. exact Hout.
  - intros Hnd Hin. rewrite Hk. unfold GetClassDistribution.init_keys. rewrite length_fmap.
    pose proof (filter_length_split (λ i, i ∉ ign)
                  (Z.of_nat <$> seq 0 (n + length ign))) as Hsplit.
    rewrite length_fmap, length_seq in Hsplit.
    assert (Hp : filter (λ i : Z, ¬ (i ∉ ign)) (Z.of_nat <$> seq 0 (n + length ign)) ≡ₚ ign).
    { apply NoDup_Permutation.
      - apply NoDup_filter, NoDup_fmap_2; [exact Nat2Z.inj | apply NoDup_seq].
      - exact Hnd.
      - intros i. rewrite list_elem_of_filter. split.
        + intros [Hi _]. destruct (decide (i ∈ ign)); tauto.
        + intros Hi. split; [tauto|]. apply list_elem_of_fmap. exists (Z.to_nat i).
          specialize (Hin i Hi). split; [lia|]. apply elem_of_seq. lia. }
    rewrite Hp in Hsplit. lia.
  - intros Hout. rewrite Hk. unfold GetClassDistribution.init_keys. rewrite length_fmap.
    rewrite filter_Forall_id; [rewrite length_fmap, length_seq; reflexivity|].
    apply Forall_forall. intros i Hi Hign. apply (Hout i Hign).
    apply list_elem_of_fmap in Hi as (m & -> & Hm). apply elem_of_seq in Hm. lia.
Qed.

Abbreviation total_of s self := (at_split s (GetClassDistribution._total_objects self)).

(** What the updates keep of a class-distribution extractor: the keys [ks]
    it was built with and, per split, the total next to its histogram. *)
Abbreviation balanced ks self :=
  (∀ s, keys (hist_of s self) = ks
        ∧ sum_list (dict_values (hist_of s self)) = total_of s self).

Lemma count_class_balanced (ks : list Key) (p : Split * list Contour)
    (self : GetClassDistribution.GetClassDistribution) :
  NoDup ks → balanced ks self →
  balanced ks (GetClassDistribution.count_class p.1 p.2 self).2.
Proof.
  intros Hnd Hb. destruct p as [s0 [|c0 cs]]; [exact Hb|].
  cbn [fst snd GetClassDistribution.count_class].
  destruct (dict_get (KInt (class_id c0)) (hist_of s0 self)) as [v|] eqn:Hv.
  - rewrite (add_counted_keyed _ _ _ _ _ Hv). cbn [snd]. intros s.
    cbn [GetClassDistribution._hist GetClassDistribution._total_objects].
    destruct (decide (s0 = s)) as [<-|Hne].
    + rewrite !at_split_same, keys_replace. split; [apply Hb|].
      pose proof (replace_sum (KInt (class_id c0)) (v + length (c0 :: cs)) v
                    (hist_of s0 self)) as Hsum.
      rewrite (proj1 (Hb s0)) in Hsum. specialize (Hsum Hnd Hv).
      destruct (Hb s0) as [_ <-]. lia.
    + rewrite !at_split_other by exact Hne. apply Hb.
  - rewrite (add_counted_unkeyed _ _ _ _ Hv). exact Hb.
Qed.

Lemma initial_balanced (table : GetClassDistribution.IdToName) (n : nat) (ign : list Z) :
  balanced (GetClassDistribution.init_keys n ign) (initial table n ign).
Proof.
  intros s.
  assert (Hh : hist_of s (initial table n ign)
               = (λ k, (k, 0)) <$> GetClassDistribution.init_keys n ign).
  { destruct s; apply fromkeys_distinct, init_keys_NoDup. }
  rewrite Hh. clear Hh. unfold keys, dict_values. rewrite <- !list_fmap_compose. split.
  - apply list_fmap_id.
  - transitivity 0; [|destruct s; reflexivity].
    induction (GetClassDistribution.init_keys n ign) as [|k ks IH]; [reflexivity|].
    rewrite fmap_cons. exact IH.
Qed.

Lemma update_all_balanced (table : GetClassDistribution.IdToName) (n : nat) (ign : list Z)
    (batches : list SegBatchData) :
  balanced (GetClassDistribution.init_keys n ign)
           (GetClassDistribution.update_all batches (initial table n ign)).2.
Proof.
  rewrite update_all_as_groups.
  apply (for__preserves (λ self, balanced (GetClassDistribution.init_keys n ign) self)).
  - apply initial_balanced.
  - intros p self. apply count_class_balanced, init_keys_NoDup.
Qed.

(** X15. Whatever batches a class-distribution extractor has been given
    since it was built, and whether or not an update raised, the counts of
    a split add up to the total kept for it, and its keys are still the
    ones it was built with. *)
Theorem total_is_the_sum_of_the_counts
    (table : GetClassDistribution.IdToName) (n : nat) (ign : list Z)
    (batches : list SegBatchData) (s : Split) :
  sum_list (dict_values
              (hist_of s (GetClassDistribution.update_all batches (initial table n ign)).2))
  = total_of s (GetClassDistribution.update_all batches (initial table n ign)).2
  ∧ keys (hist_of s (GetClassDistribution.update_all batches (initial table n ign)).2)
    = keys (hist_of s (initial table n ign)).
Proof.
  destruct (update_all_balanced table n ign batches s) as [Hk Hs].
  destruct (initial_balanced table n ign s) as [Hk0 _].
  split; [exact Hs | congruence].
Qed.

(** X16. A batch with a contour whose class id is an ignored label, or is
    negative, or is [n_classes + len(ignore_labels)] or more, makes
    [update] raise [KeyError], whatever the extractor has counted since it
    was built. *)
Theorem uncounted_class_raises_key_error
    (table : GetClassDistribution.IdToName) (n : nat) (ign : list Z)
    (batches : list SegBatchData) (data : SegBatchData)
    (image_contours : list (list Contour)) (c0 : Contour) (cs : list Contour) :
  image_contours ∈ contours data →
  c0 :: cs ∈ image_contours →
  class_id c0 ∈ ign ∨ (class_id c0 < 0)%Z ∨ (Z.of_nat (n + length ign) ≤ class_id c0)%Z →
  (GetClassDistribution.update data
     (GetClassDistribution.update_all batches (initial table n ign)).2).1
  = Raised KeyError.
Proof.
  intros Himg Hcls Hid. rewrite update_as_groups.
  apply (for__Exists_raises
           (λ self, balanced (GetClassDistribution.init_keys n ign) self)
           (λ p, ∃ c cs', p.2 = c :: cs'
                          ∧ KInt (class_id c) ∉ GetClassDistribution.init_keys n ign)).
  - apply update_all_balanced.
  - intros p self. apply count_class_balanced, init_keys_NoDup.
  - intros [s0 [|c cs']] self e; cbn [fst snd GetClassDistribution.count_class];
      [discriminate|].
    destruct (dict_get (KInt (class_id c)) (hist_of s0 self)) as [v|] eqn:Hv.
    + rewrite (add_counted_keyed _ _ _ _ _ Hv). discriminate.
    + rewrite (add_counted_unkeyed _ _ _ _ Hv). cbn [fst]. intros [= <-]. reflexivity.
  - intros [s0 g] self (c & cs' & -> & Hout) Hb. cbn [fst snd GetClassDistribution.count_class].
    rewrite add_counted_unkeyed; [reflexivity|].
    apply dict_get_None. rewrite (proj1 (Hb s0)). exact Hout.
  - apply Exists_exists. exists (split data, c0 :: cs). split.
    + apply list_elem_of_bind. exists image_contours. split; [|exact Himg].
      apply list_elem_of_fmap. eauto.
    + exists c0, cs. split; [reflexivity|]. rewrite init_keys_elem.
      intros [Hr Hnot]. destruct Hid as [?|[?|?]]; [contradiction | lia | lia].
Qed.

(** X17. [update], of the resolutions extractor as of the class-distribution
    extractor, touches only the split of its batch: the histogram and the
    total of the other split are what they were, also when it raises. *)
Theorem update_leaves_the_other_split
    (data : SegBatchData) (s : Split)
    (r : ImagesResolutions.ImagesResolutions)
    (g : GetClassDistribution.GetClassDistribution) :
  s ≠ split data →
  at_split s (ImagesResolutions._hist (ImagesResolutions.update data r).2)
  = at_split s (ImagesResolutions._hist r)
  ∧ hist_of s (GetClassDistribution.update data g).2 = hist_of s g
  ∧ total_of s (GetClassDistribution.update data g).2 = total_of s g.
Proof.
  intros Hne. split.
  - unfold ImagesResolutions.update.
    apply (for__preserves
             (λ r', at_split s (ImagesResolutions._hist r')
                    = at_split s (ImagesResolutions._hist r))); [reflexivity|].
    intros image r' Hr'. unfold shape_at, bind.
    destruct (shape image !! 2) as [w|]; [|exact Hr'].
    destruct (shape image !! 1) as [h|]; [|exact Hr'].
    cbn [snd modify ret ImagesResolutions._hist].
    rewrite at_split_other by congruence. exact Hr'.
  - unfold GetClassDistribution.update.
    apply (for__preserves (λ g', hist_of s g' = hist_of s g ∧ total_of s g' = total_of s g));
      [split; reflexivity|].
    intros image_contours g1 Hg1. apply for__preserves; [exact Hg1|].
    intros [|c cs] g' Hg'; [exact Hg'|].
    destruct (dict_get (KInt (class_id c)) (hist_of (split data) g')) as [v|] eqn:Hv.
    + rewrite (add_counted_keyed _ _ _ _ _ Hv).
      cbn [snd GetClassDistribution._hist GetClassDistribution._total_objects].
      rewrite !at_split_other by congruence. exact Hg'.
    + rewrite (add_counted_unkeyed _ _ _ _ Hv). exact Hg'.
Qed.


Lemma update_needs_three_dimensions_witness :
  (∃ self', ImagesResolutions.update Samples.small_batch ImagesResolutions.__init__
            = (Returned tt, self'))
  ∧ (ImagesResolutions.update MoreSamples.flat_batch ImagesResolutions.__init__).1
    = Raised IndexError.
Proof.
  split.
  - apply (proj1 (update_needs_three_dimensions Samples.small_batch ImagesResolutions.__init__)).
    apply Forall_cons. split; [vm_compute; lia|]. apply Forall_singleton. vm_compute. lia.
  - apply (proj2 (update_needs_three_dimensions MoreSamples.flat_batch ImagesResolutions.__init__)).
    apply Exists_cons_tl, Exists_cons_hd. vm_compute. lia.
Defined.

Lemma resolutions_count_every_image_witness :
  sum_list (dict_values
              (at_split Train
                 (ImagesResolutions._hist
                    (ImagesResolutions.update_all
                       [Samples.small_batch; MoreSamples.val_batch; Samples.large_batch]
                       ImagesResolutions.__init__).2)))
  = sum_list ((λ data, length (images data))
                <$> filter (λ data, split data = Train)
                      [Samples.small_batch; MoreSamples.val_batch; Samples.large_batch]).
Proof.
  apply (resolutions_count_every_image
           [Samples.small_batch; MoreSamples.val_batch; Samples.large_batch]
           (ImagesResolutions.update_all
              [Samples.small_batch; MoreSamples.val_batch; Samples.large_batch]
              ImagesResolutions.__init__).2 Train).
  vm_compute. reflexivity.
Defined.

Lemma init_has_a_zero_count_per_class_witness :
  length (keys (hist_of Train (initial None 19 [19%Z]))) = 19
  ∧ length (keys (hist_of Train (initial None 19 [255%Z]))) = 19 + length [255%Z].
Proof.
  split.
  - apply (init_has_a_zero_count_per_class None 19 [19%Z] Train).
    + apply NoDup_singleton.
    + intros i Hi. apply list_elem_of_singleton in Hi as ->. simpl. lia.
  - apply (init_has_a_zero_count_per_class None 19 [255%Z] Train).
    intros i Hi. apply list_elem_of_singleton in Hi as ->. simpl. lia.
Defined.

Lemma uncounted_class_raises_key_error_witness :
  (GetClassDistribution.update MoreSamples.stray_batch
     (GetClassDistribution.update_all [Samples.small_batch] (initial None 2 [])).2).1
  = Raised KeyError.
Proof.
  apply (uncounted_class_raises_key_error None 2 [] [Samples.small_batch]
           MoreSamples.stray_batch [[Samples.blob 0]; [Samples.blob 7]] (Samples.blob 7) []).
  - apply list_elem_of_here.
  - apply list_elem_of_further, list_elem_of_here.
  - right. right. simpl. lia.
Defined.

Lemma update_leaves_the_other_split_witness :
  at_split Val (ImagesResolutions._hist
                  (ImagesResolutions.update Samples.small_batch ImagesResolutions.__init__).2)
  = at_split Val (ImagesResolutions._hist ImagesResolutions.__init__)
  ∧ hist_of Val (GetClassDistribution.update Samples.small_batch Samples.two_classes).2
    = hist_of Val Samples.two_classes
  ∧ total_of Val (GetClassDistribution.update Samples.small_batch Samples.two_classes).2
    = total_of Val Samples.two_classes.
Proof.
  apply (update_leaves_the_other_split Samples.small_batch Val
           ImagesResolutions.__init__ Samples.two_classes).
  discriminate.
Defined.

End AccumulatorsMore.

(** ** The class distribution of the old pipeline *)

Module SegmentationGetClassDistributionFacts.
Import DataClasses Sequences SegmentationGetClassDistribution LoopFacts.

Lemma py_index_lt (len : nat) (i : Z) (p : nat) : py_index len i = Some p → p < len.
Proof.
  unfold py_index. repeat case_decide; intros [= <-]; lia.
Qed.

Lemma sum_list_alter (n p : nat) (l : list nat) :
  p < length l → sum_list (alter (λ v, v + n) p l) = sum_list l + n.
Proof.
  revert p. induction l as [|x l IH]; intros p Hp; [simpl in Hp; lia|].
  destruct p as [|p]; simpl.
  - lia.
  - simpl in Hp. unfold alter in IH. rewrite IH by lia. lia.
Qed.

Lemma num_objects_sum (onehot_contours : list (list Contour)) :
  SegmentationExtractors.num_objects_per_image onehot_contours
  = sum_list (length <$> onehot_contours).
Proof.
  unfold SegmentationExtractors.num_objects_per_image.
  enough (Hgen : ∀ acc, foldl (λ acc (c : list Contour), acc + length c) acc onehot_contours
                        = acc + sum_list (length <$> onehot_contours)) by exact (Hgen 0).
  induction onehot_contours as [|c l IH]; intros acc; cbn [foldl].
  - simpl. lia.
  - rewrite IH, fmap_cons. simpl. lia.
Qed.

Section execute.
Variable get_contour_class : Contour → Tensor → Z.

Abbreviation execute := (execute get_contour_class).
Abbreviation count_class := (count_class get_contour_class).

Lemma count_class_returns (data : BatchData) (i : nat) (cls_contours : list Contour)
    (self self' : SegmentationGetClassDistribution) :
  count_class data i cls_contours self = (Returned tt, self') →
  length (_hist self') = length (_hist self)
  ∧ sum_list (_hist self') = sum_list (_hist self) + length cls_contours
  ∧ train_set self' = train_set self.
Proof.
  unfold SegmentationGetClassDistribution.count_class, first, tensor_at, bind, hist_add.
  destruct cls_contours as [|c0 cs]; [discriminate|]. cbn [ret].
  destruct (shape (labels data)) as [|n dims]; [discriminate|].
  destruct (decide (i < n)); [|discriminate]. cbn [ret].
  destruct (py_index _ _) as [p|] eqn:Hp; [|discriminate].
  intros [= <-]. cbn [_hist train_set]. apply py_index_lt in Hp.
  split; [apply length_alter|]. split; [apply sum_list_alter, Hp | reflexivity].
Qed.

Lemma count_class_raises (data : BatchData) (i : nat) (cls_contours : list Contour)
    (self : SegmentationGetClassDistribution) (e : exn) :
  (count_class data i cls_contours self).1 = Raised e → e = IndexError.
Proof.
  unfold SegmentationGetClassDistribution.count_class, first, tensor_at, bind, hist_add.
  destruct cls_contours as [|c0 cs]; [intros [= <-]; reflexivity|]. cbn [ret].
  destruct (shape (labels data)) as [|n dims]; [intros [= <-]; reflexivity|].
  destruct (decide (i < n)); [|intros [= <-]; reflexivity]. cbn [ret].
  destruct (py_index _ _) as [p|]; [discriminate | intros [= <-]; reflexivity].
Qed.

Lemma count_classes_return (data : BatchData) (i : nat) (onehot_contours : list (list Contour))
    (self self' : SegmentationGetClassDistribution) :
  for_ onehot_contours (count_class data i) self = (Returned tt, self') →
  length (_hist self') = length (_hist self)
  ∧ sum_list (_hist self')
    = sum_list (_hist self) + SegmentationExtractors.num_objects_per_image onehot_contours
  ∧ train_set self' = train_set self.
Proof.
  rewrite num_objects_sum. revert self.
  induction onehot_contours as [|c l IH]; intros self.
  - intros [= <-]. simpl. split; [reflexivity|]. split; [lia | reflexivity].
  - cbn [for_]. unfold bind.
    destruct (count_class data i c self) as [[[]|e] s1] eqn:Hc; [|discriminate].
    apply count_class_returns in Hc as (Hl & Hs & Ht). intros Hrest.
    apply IH in Hrest as (Hl' & Hs' & Ht'). rewrite fmap_cons. simpl.
    split; [congruence|]. split; [lia | congruence].
Qed.

(** X18. When [execute] of the class distribution returns, its histogram
    has the bins it had, and their sum has grown by the number of contours
    of the batch: by the objects that the contour counter counts per
    image. *)
Theorem class_distribution_counts_every_contour
    (data : BatchData) (self self' : SegmentationGetClassDistribution) :
  execute data self = (Returned tt, self') →
  length (_hist self') = length (_hist self)
  ∧ sum_list (_hist self')
    = sum_list (_hist self)
      + sum_list (SegmentationExtractors.num_objects_per_image <$> batch_onehot_contours data)
  ∧ train_set self' = train_set self.
Proof.
  unfold SegmentationGetClassDistribution.execute, enumerate.
  generalize 0 as o. revert self.
  induction (batch_onehot_contours data) as [|onehot l IH]; intros self o.
  - intros [= <-]. simpl. split; [reflexivity|]. split; [lia | reflexivity].
  - cbn [enumerate_from for_]. unfold bind at 1.
    destruct (for_ onehot _ self) as [[[]|e] s1] eqn:Hc; [|discriminate].
    apply count_classes_return in Hc as (Hl & Hs & Ht). intros Hrest.
    apply IH in Hrest as (Hl' & Hs' & Ht'). rewrite fmap_cons. simpl.
    split; [congruence|]. split; [lia | congruence].
Qed.

(** X19. A batch in which an image has a class without contours makes
    [execute] of the class distribution raise [IndexError], where the
    contour counter counts nothing for that class. *)
Theorem class_distribution_needs_a_contour_per_class
    (data : BatchData) (self : SegmentationGetClassDistribution) :
  Exists (λ onehot_contours, [] ∈ onehot_contours) (batch_onehot_contours data) →
  (execute data self).1 = Raised IndexError.
Proof.
  intros Hex. unfold SegmentationGetClassDistribution.execute.
  apply (for__Exists_raises (λ _, True)
           (λ p : nat * list (list Contour), [] ∈ p.2)); [exact I | auto | | | ].
  - intros [i onehot] s e.
    apply (for__raises_only (λ e, e = IndexError)). intros c s0 e0. apply count_class_raises.
  - intros [i onehot] s Hbad _. cbn [snd] in Hbad.
    apply (for__Exists_raises (λ _, True) (λ c : list Contour, c = []));
      [exact I | auto | | | ].
    + intros c s0 e0. apply count_class_raises.
    + intros c s0 -> _. reflexivity.
    + apply Exists_exists. exists []. split; [exact Hbad | reflexivity].
  - apply Exists_exists in Hex as (onehot & Hin & Hbad).
    destruct (enumerate_from_elem_of 0 _ _ Hin) as [i Hi].
    apply Exists_exists. exists (i, onehot). split; [exact Hi | exact Hbad].
Qed.


(** X20. The bin of a class: [execute] counts the contours of class [c] in
    bin [c - 1], the classes being numbered from one; class 0 and the
    negative classes above [- len(self._hist)] wrap around to the bins
    counted from the end, class 0 to the last bin; any other class raises
    [IndexError] with the histogram as it was. *)
Theorem class_bins_wrap_around
    (data : BatchData) (i : nat) (c0 : Contour) (cs : list Contour) (label : Tensor)
    (self : SegmentationGetClassDistribution) :
  tensor_at (labels data) i self = (Returned label, self) →
  ((- Z.of_nat (length (_hist self)) < get_contour_class c0 label
    ≤ Z.of_nat (length (_hist self)))%Z →
   count_class data i (c0 :: cs) self
   = (Returned tt,
      MkGetClassDistribution (train_set self)
        (alter (λ v, v + length (c0 :: cs))
               (Z.to_nat ((get_contour_class c0 label - 1)
                            `mod` Z.of_nat (length (_hist self))))
               (_hist self))))
  ∧ ((get_contour_class c0 label ≤ - Z.of_nat (length (_hist self))
      ∨ Z.of_nat (length (_hist self)) < get_contour_class c0 label)%Z →
     count_class data i (c0 :: cs) self = (Raised IndexError, self)).
Proof.
  intros Hlabel.
  unfold SegmentationGetClassDistribution.count_class, first, bind. cbn [ret].
  rewrite Hlabel. unfold hist_add, py_index.
  set (c := get_contour_class c0 label). set (len := Z.of_nat (length (_hist self))).
  split.
  - intros Hc. destruct (decide (0 ≤ c - 1 < len)%Z) as [Hpos|Hneg].
    + rewrite Z.mod_small by exact Hpos. reflexivity.
    + rewrite decide_True by lia.
      replace ((c - 1) `mod` len)%Z with (len + (c - 1))%Z; [reflexivity|].
      rewrite <- (Z.mod_add (c - 1) 1 len) by lia.
      rewrite Z.mod_small by lia. lia.
  - intros Hc. rewrite !decide_False by lia. reflexivity.
Qed.

End execute.


Lemma class_distribution_counts_every_contour_witness :
  length [3; 0] = length (_hist (__init__ true 2))
  ∧ sum_list [3; 0]
    = sum_list (_hist (__init__ true 2))
      + sum_list (SegmentationExtractors.num_objects_per_image
                    <$> batch_onehot_contours Samples.sparse_batch)
  ∧ true = train_set (__init__ true 2).
Proof.
  apply (class_distribution_counts_every_contour MoreSamples.class_at_origin
           Samples.sparse_batch (__init__ true 2) (MkGetClassDistribution true [3; 0])).
  vm_compute. reflexivity.
Defined.

Lemma class_distribution_needs_a_contour_per_class_witness :
  (execute MoreSamples.class_at_origin MoreSamples.gappy_batch (__init__ true 2)).1
  = Raised IndexError.
Proof.
  apply (class_distribution_needs_a_contour_per_class MoreSamples.class_at_origin
           MoreSamples.gappy_batch (__init__ true 2)).
  apply Exists_cons_hd. apply list_elem_of_further, list_elem_of_here.
Defined.

Lemma class_bins_wrap_around_witness :
  count_class MoreSamples.class_at_origin MoreSamples.background_batch 0
    [Samples.square; Samples.square] (__init__ true 3)
  = (Returned tt, MkGetClassDistribution true [0; 0; 2])
  ∧ count_class MoreSamples.class_at_origin Samples.sparse_batch 0
      [Samples.square] (__init__ true 0)
    = (Raised IndexError, __init__ true 0).
Proof.
  split.
  - apply (proj1 (class_bins_wrap_around MoreSamples.class_at_origin
                    MoreSamples.background_batch 0 Samples.square [Samples.square]
                    (slice (labels MoreSamples.background_batch) 0) (__init__ true 3)
                    eq_refl)).
    vm_compute. split; [reflexivity | discriminate].
  - apply (proj2 (class_bins_wrap_around MoreSamples.class_at_origin
                    Samples.sparse_batch 0 Samples.square []
                    (slice (labels Samples.sparse_batch) 0) (__init__ true 0)
                    eq_refl)).
    right. vm_compute. reflexivity.
Defined.

End SegmentationGetClassDistributionFacts.

(** ** The appearances of the classes in the images *)

Module AppearancesInImagesFacts.
Import DataClasses Sequences FeatureExtractors AppearancesInImages.
Import DictFacts GetClassDistributionFacts LoopFacts.

Abbreviation hist_at s self := (at_split s (_hist self)).
Abbreviation images_at s self := (at_split s (_number_of_images self)).

(** Every count of [h] is a count of [h0] grown by at most [b]. *)
Abbreviation grown b h0 h :=
  (∀ (k : Key) (v : nat), dict_get k h = Some v → ∃ v0, dict_get k h0 = Some v0 ∧ v ≤ v0 + b k).

(** What a step on the split [s] may change, from [self0] to [self]: the
    counts of [s], by at most [b]. *)
Abbreviation stepped s b self0 self :=
  (_number_of_images self = _number_of_images self0
   ∧ (∀ s', s' ≠ s → hist_at s' self = hist_at s' self0)
   ∧ grown b (hist_at s self0) (hist_at s self)).

(** One for the channels below [j]. *)
Abbreviation below j :=
  (λ k : Key, match k with
              | KInt i => if decide (0 ≤ i < Z.of_nat j)%Z then 1 else 0
              | KStr _ => 0
              end).

Lemma stepped_none (s : Split) (self : AppearancesInImages) (b : Key → nat) :
  stepped s b self self.
Proof.
  split; [reflexivity|]. split; [reflexivity|]. intros k v Hv. exists v. split; [exact Hv | lia].
Qed.

Lemma count_channel_stepped (s : Split) (j : nat) (class_channel : Tensor)
    (self0 self : AppearancesInImages) :
  stepped s (below j) self0 self →
  stepped s (below (S j)) self0 (count_channel s j class_channel self).2.
Proof.
  intros (HN & Hother & Hg).
  assert (Hkeep : stepped s (below (S j)) self0 self).
  { split; [exact HN|]. split; [exact Hother|]. intros k v Hv.
    destruct (Hg k v Hv) as (v0 & Hv0 & Hle). exists v0. split; [exact Hv0|].
    destruct k as [i|]; [|exact Hle].
    destruct (decide (0 ≤ i < Z.of_nat j)%Z).
    - rewrite decide_True by lia. exact Hle.
    - destruct (decide (0 ≤ i < Z.of_nat (S j))%Z); lia. }
  unfold count_channel, torch_max, bind.
  destruct (values class_channel) as [|x xs]; [exact Hkeep|]. cbn [ret].
  destruct (decide (0 < foldl Z.max x xs)%Z); [|exact Hkeep].
  unfold hist_incr.
  destruct (dict_get (KInt (Z.of_nat j)) (hist_at s self)) as [vj|] eqn:Hj; [|exact Hkeep].
  cbn [snd _hist _number_of_images]. split; [exact HN|]. split.
  - intros s' Hne. rewrite at_split_other by congruence. apply Hother, Hne.
  - rewrite at_split_same. intros k v. rewrite dict_get_set.
    destruct (decide (KInt (Z.of_nat j) = k)) as [<-|Hne].
    + intros [= <-]. destruct (Hg _ _ Hj) as (v0 & Hv0 & Hle). exists v0.
      split; [exact Hv0|].
      rewrite decide_False in Hle by lia. rewrite decide_True by lia. lia.
    + intros Hv. destruct Hkeep as (_ & _ & Hg'). apply Hg', Hv.
Qed.

Lemma count_label_stepped (s : Split) (label : Tensor) (m : nat)
    (self0 self : AppearancesInImages) :
  stepped s (λ _, m) self0 self →
  stepped s (λ _, S m) self0 (count_label s label self).2.
Proof.
  intros (HN & Hother & Hg).
  assert (Hkeep : stepped s (λ _, S m) self0 self).
  { split; [exact HN|]. split; [exact Hother|]. intros k v Hv.
    destruct (Hg k v Hv) as (v0 & Hv0 & Hle). exists v0. split; [exact Hv0 | lia]. }
  unfold count_label, tensor_iter, bind.
  destruct (shape label) as [|n dims]; [exact Hkeep|]. cbn [ret].
  pose proof (for__enumerate_counted
                (λ j self', stepped s (below j) self self')
                (slice label <$> seq 0 n)
                (λ '(j, class_channel), count_channel s j class_channel) self) as Hloop.
  destruct Hloop as (HN1 & Hother1 & Hg1).
  - apply stepped_none.
  - intros j x s0. apply count_channel_stepped.
  - intros j s0 (H1 & H2 & H3). split; [exact H1|]. split; [exact H2|].
    intros k v Hv. destruct (H3 k v Hv) as (v0 & Hv0 & Hle). exists v0. split; [exact Hv0|].
    destruct k as [i|]; [|exact Hle].
    destruct (decide (0 ≤ i < Z.of_nat j)%Z).
    + rewrite decide_True by lia. exact Hle.
    + destruct (decide (0 ≤ i < Z.of_nat (S j))%Z); lia.
  - split; [congruence|]. split.
    + intros s' Hne. rewrite Hother1 by exact Hne. apply Hother, Hne.
    + intros k v Hv. destruct (Hg1 k v Hv) as (v1 & Hv1 & Hle1).
      destruct (Hg k v1 Hv1) as (v0 & Hv0 & Hle0). exists v0. split; [exact Hv0|].
      assert (below (length (slice label <$> seq 0 n)) k ≤ 1)
        by (destruct k; [case_decide|]; lia).
      lia.
Qed.

Lemma count_labels_stepped (s : Split) (labels : list Tensor) (self : AppearancesInImages) :
  stepped s (λ _, length labels) self
    (for_ (enumerate labels) (λ '(i, label), count_label s label) self).2.
Proof.
  apply (for__enumerate_counted (λ m self', stepped s (λ _, m) self self')).
  - apply stepped_none.
  - intros m label self'. apply count_label_stepped.
  - intros m self' (H1 & H2 & H3). split; [exact H1|]. split; [exact H2|].
    intros k v Hv. destruct (H3 k v Hv) as (v0 & Hv0 & Hle). exists v0. split; [exact Hv0 | lia].
Qed.

(** The state that [update] reaches, through the state in which the images
    of the batch have been added. *)
Lemma update_unfold (data : SegBatchData) (self : AppearancesInImages) :
  (update data self).2
  = (for_ (enumerate (labels data)) (λ '(i, label), count_label (split data) label)
          (images_add (split data) (length (labels data)) self).2).2.
Proof. reflexivity. Qed.

(** No count above the images of its split. *)
Abbreviation bounded self :=
  (∀ s (k : Key) (v : nat), dict_get k (hist_at s self) = Some v → v ≤ images_at s self).

Lemma update_bounded (data : SegBatchData) (self : AppearancesInImages) :
  bounded self → bounded (update data self).2.
Proof.
  intros Hb. rewrite update_unfold.
  destruct (count_labels_stepped (split data) (labels data)
              (images_add (split data) (length (labels data)) self).2) as (HN & Hother & Hg).
  intros s k v Hv. rewrite HN. cbn [images_add modify snd _number_of_images].
  destruct (decide (s = split data)) as [->|Hne].
  - rewrite at_split_same. destruct (Hg k v Hv) as (v0 & Hv0 & Hle).
    cbn [images_add modify snd _hist] in Hv0. specialize (Hb _ _ _ Hv0). lia.
  - rewrite Hother in Hv by exact Hne. rewrite at_split_other by congruence.
    cbn [images_add modify snd _hist] in Hv. exact (Hb _ _ _ Hv).
Qed.

Lemma fromkeys_zero (ks : list Key) (k : Key) (v : nat) :
  dict_get k (fromkeys ks) = Some v → v = 0.
Proof.
  unfold fromkeys.
  enough (Hgen : ∀ d : Dict, (∀ v, dict_get k d = Some v → v = 0) →
            dict_get k (foldl (λ d k, dict_set k 0 d) d ks) = Some v → v = 0).
  { apply Hgen. discriminate. }
  induction ks as [|k0 ks IH]; intros d Hd; cbn [foldl]; [apply Hd|].
  apply IH. intros v'. rewrite dict_get_set.
  destruct (decide (k0 = k)); [congruence | apply Hd].
Qed.

(** X21. Whatever batches the appearances extractor has been given since it
    was built, and whether or not an update raised, no class has been
    counted in more images than its split has had: no share above one. *)
Theorem appearances_at_most_the_images
    (num_classes : nat) (ign : list Z) (batches : list SegBatchData)
    (s : Split) (k : Key) (v : nat) :
  dict_get k (hist_at s (update_all batches (__init__ num_classes ign)).2) = Some v →
  v ≤ images_at s (update_all batches (__init__ num_classes ign)).2.
Proof.
  revert s k v. unfold update_all.
  apply (for__preserves (λ self, bounded self)).
  - intros s k v Hv.
    assert (v = 0); [|lia]. destruct s; exact (fromkeys_zero _ _ _ Hv).
  - intros data self. apply update_bounded.
Qed.

(** X22. [update] of the appearances extractor adds the images of the batch
    to those of its split before it looks at any of them: they are added
    also when it raises on a label, and the other split keeps its images
    and its counts. *)
Theorem update_adds_the_images_first
    (data : SegBatchData) (self : AppearancesInImages) (s : Split) :
  images_at s (update data self).2
  = (if decide (s = split data) then images_at s self + length (labels data)
     else images_at s self)
  ∧ (s ≠ split data → hist_at s (update data self).2 = hist_at s self).
Proof.
  rewrite update_unfold.
  destruct (count_labels_stepped (split data) (labels data)
              (images_add (split data) (length (labels data)) self).2) as (HN & Hother & _).
  rewrite HN. cbn [images_add modify snd _number_of_images]. split.
  - destruct (decide (s = split data)) as [->|Hne].
    + apply at_split_same.
    + apply at_split_other. congruence.
  - intros Hne. rewrite Hother by exact Hne. reflexivity.
Qed.


Lemma appearances_at_most_the_images_witness :
  dict_get (KInt 1)
    (hist_at Train (update_all [MoreSamples.labelled_batch; MoreSamples.broken_batch]
                      (__init__ 2 [])).2) = Some 3
  ∧ 3 ≤ images_at Train (update_all [MoreSamples.labelled_batch; MoreSamples.broken_batch]
                           (__init__ 2 [])).2.
Proof.
  assert (Hcount : dict_get (KInt 1)
            (hist_at Train (update_all [MoreSamples.labelled_batch; MoreSamples.broken_batch]
                              (__init__ 2 [])).2) = Some 3) by (vm_compute; reflexivity).
  split; [exact Hcount|].
  exact (appearances_at_most_the_images 2 []
           [MoreSamples.labelled_batch; MoreSamples.broken_batch] Train (KInt 1) 3 Hcount).
Defined.

Lemma update_adds_the_images_first_witness :
  (update MoreSamples.broken_batch (__init__ 2 [])).1 = Raised TypeError
  ∧ images_at Train (update MoreSamples.broken_batch (__init__ 2 [])).2
    = images_at Train (__init__ 2 []) + length (labels MoreSamples.broken_batch)
  ∧ hist_at Val (update MoreSamples.broken_batch (__init__ 2 [])).2
    = hist_at Val (__init__ 2 []).
Proof.
  split; [vm_compute; reflexivity|]. split.
  - exact (proj1 (update_adds_the_images_first MoreSamples.broken_batch (__init__ 2 []) Train)).
  - apply (proj2 (update_adds_the_images_first MoreSamples.broken_batch (__init__ 2 []) Val)).
    discriminate.
Defined.

End AppearancesInImagesFacts.

(** ** The order of the updates *)

Module AccumulationOrder.
Import DataClasses FeatureExtractors DictFacts.
Import ImagesResolutionsFacts GetClassDistributionFacts.

(** X23. The order of the batches does not matter to what the two
    accumulators hold.  If a fresh resolutions extractor takes a sequence
    of batches, it takes every rearrangement of it, and ends with the same
    count for every resolution in either split: the same items, possibly
    in another order.  If a class distribution extractor takes a sequence
    from some state, it takes every rearrangement from that state and ends
    in the very same state. *)
Theorem accumulation_commutes (bs1 bs2 : list SegBatchData) :
  bs1 ≡ₚ bs2 →
  (∀ r1, ImagesResolutions.update_all bs1 ImagesResolutions.__init__ = (Returned tt, r1) →
     ∃ r2, ImagesResolutions.update_all bs2 ImagesResolutions.__init__ = (Returned tt, r2)
           ∧ ∀ s, (∀ k, dict_get k (at_split s (ImagesResolutions._hist r1))
                        = dict_get k (at_split s (ImagesResolutions._hist r2)))
                  ∧ at_split s (ImagesResolutions._hist r1)
                    ≡ₚ at_split s (ImagesResolutions._hist r2))
  ∧ (∀ g g1, GetClassDistribution.update_all bs1 g = (Returned tt, g1) →
             GetClassDistribution.update_all bs2 g = (Returned tt, g1)).
Proof.
  intros Hp. split.
  - intros r1 H1.
    pose proof (update_all_well_shaped _ _ _ H1) as Hw1.
    assert (Hw2 : Forall ImagesResolutions.well_shaped bs2) by (rewrite <- Hp; exact Hw1).
    rewrite (update_all_returns _ _ Hw1) in H1. injection H1 as <-.
    eexists. split; [apply (update_all_returns _ _ Hw2)|].
    cbn [ImagesResolutions._hist]. intros s.
    assert (Hk : bs1 ≫= ImagesResolutions.batch_keys ≡ₚ bs2 ≫= ImagesResolutions.batch_keys)
      by (rewrite Hp; reflexivity).
    assert (Hnd : ∀ s', NoDup (keys (at_split s'
                     (ImagesResolutions._hist ImagesResolutions.__init__))))
      by (intros s'; destruct s'; apply NoDup_nil_2).
    pose proof (count_keys_equiv s _ _ (ImagesResolutions._hist ImagesResolutions.__init__) Hk)
      as Heq.
    split; [exact Heq|].
    apply dict_equiv_Permutation; [apply count_keys_NoDup, Hnd .. | exact Heq].
  - intros g g1. apply update_all_Permutation, Hp.
Qed.

Lemma accumulation_commutes_witness :
  ∃ r2, ImagesResolutions.update_all [Samples.large_batch; Samples.small_batch]
          ImagesResolutions.__init__ = (Returned tt, r2)
        ∧ ∀ s, (∀ k, dict_get k
                       (at_split s
                          (ImagesResolutions._hist
                             (ImagesResolutions.update_all
                                [Samples.small_batch; Samples.large_batch]
                                ImagesResolutions.__init__).2))
                     = dict_get k (at_split s (ImagesResolutions._hist r2)))
               ∧ at_split s
                   (ImagesResolutions._hist
                      (ImagesResolutions.update_all [Samples.small_batch; Samples.large_batch]
                         ImagesResolutions.__init__).2)
                 ≡ₚ at_split s (ImagesResolutions._hist r2).
Proof.
  destruct (accumulation_commutes [Samples.small_batch; Samples.large_batch]
              [Samples.large_batch; Samples.small_batch] (perm_swap _ _ _)) as [Hres _].
  apply Hres. vm_compute. reflexivity.
Defined.

End AccumulationOrder.
